(** * food-cli: nutrient extraction, serving scaling and the food log

    A shallow embedding of [src/main.py]: the nutrient loop and the serving
    arithmetic of the [log] and [quick] commands, [log_food], and the reading
    and totalling loops of [today].

    Conventions.
    - A Python [str] that the program carries along (a food description, a
      serving unit, the texts of a log entry, what the decoder returns) is a
      [PyStr.str], the list of its code points.  A text that is only
      compared with constants or built from them (a nutrient name, the
      content of the log file, the API key) is a [string], whose characters
      are the code points below 256; [PyStr.of_string] takes it to a
      [PyStr.str].
    - A Python [float] is a primitive binary64 [float].
    - The food-detail response is a record with optional fields, and
      [d.get(k, default)] is [get] on such a field.  A number of the response
      (an amount, the serving size) is multiplied by the float [servings]
      before it is used, so it is carried as the float that multiplication
      sees; an [int] too large for a float is outside the model.
    - The clock, the two requests and the log file are arguments of the
      functions that use them.  Of [datetime.fromisoformat] and of the
      [rich] console the program needs to know which texts they accept;
      these are the two fields of [LogStore.Console]. *)

From Stdlib Require Import ZArith NArith List Bool Ascii String Floats Lia.
From Stdlib Require Import DecimalString DecimalN DecimalZ.
Import ListNotations.
#[local] Open Scope string_scope.

(** ** Python strings *)
Module PyStr.

(** [p] is an initial part of [s]. *)
Fixpoint has_prefix (p s : string) : bool :=
  match p with
  | EmptyString => true
  | String a p' =>
      match s with
      | EmptyString => false
      | String b s' => (a =? b)%char && has_prefix p' s'
      end
  end.

(** [s.startswith(p)] *)
Definition startswith (s p : string) : bool := has_prefix p s.

(** [sub in s]: [sub] occurs in [s] at some position. *)
Fixpoint contains (sub s : string) : bool :=
  has_prefix sub s ||
  match s with
  | EmptyString => false
  | String _ t => contains sub t
  end.

(** Decimal digits of a natural number, without sign or padding. *)
Definition digits (n : N) : string := NilZero.string_of_uint (N.to_uint n).

(** A [str] in full: the list of its code points. *)
Definition str : Type := list N.

(** The [str] of a text of code points below 256. *)
Fixpoint of_string (s : string) : str :=
  match s with
  | EmptyString => []
  | String c t => N_of_ascii c :: of_string t
  end.

(** [a == b] on [str] *)
Fixpoint eqb (a b : str) : bool :=
  match a, b with
  | [], [] => true
  | x :: a', y :: b' => (x =? y)%N && eqb a' b'
  | _, _ => false
  end.

(** [s.startswith(p)] on [str] *)
Fixpoint str_startswith (s p : str) {struct p} : bool :=
  match p with
  | [] => true
  | a :: p' =>
      match s with
      | [] => false
      | b :: s' => (a =? b)%N && str_startswith s' p'
      end
  end.

(** The surrogate code points, [0xd800..0xdbff] and [0xdc00..0xdfff]. *)
Definition is_high (n : N) : bool := ((55296 <=? n) && (n <=? 56319))%N.

Definition is_low (n : N) : bool := ((56320 <=? n) && (n <=? 57343))%N.

(** Every code point is one of a Python character (below [0x110000]), and
    no high surrogate is directly followed by a low one. *)
Fixpoint no_surrogate_pair (s : str) : bool :=
  match s with
  | [] => true
  | c :: t =>
      (c <? 1114112)%N
      && negb (is_high c && match t with
                            | c2 :: _ => is_low c2
                            | [] => false
                            end)
      && no_surrogate_pair t
  end.

End PyStr.

Coercion PyStr.of_string : string >-> PyStr.str.

(** ** Python floats *)
Module PyFloat.

Definition sign_text (s : bool) : string := if s then "-" else "".

(** Nearest integer to [num / den], ties to the even one ([0 < den]). *)
Definition round_half_even (num den : Z) : Z :=
  let q := (num / den)%Z in
  let r := (num mod den)%Z in
  match (2 * r ?= den)%Z with
  | Lt => q
  | Gt => (q + 1)%Z
  | Eq => if Z.even q then q else (q + 1)%Z
  end.

(** The number of tenths nearest to [m * 2^e]. *)
Definition tenths (m : positive) (e : Z) : Z :=
  if (0 <=? e)%Z then (10 * Zpos m * 2 ^ e)%Z
  else round_half_even (10 * Zpos m) (2 ^ (- e)).

(** [t] tenths as text with one decimal. *)
Definition one_decimal (t : Z) : string :=
  PyStr.digits (Z.to_N (t / 10)) ++ "." ++ PyStr.digits (Z.to_N (t mod 10)).

(** [format(x, ".1f")]: the exact binary value of [x], correctly rounded to
    one decimal place. *)
Definition format_1f (x : float) : string :=
  match Prim2SF x with
  | S754_nan => "nan"
  | S754_infinity s => sign_text s ++ "inf"
  | S754_zero s => sign_text s ++ "0.0"
  | S754_finite s m e => sign_text s ++ one_decimal (tenths m e)
  end.

End PyFloat.

(** ** The json module: values, [dumps] and [loads]

    The encoder follows [json.encoder] with the defaults [json.dumps] uses
    (ASCII-only output, separators [", "] and [": "], no indentation); the
    decoder follows [json.decoder] and [json.scanner] (strict strings, the
    constants NaN, Infinity and -Infinity accepted).  A decoded string is
    a [PyStr.str]; the text that is decoded is made of characters below
    256, which is all that the encoder writes.  The interpreter's limits on
    nesting depth and on the digits of an integer are not modelled. *)
Module Json.

#[warnings="-register-all"] Inductive value : Type :=
| JNull
| JBool (b : bool)
| JInt (z : Z)
| JFloat (f : float)
| JStr (s : PyStr.str)
| JArr (items : list value)
| JObj (pairs : list (PyStr.str * value)).

(** The two conversions between floats and text that Python supplies:
    [float.__repr__], used by the encoder for finite floats, and [float],
    applied by the decoder to a matched number literal. *)
Class FloatText : Type := {
  float_repr : float -> string;
  float_of_string : string -> float
}.

Definition dquote : ascii := "034"%char.

(** *** Dictionaries: association lists in insertion order, keys unique *)

Fixpoint dict_set {V : Type} (d : list (PyStr.str * V)) (k : PyStr.str) (v : V)
  : list (PyStr.str * V) :=
  match d with
  | [] => [(k, v)]
  | (k', v') :: r =>
      if PyStr.eqb k' k then (k', v) :: r else (k', v') :: dict_set r k v
  end.

(** [dict(pairs)]: a later pair replaces the value of an earlier equal key. *)
Definition dict_of_pairs {V : Type} (pairs : list (PyStr.str * V))
  : list (PyStr.str * V) :=
  fold_left (fun d kv => dict_set d (fst kv) (snd kv)) pairs [].

Fixpoint dict_get {V : Type} (d : list (PyStr.str * V)) (k : PyStr.str)
  : option V :=
  match d with
  | [] => None
  | (k', v) :: r => if PyStr.eqb k' k then Some v else dict_get r k
  end.

(** *** Encoder *)

Definition hex_digit (n : N) : ascii :=
  match n with
  | 0 => "0" | 1 => "1" | 2 => "2" | 3 => "3" | 4 => "4" | 5 => "5"
  | 6 => "6" | 7 => "7" | 8 => "8" | 9 => "9" | 10 => "a" | 11 => "b"
  | 12 => "c" | 13 => "d" | 14 => "e" | _ => "f"
  end%N%char.

(** ['\\u{0:04x}'.format(n)] *)
Definition u_escape (n : N) : string :=
  String "\" (String "u"
    (String (hex_digit (n / 4096 mod 16)) (String (hex_digit (n / 256 mod 16))
      (String (hex_digit (n / 16 mod 16)) (String (hex_digit (n mod 16)) ""))))).

(** The replacement of one character by [ESCAPE_ASCII]: the backslash, the
    quote and everything outside [' '..'~'] are escaped, a code point of
    [0x10000] or more as the two surrogates
    [0xd800 | ((n >> 10) & 0x3ff)] and [0xdc00 | (n & 0x3ff)] of
    [n = c - 0x10000]. *)
Definition escape_char (c : N) : string :=
  if (c =? 34)%N then String "\" (String dquote "")
  else if (c =? 92)%N then "\\"
  else if (c =? 8)%N then "\b"
  else if (c =? 12)%N then "\f"
  else if (c =? 10)%N then "\n"
  else if (c =? 13)%N then "\r"
  else if (c =? 9)%N then "\t"
  else if ((32 <=? c) && (c <=? 126))%N then String (ascii_of_N c) ""
  else if (c <? 65536)%N then u_escape c
  else
    let n := (c - 65536)%N in
    u_escape (N.lor 55296 (N.land (N.shiftr n 10) 1023))
    ++ u_escape (N.lor 56320 (N.land n 1023)).

Fixpoint escape (s : PyStr.str) : string :=
  match s with
  | [] => ""
  | c :: t => escape_char c ++ escape t
  end.

(** [py_encode_basestring_ascii] *)
Definition encode_basestring_ascii (s : PyStr.str) : string :=
  String dquote (escape s ++ String dquote "").

(** [int.__repr__] *)
Definition intstr (z : Z) : string :=
  PyFloat.sign_text (z <? 0)%Z ++ PyStr.digits (Z.abs_N z).

Section Encoder.
Context {ft : FloatText}.

(** [floatstr] of [json.encoder] *)
Definition floatstr (o : float) : string :=
  if PrimFloat.is_nan o then "NaN"
  else if (o =? infinity)%float then "Infinity"
  else if (o =? neg_infinity)%float then "-Infinity"
  else float_repr o.

(** [json.dumps(v)] *)
Fixpoint dumps (v : value) : string :=
  match v with
  | JNull => "null"
  | JBool true => "true"
  | JBool false => "false"
  | JInt z => intstr z
  | JFloat f => floatstr f
  | JStr s => encode_basestring_ascii s
  | JArr items =>
      "[" ++
      (fix items_text (l : list value) : string :=
         match l with
         | [] => ""
         | x :: r =>
             match r with
             | [] => dumps x
             | _ :: _ => dumps x ++ ", " ++ items_text r
             end
         end) items ++ "]"
  | JObj pairs =>
      "{" ++
      (fix members_text (l : list (PyStr.str * value)) : string :=
         match l with
         | [] => ""
         | (k, x) :: r =>
             match r with
             | [] => encode_basestring_ascii k ++ ": " ++ dumps x
             | _ :: _ =>
                 encode_basestring_ascii k ++ ": " ++ dumps x ++ ", "
                 ++ members_text r
             end
         end) pairs ++ "}"
  end.

(** The text [dumps] puts between the braces of an object. *)
Fixpoint members_text (l : list (PyStr.str * value)) : string :=
  match l with
  | [] => ""
  | (k, x) :: r =>
      match r with
      | [] => encode_basestring_ascii k ++ ": " ++ dumps x
      | _ :: _ =>
          encode_basestring_ascii k ++ ": " ++ dumps x ++ ", "
          ++ members_text r
      end
  end.

(** The text of an object from just after the opening quote of its first
    key [k] to the closing brace, followed by [rest]. *)
Definition after_quote (k : PyStr.str) (v : value)
  (more : list (PyStr.str * value)) (rest : string) : string :=
  escape k ++ String dquote (": " ++ dumps v ++
    match more with
    | [] => "}" ++ rest
    | _ :: _ => ", " ++ members_text more ++ "}" ++ rest
    end).

End Encoder.

(** Strings and floats: the values of a log entry. *)
Definition flat (v : value) : bool :=
  match v with
  | JStr _ | JFloat _ => true
  | _ => false
  end.

(** Floats, and the strings that the decoder reads back as they were. *)
Definition plain (v : value) : bool :=
  match v with
  | JStr s => PyStr.no_surrogate_pair s
  | JFloat _ => true
  | _ => false
  end.

(** *** Decoder *)

(** [WHITESPACE_STR] *)
Definition is_ws (c : ascii) : bool :=
  match c with
  | " "%char | "009"%char | "010"%char | "013"%char => true
  | _ => false
  end.

(** [WHITESPACE.match(s, end).end()] *)
Fixpoint skip_ws (s : string) : string :=
  match s with
  | EmptyString => ""
  | String c t => if is_ws c then skip_ws t else s
  end.

Definition is_digit (c : ascii) : bool :=
  let n := N_of_ascii c in ((48 <=? n) && (n <=? 57))%N.

Definition hex_value (c : ascii) : option N :=
  let n := N_of_ascii c in
  if ((48 <=? n) && (n <=? 57))%N then Some (n - 48)%N
  else if ((97 <=? n) && (n <=? 102))%N then Some (n - 87)%N
  else if ((65 <=? n) && (n <=? 70))%N then Some (n - 55)%N
  else None.

(** The four hexadecimal digits of a [\uXXXX] escape. *)
Definition decode_uXXXX (a b c d : ascii) : option N :=
  match hex_value a, hex_value b, hex_value c, hex_value d with
  | Some x, Some y, Some z, Some w => Some (((x * 16 + y) * 16 + z) * 16 + w)%N
  | _, _, _, _ => None
  end.

Definition prepend (c : N) (r : option (PyStr.str * string))
  : option (PyStr.str * string) :=
  match r with
  | Some (s, rest) => Some (c :: s, rest)
  | None => None
  end.

(** [BACKSLASH]: the one-letter escapes. *)
Definition backslash (esc : ascii) : option N :=
  match esc with
  | "034"%char => Some 34%N
  | "\"%char => Some 92%N
  | "/"%char => Some 47%N
  | "b"%char => Some 8%N
  | "f"%char => Some 12%N
  | "n"%char => Some 10%N
  | "r"%char => Some 13%N
  | "t"%char => Some 9%N
  | _ => None
  end.

(** [0x10000 + (((uni - 0xd800) << 10) | (uni2 - 0xdc00))] *)
Definition join_surrogates (uni uni2 : N) : N :=
  (65536 + N.lor (N.shiftl (uni - 55296) 10) (uni2 - 56320))%N.

(** [scanstring(s, end, strict=True)], from just after the opening quote:
    the decoded string and the text after the closing quote.  A [\uXXXX]
    escape of a high surrogate that is directly followed by the escape of
    a low one is read with it as one character. *)
Fixpoint scanstring (s : string) : option (PyStr.str * string) :=
  match s with
  | EmptyString => None
  | String c t =>
      if (c =? dquote)%char then Some ([], t)
      else if (c =? "\")%char then
        match t with
        | EmptyString => None
        | String "u" (String h1 (String h2 (String h3 (String h4 t2)))) =>
            match decode_uXXXX h1 h2 h3 h4 with
            | Some n =>
                if PyStr.is_high n then
                  match t2 with
                  | String a (String b
                      (String g1 (String g2 (String g3 (String g4 t3))))) =>
                      if ((a =? "\") && (b =? "u"))%char then
                        match decode_uXXXX g1 g2 g3 g4 with
                        | Some n2 =>
                            if PyStr.is_low n2
                            then prepend (join_surrogates n n2) (scanstring t3)
                            else prepend n (scanstring t2)
                        | None => None
                        end
                      else prepend n (scanstring t2)
                  | _ => prepend n (scanstring t2)
                  end
                else prepend n (scanstring t2)
            | None => None
            end
        | String esc t1 =>
            match backslash esc with
            | Some ch => prepend ch (scanstring t1)
            | None => None
            end
        end
      else if (N_of_ascii c <? 32)%N then None
      else prepend (N_of_ascii c) (scanstring t)
  end.

(** The longest run of decimal digits at the head of a text. *)
Fixpoint span_digits (s : string) : string * string :=
  match s with
  | EmptyString => ("", "")
  | String c t =>
      if is_digit c then
        let (ds, r) := span_digits t in (String c ds, r)
      else ("", s)
  end.

(** A single 0, or a digit from 1 to 9 followed by any digits. *)
Definition match_digits (s : string) : option (string * string) :=
  match s with
  | EmptyString => None
  | String c t =>
      if (c =? "0")%char then Some ("0", t)
      else if is_digit c then
        let (ds, r) := span_digits t in Some (String c ds, r)
      else None
  end.

(** [NUMBER_RE], group 1: an optional minus sign before [match_digits]. *)
Definition match_integer (s : string) : option (string * string) :=
  match s with
  | EmptyString => None
  | String c t =>
      if (c =? "-")%char then
        match match_digits t with
        | Some (i, r) => Some (String "-" i, r)
        | None => None
        end
      else match_digits s
  end.

(** [NUMBER_RE], group 2, optional: a point and at least one digit. *)
Definition match_frac (s : string) : string * string :=
  match s with
  | EmptyString => ("", s)
  | String c t =>
      if (c =? ".")%char then
        match span_digits t with
        | (EmptyString, _) => ("", s)
        | (ds, r) => (String "." ds, r)
        end
      else ("", s)
  end.

(** An optional sign. *)
Definition match_sign (s : string) : string * string :=
  match s with
  | EmptyString => ("", s)
  | String c t =>
      if ((c =? "+") || (c =? "-"))%char then (String c "", t) else ("", s)
  end.

(** [NUMBER_RE], group 3, optional: e or E, an optional sign and at least
    one digit. *)
Definition match_exp (s : string) : string * string :=
  match s with
  | EmptyString => ("", s)
  | String c t =>
      if ((c =? "e") || (c =? "E"))%char then
        let (sign, t1) := match_sign t in
        match span_digits t1 with
        | (EmptyString, _) => ("", s)
        | (ds, r) => (String c (sign ++ ds), r)
        end
      else ("", s)
  end.

(** [NUMBER_RE.match]: the three groups and the text after the match. *)
Definition match_number (s : string)
  : option (string * string * string * string) :=
  match match_integer s with
  | None => None
  | Some (integer, r1) =>
      let (frac, r2) := match_frac r1 in
      let (exp, r3) := match_exp r2 in
      Some (integer, frac, exp, r3)
  end.

Definition of_digits (s : string) : N :=
  match NilZero.uint_of_string s with
  | Some d => N.of_uint d
  | None => 0%N
  end.

(** [int(integer)] on the first group of a match. *)
Definition parse_int (integer : string) : Z :=
  match integer with
  | String "-" t => (- Z.of_N (of_digits t))%Z
  | _ => Z.of_N (of_digits integer)
  end.

(** [s[n:]] *)
Fixpoint drop (n : nat) (s : string) : string :=
  match n, s with
  | O, _ => s
  | S n', String _ t => drop n' t
  | S _, EmptyString => ""
  end.

(** Every character of a text satisfies [p]. *)
Fixpoint all_chars (p : ascii -> bool) (s : string) : bool :=
  match s with
  | EmptyString => true
  | String c t => p c && all_chars p t
  end.

(** The characters a number literal is made of. *)
Definition number_char (c : ascii) : bool :=
  is_digit c
  || (c =? "-")%char || (c =? "+")%char || (c =? ".")%char
  || (c =? "e")%char || (c =? "E")%char.

(** A text that cannot continue a number literal. *)
Definition ends_number (rest : string) : bool :=
  match rest with
  | EmptyString => true
  | String c _ => negb (number_char c)
  end.

(** Neither a line feed nor a carriage return. *)
Definition not_newline (c : ascii) : bool :=
  negb ((c =? "010")%char || (c =? "013")%char).

Section Decoder.
Context {ft : FloatText}.

(** The numeric and constant branches of [_scan_once]. *)
Definition scan_number (s : string) : option (value * string) :=
  match match_number s with
  | Some (integer, frac, exp, rest) =>
      match frac, exp with
      | EmptyString, EmptyString => Some (JInt (parse_int integer), rest)
      | _, _ => Some (JFloat (float_of_string (integer ++ frac ++ exp)), rest)
      end
  | None =>
      if PyStr.has_prefix "NaN" s then Some (JFloat nan, drop 3 s)
      else if PyStr.has_prefix "Infinity" s then Some (JFloat infinity, drop 8 s)
      else if PyStr.has_prefix "-Infinity" s
      then Some (JFloat neg_infinity, drop 9 s)
      else None
  end.

(** [_scan_once], with the loops of [JSONObject] and [JSONArray].  [None]
    is the [JSONDecodeError] that [decode] raises; each nested value costs
    one unit of [fuel], and [loads] supplies more than the text is long.
    [object_members] starts just after the opening quote of a key,
    [array_items] at the start of an item. *)
Fixpoint scan_once (fuel : nat) (s : string) : option (value * string) :=
  match fuel with
  | O => None
  | S fuel' =>
      match s with
      | EmptyString => None
      | String c t =>
          if (c =? dquote)%char then
            match scanstring t with
            | Some (str, rest) => Some (JStr str, rest)
            | None => None
            end
          else if (c =? "{")%char then
            match skip_ws t with
            | String "}" rest => Some (JObj [], rest)
            | String "034" rest => object_members fuel' [] rest
            | _ => None
            end
          else if (c =? "[")%char then
            match skip_ws t with
            | String "]" rest => Some (JArr [], rest)
            | t' => array_items fuel' [] t'
            end
          else if PyStr.has_prefix "null" s then Some (JNull, drop 4 s)
          else if PyStr.has_prefix "true" s then Some (JBool true, drop 4 s)
          else if PyStr.has_prefix "false" s then Some (JBool false, drop 5 s)
          else scan_number s
      end
  end
with object_members (fuel : nat) (pairs : list (PyStr.str * value))
  (s : string)
  : option (value * string) :=
  match fuel with
  | O => None
  | S fuel' =>
      match scanstring s with
      | None => None
      | Some (key, s1) =>
          match skip_ws s1 with
          | String ":" s2 =>
              match scan_once fuel' (skip_ws s2) with
              | None => None
              | Some (v, s3) =>
                  match skip_ws s3 with
                  | String "}" rest =>
                      Some (JObj (dict_of_pairs (pairs ++ [(key, v)])), rest)
                  | String "," s4 =>
                      match skip_ws s4 with
                      | String "034" s5 =>
                          object_members fuel' (pairs ++ [(key, v)]) s5
                      | _ => None
                      end
                  | _ => None
                  end
              end
          | _ => None
          end
      end
  end
with array_items (fuel : nat) (items : list value) (s : string)
  : option (value * string) :=
  match fuel with
  | O => None
  | S fuel' =>
      match scan_once fuel' s with
      | None => None
      | Some (v, s1) =>
          match skip_ws s1 with
          | String "]" rest => Some (JArr (items ++ [v]), rest)
          | String "," s2 => array_items fuel' (items ++ [v]) (skip_ws s2)
          | _ => None
          end
      end
  end.

(** [json.loads(s)]: one value, surrounded by optional whitespace. *)
Definition loads (s : string) : option value :=
  match scan_once (S (String.length s)) (skip_ws s) with
  | Some (v, rest) =>
      match skip_ws rest with
      | EmptyString => Some v
      | String _ _ => None
      end
  | None => None
  end.

(** A number literal with a fraction or an exponent, and nothing after it:
    the texts the decoder hands to [float]. *)
Definition float_literal (s : string) : bool :=
  match match_number s with
  | Some (_, EmptyString, EmptyString, _) => false
  | Some (_, _, _, EmptyString) => true
  | _ => false
  end.

End Decoder.

(** What the decoder needs of the two conversions: the [repr] of a finite
    float is a number literal with a fraction or an exponent, and [float]
    reads it back as the same float. *)
Class FloatTextLaws (ft : FloatText) : Prop := {
  repr_literal :
    forall x, PrimFloat.is_finite x = true -> float_literal (float_repr x) = true;
  repr_roundtrip :
    forall x, PrimFloat.is_finite x = true -> float_of_string (float_repr x) = x
}.

End Json.

(** ** A float text that meets the laws

    The binary mantissa and exponent of a float, written in decimal as a
    number literal.  It is not the shortest decimal text that
    [float.__repr__] prints; it shows that [FloatTextLaws] can be met, and
    the examples compute with it. *)
Module BinaryText.
Import Json.

Definition exponent_text (e : Z) : string :=
  String (if (e <? 0)%Z then "-"%char else "+"%char) (PyStr.digits (Z.abs_N e)).

Definition repr (x : float) : string :=
  match Prim2SF x with
  | S754_finite s m e =>
      PyFloat.sign_text s ++ "0." ++ PyStr.digits (Npos m) ++ "e"
      ++ exponent_text e
  | S754_zero s => PyFloat.sign_text s ++ "0.0"
  | _ => "0.0"
  end.

Definition exponent_of (sign : ascii) (ds : string) : Z :=
  if (sign =? "-")%char then (- Z.of_N (of_digits ds))%Z
  else Z.of_N (of_digits ds).

Definition of_string (s : string) : float :=
  match match_number s with
  | Some (i, f, e, _) =>
      let neg := PyStr.has_prefix "-" i in
      match e with
      | String _ (String sign ds) =>
          match of_digits (drop 1 f) with
          | Npos m => SF2Prim (S754_finite neg m (exponent_of sign ds))
          | N0 => SF2Prim (S754_zero neg)
          end
      | _ => SF2Prim (S754_zero neg)
      end
  | None => 0%float
  end.

Definition text : FloatText :=
  {| float_repr := repr; float_of_string := of_string |}.

End BinaryText.

(** ** Food records of the FoodData Central API *)
Module Usda.

(** [dict.get(key, default)] *)
Definition get {A : Type} (field : option A) (default : A) : A :=
  match field with
  | Some v => v
  | None => default
  end.

(** The [nutrient] sub-record of one [foodNutrients] item. *)
Record NutrientInfo : Type := mkInfo {
  name : option string;
  unitName : option string
}.

(** One item of [foodNutrients]. *)
Record FoodNutrient : Type := mkNutrient {
  nutrient : option NutrientInfo;
  amount : option float
}.

(** The food-detail response of [get_food_details]. *)
Record FoodDetail : Type := mkFood {
  description : option PyStr.str;
  servingSize : option float;
  servingUnit : option PyStr.str;
  foodNutrients : option (list FoodNutrient)
}.

(** The empty dictionary [{}] given as default for [nutrient]. *)
Definition no_info : NutrientInfo := mkInfo None None.

(** The four tracked values: the variables [calories], [protein], [carbs]
    and [fat] of the commands. *)
Record Nutrition : Type := mkNutrition {
  calories : float;
  protein : float;
  carbs : float;
  fat : float
}.

(** [calories = protein = carbs = fat = 0.0] *)
Definition all_zero : Nutrition := mkNutrition 0 0 0 0.

(** *** The [log] command, lines 138-159 *)

(** One iteration of the loop over [foodNutrients] in [log]. *)
Definition log_nutrient_step (acc : Nutrition) (n : FoodNutrient) : Nutrition :=
  let nutrient_name := get (name (get (nutrient n) no_info)) "" in
  let value := get (amount n) 0%float in
  if PyStr.contains "Energy" nutrient_name
     && PyStr.contains "kcal" (get (unitName (get (nutrient n) no_info)) "")
  then mkNutrition value (protein acc) (carbs acc) (fat acc)
  else if (nutrient_name =? "Protein")%string
  then mkNutrition (calories acc) value (carbs acc) (fat acc)
  else if (nutrient_name =? "Carbohydrate, by difference")%string
  then mkNutrition (calories acc) (protein acc) value (fat acc)
  else if (nutrient_name =? "Total lipid (fat)")%string
  then mkNutrition (calories acc) (protein acc) (carbs acc) value
  else acc.

(** The nutrient loop of [log] on a sequence of readings. *)
Definition log_extract_nutrients (nutrients : list FoodNutrient) : Nutrition :=
  fold_left log_nutrient_step nutrients all_zero.

(** [nutrients = food.get("foodNutrients", [])] followed by the loop. *)
Definition log_extract (food : FoodDetail) : Nutrition :=
  log_extract_nutrients (get (foodNutrients food) []).

(** "Adjust for servings" in [log]: the four products and [serving_text]. *)
Definition log_scale (n : Nutrition) (serving_size : float)
  (serving_unit : PyStr.str) (servings : float) : Nutrition * PyStr.str :=
  (mkNutrition (calories n * servings) (protein n * servings)
               (carbs n * servings) (fat n * servings),
   (PyStr.of_string (PyFloat.format_1f (serving_size * servings))
    ++ PyStr.of_string " " ++ serving_unit)%list).

(** *** The [quick] command, lines 271-292 *)

(** One iteration of the loop over [foodNutrients] in [quick]. *)
Definition quick_nutrient_step (acc : Nutrition) (n : FoodNutrient) : Nutrition :=
  let nutrient_name := get (name (get (nutrient n) no_info)) "" in
  let value := get (amount n) 0%float in
  if PyStr.contains "Energy" nutrient_name
     && PyStr.contains "kcal" (get (unitName (get (nutrient n) no_info)) "")
  then mkNutrition value (protein acc) (carbs acc) (fat acc)
  else if (nutrient_name =? "Protein")%string
  then mkNutrition (calories acc) value (carbs acc) (fat acc)
  else if (nutrient_name =? "Carbohydrate, by difference")%string
  then mkNutrition (calories acc) (protein acc) value (fat acc)
  else if (nutrient_name =? "Total lipid (fat)")%string
  then mkNutrition (calories acc) (protein acc) (carbs acc) value
  else acc.

Definition quick_extract_nutrients (nutrients : list FoodNutrient) : Nutrition :=
  fold_left quick_nutrient_step nutrients all_zero.

Definition quick_extract (food : FoodDetail) : Nutrition :=
  quick_extract_nutrients (get (foodNutrients food) []).

(** "Adjust for servings" in [quick]. *)
Definition quick_scale (n : Nutrition) (serving_size : float)
  (serving_unit : PyStr.str) (servings : float) : Nutrition * PyStr.str :=
  (mkNutrition (calories n * servings) (protein n * servings)
               (carbs n * servings) (fat n * servings),
   (PyStr.of_string (PyFloat.format_1f (serving_size * servings))
    ++ PyStr.of_string " " ++ serving_unit)%list).

(** *** The uniform view of a reading *)

Definition reading_name (n : FoodNutrient) : string :=
  get (name (get (nutrient n) no_info)) "".

Definition reading_unit (n : FoodNutrient) : string :=
  get (unitName (get (nutrient n) no_info)) "".

Definition reading_amount (n : FoodNutrient) : float :=
  get (amount n) 0%float.

(** A reading with all three parts present. *)
Definition reading (nm unit : string) (v : float) : FoodNutrient :=
  mkNutrient (Some (mkInfo (Some nm) (Some unit))) (Some v).

(** The tracked fields and the rule that selects a reading for each. *)
Inductive Field : Type := Calories | Protein | Carbs | Fat.

Definition matches (f : Field) (n : FoodNutrient) : bool :=
  match f with
  | Calories => PyStr.contains "Energy" (reading_name n)
                && PyStr.contains "kcal" (reading_unit n)
  | Protein => (reading_name n =? "Protein")%string
  | Carbs => (reading_name n =? "Carbohydrate, by difference")%string
  | Fat => (reading_name n =? "Total lipid (fat)")%string
  end.

Definition field_value (f : Field) (n : Nutrition) : float :=
  match f with
  | Calories => calories n
  | Protein => protein n
  | Carbs => carbs n
  | Fat => fat n
  end.

(** The first and the last reading of a sequence that a field's rule selects. *)
Definition first_match (f : Field) (ns : list FoodNutrient) : option FoodNutrient :=
  find (matches f) ns.

Definition last_match (f : Field) (ns : list FoodNutrient) : option FoodNutrient :=
  find (matches f) (rev ns).

End Usda.

(** ** The log file and the [today] command *)
Module LogStore.
Import Json.

(** The exceptions the reading and totalling loops can raise. *)
Inductive exn : Type :=
| JSONDecodeError
| KeyError
| TypeError
| AttributeError
| OverflowError
| ValueError
| NotRenderableError
| MarkupError.

Inductive result (A : Type) : Type :=
| Ok (a : A)
| Raise (e : exn).
Arguments Ok {A} a.
Arguments Raise {A} e.

Definition bind {A B : Type} (r : result A) (k : A -> result B) : result B :=
  match r with
  | Ok a => k a
  | Raise e => Raise e
  end.

Notation "x <- r ;; k" := (bind r (fun x => k))
  (at level 61, r at next level, right associativity).

(** *** [datetime] *)

(** The fields of [datetime.now()]. *)
Record DateTime : Type := mkDateTime {
  year : N;
  month : N;
  day : N;
  hour : N;
  minute : N;
  second : N;
  microsecond : N
}.

(** Zero padding on the left, as ["%04d"] and ["%02d"] do. *)
Definition zfill (width : nat) (s : string) : string :=
  Nat.iter (width - String.length s) (String "0") s.

(** [date.isoformat()] *)
Definition date_isoformat (d : DateTime) : string :=
  zfill 4 (PyStr.digits (year d)) ++ "-" ++ zfill 2 (PyStr.digits (month d))
  ++ "-" ++ zfill 2 (PyStr.digits (day d)).

(** [datetime.isoformat()] *)
Definition isoformat (d : DateTime) : string :=
  date_isoformat d ++ "T" ++ zfill 2 (PyStr.digits (hour d)) ++ ":"
  ++ zfill 2 (PyStr.digits (minute d)) ++ ":"
  ++ zfill 2 (PyStr.digits (second d))
  ++ (if (microsecond d =? 0)%N then ""
      else "." ++ zfill 6 (PyStr.digits (microsecond d))).

(** *** What lies outside the source

    [today] hands the timestamp of an entry to [datetime.fromisoformat],
    and the commands hand texts that hold data to the [rich] console, which
    reads square brackets in them as markup.  Both raise on a text they do
    not accept; which texts these are is decided by the two libraries, not
    by the program.  A text the console does not print is reported here as
    [MarkupError], the error of a closing tag that closes nothing. *)
Class Console : Type := {
  (** [datetime.fromisoformat(s).strftime("%H:%M")], line 211, returns *)
  fromisoformat_ok : PyStr.str -> bool;
  (** [console.print] renders the text [s] *)
  markup_ok : PyStr.str -> bool
}.

(** *** The file *)

(** [LOG_FILE]: its text, or [None] while the file does not exist. *)
Definition file : Type := option string.

Definition file_text (fs : file) : string :=
  match fs with
  | Some content => content
  | None => ""
  end.

(** Iterating over a file opened for reading in text mode: a line ends at
    a line feed, at a carriage return or at the two together, and is handed
    over with that ending turned into one line feed.  [after_cr] says that
    the previous character was a carriage return. *)
Fixpoint lines_from (after_cr : bool) (s : string) : list string :=
  match s with
  | EmptyString => []
  | String c t =>
      if (c =? "010")%char then
        if after_cr then lines_from false t
        else String "010" "" :: lines_from false t
      else if (c =? "013")%char then String "010" "" :: lines_from true t
      else
        match lines_from false t with
        | [] => [String c ""]
        | l :: ls => String c l :: ls
        end
  end.

Definition readlines (content : string) : list string :=
  lines_from false content.

(** *** Entries *)

(** The dictionary [entry] that [log_food] builds, by key. *)
Record LogEntry : Type := mkEntry {
  timestamp : PyStr.str;
  food : PyStr.str;
  serving : PyStr.str;
  calories : float;
  protein_g : float;
  carbs_g : float;
  fat_g : float
}.

Definition entry_dict (e : LogEntry) : value :=
  JObj [(PyStr.of_string "timestamp", JStr (timestamp e));
        (PyStr.of_string "food", JStr (food e));
        (PyStr.of_string "serving", JStr (serving e));
        (PyStr.of_string "calories", JFloat (calories e));
        (PyStr.of_string "protein_g", JFloat (protein_g e));
        (PyStr.of_string "carbs_g", JFloat (carbs_g e));
        (PyStr.of_string "fat_g", JFloat (fat_g e))].

(** The three texts of an entry are read back as they were written. *)
Definition encodable (e : LogEntry) : bool :=
  PyStr.no_surrogate_pair (timestamp e)
  && PyStr.no_surrogate_pair (food e)
  && PyStr.no_surrogate_pair (serving e).

(** [v[key]] for a string [key] *)
Definition getitem (v : value) (key : PyStr.str) : result value :=
  match v with
  | JObj d =>
      match dict_get d key with
      | Some x => Ok x
      | None => Raise KeyError
      end
  | _ => Raise TypeError
  end.

(** [v.startswith(p)] *)
Definition value_startswith (v : value) (p : PyStr.str) : result bool :=
  match v with
  | JStr s => Ok (PyStr.str_startswith s p)
  | _ => Raise AttributeError
  end.

(** [float(z)] for an [int], as float arithmetic converts its operand. *)
Definition float_of_int (z : Z) : result float :=
  let f := SF2Prim (binary_normalize prec emax z 0 false) in
  if PrimFloat.is_infinity f then Raise OverflowError else Ok f.

(** The value [x] in [total += x]. *)
Definition as_float (v : value) : result float :=
  match v with
  | JFloat f => Ok f
  | JInt z => float_of_int z
  | JBool b => Ok (if b then 1 else 0)%float
  | _ => Raise TypeError
  end.

(** [format(v, ".0f")] and [format(v, ".1f")]: a [float], an [int] that
    converts to one, or a [bool] is printed; a [str] has no format code
    [f]; [None], a list and a dictionary take no format string. *)
Definition format_f (v : value) : result unit :=
  match v with
  | JFloat _ => Ok tt
  | JBool _ => Ok tt
  | JInt z => _ <- float_of_int z ;; Ok tt
  | JStr _ => Raise ValueError
  | _ => Raise TypeError
  end.

(** A cell that [table.add_row] takes: a text, or [None] for an empty
    cell. *)
Definition cell (v : value) : result (option PyStr.str) :=
  match v with
  | JStr s => Ok (Some s)
  | JNull => Ok None
  | _ => Raise NotRenderableError
  end.

(** [total_cals], [total_protein], [total_carbs] and [total_fat]. *)
Record Totals : Type := mkTotals {
  total_cals : float;
  total_protein : float;
  total_carbs : float;
  total_fat : float
}.

Definition zero_totals : Totals := mkTotals 0 0 0 0.

(** The rows added to the table so far: of each row, the food cell and the
    serving cell, the two whose text comes from the log. *)
Definition TableRows : Type := list (option PyStr.str * option PyStr.str).

Section Display.
Context {cs : Console}.

(** [datetime.fromisoformat(ts)] *)
Definition parse_timestamp (ts : value) : result unit :=
  match ts with
  | JStr s => if fromisoformat_ok s then Ok tt else Raise ValueError
  | _ => Raise TypeError
  end.

(** Lines 211-220 of [today] for one entry: the time is read off the
    timestamp, the arguments of [add_row] are evaluated from left to right,
    and [add_row] takes the cells.  The result is the two cells whose text
    comes from the log. *)
Definition show_entry (entry : value)
  : result (option PyStr.str * option PyStr.str) :=
  ts <- getitem entry (PyStr.of_string "timestamp") ;;
  _ <- parse_timestamp ts ;;
  food <- getitem entry (PyStr.of_string "food") ;;
  serving <- getitem entry (PyStr.of_string "serving") ;;
  _ <- bind (getitem entry (PyStr.of_string "calories")) format_f ;;
  _ <- bind (getitem entry (PyStr.of_string "protein_g")) format_f ;;
  _ <- bind (getitem entry (PyStr.of_string "carbs_g")) format_f ;;
  _ <- bind (getitem entry (PyStr.of_string "fat_g")) format_f ;;
  food_cell <- cell food ;;
  serving_cell <- cell serving ;;
  Ok (food_cell, serving_cell).

(** One pass of the loop of [today], lines 211-224: the row is added to
    the table, then the four values to the totals. *)
Definition add_entry (acc : Totals * TableRows) (entry : value)
  : result (Totals * TableRows) :=
  row <- show_entry entry ;;
  c <- bind (getitem entry (PyStr.of_string "calories")) as_float ;;
  p <- bind (getitem entry (PyStr.of_string "protein_g")) as_float ;;
  cb <- bind (getitem entry (PyStr.of_string "carbs_g")) as_float ;;
  f <- bind (getitem entry (PyStr.of_string "fat_g")) as_float ;;
  Ok (mkTotals (total_cals (fst acc) + c) (total_protein (fst acc) + p)
               (total_carbs (fst acc) + cb) (total_fat (fst acc) + f),
      (snd acc ++ [row])%list).

(** The loop of [today], lines 210-224. *)
Fixpoint add_entries (entries : list value) (acc : Totals * TableRows)
  : result (Totals * TableRows) :=
  match entries with
  | [] => Ok acc
  | entry :: rest => acc' <- add_entry acc entry ;; add_entries rest acc'
  end.

(** The console renders a cell of the table. *)
Definition cell_prints (c : option PyStr.str) : bool :=
  match c with
  | Some s => markup_ok s
  | None => true
  end.

Definition row_prints (row : option PyStr.str * option PyStr.str) : bool :=
  cell_prints (fst row) && cell_prints (snd row).

(** [console.print(table)], line 237, on the rows added in the loop; the
    title, the times and the formatted numbers hold no square bracket. *)
Definition print_table (table : TableRows) : result unit :=
  if forallb row_prints table then Ok tt else Raise MarkupError.

End Display.

(** The test [entry["timestamp"].startswith(p)], false where it raises. *)
Definition starts_with_date (p : PyStr.str) (entry : value) : bool :=
  match getitem entry (PyStr.of_string "timestamp") with
  | Ok (JStr s) => PyStr.str_startswith s p
  | _ => false
  end.

(** What [today] has to show. *)
Inductive Report : Type :=
| NoFoodsLoggedYet
| NoFoodsLoggedToday
| Table (rows : list value) (totals : Totals).

(** The rows and totals of a report; the two messages stand for no rows,
    with nothing added to the totals. *)
Definition rows_of (r : Report) : list value :=
  match r with
  | Table rows _ => rows
  | _ => []
  end.

Definition totals_of (r : Report) : Totals :=
  match r with
  | Table _ totals => totals
  | _ => zero_totals
  end.

(** The text is empty or ends with a line feed. *)
Fixpoint newline_terminated (s : string) : bool :=
  match s with
  | EmptyString => true
  | String c t =>
      match t with
      | EmptyString => (c =? "010")%char
      | String _ _ => newline_terminated t
      end
  end.

(** The entries of one date, and the sums of their four values in log
    order, each sum starting from 0.0. *)
Definition on_date (d : DateTime) (e : LogEntry) : bool :=
  PyStr.str_startswith (timestamp e) (PyStr.of_string (date_isoformat d)).

(** The totals after one more entry. *)
Definition add_totals (t : Totals) (e : LogEntry) : Totals :=
  mkTotals (total_cals t + calories e) (total_protein t + protein_g e)
           (total_carbs t + carbs_g e) (total_fat t + fat_g e).

Definition sum_totals (entries : list LogEntry) : Totals :=
  fold_left add_totals entries zero_totals.

Section Store.
Context {ft : FloatText} {cs : Console}.

(** [json.dumps(entry) + "\n"] *)
Definition entry_line (entry : value) : string :=
  dumps entry ++ String "010" "".

(** [with open(LOG_FILE, "a") as f: f.write(json.dumps(entry) + "\n")] *)
Definition append_entry (fs : file) (entry : value) : file :=
  Some (file_text fs ++ entry_line entry).

(** [log_food], with the clock reading [now]. *)
Definition log_food (now : DateTime) (fs : file) (food_name : PyStr.str)
  (calories protein carbs fat : float) (serving : PyStr.str) : file :=
  append_entry fs
    (entry_dict (mkEntry (PyStr.of_string (isoformat now)) food_name serving
                         calories protein carbs fat)).

(** One pass of the reading loop of [today], lines 190-192: the entry to
    append, if any. *)
Definition read_line (today_str : PyStr.str) (line : string)
  : result (option value) :=
  match loads line with
  | None => Raise JSONDecodeError
  | Some entry =>
      ts <- getitem entry (PyStr.of_string "timestamp") ;;
      b <- value_startswith ts today_str ;;
      Ok (if b then Some entry else None)
  end.

(** A line the loop body accepts: it decodes to a dictionary whose
    ["timestamp"] is a string. *)
Definition well_formed_line (line : string) : bool :=
  match loads line with
  | Some entry =>
      match getitem entry (PyStr.of_string "timestamp") with
      | Ok (JStr _) => true
      | _ => false
      end
  | None => false
  end.

(** The exception the loop body raises on a line it does not accept. *)
Definition line_error (line : string) : exn :=
  match loads line with
  | None => JSONDecodeError
  | Some (JObj d) =>
      match dict_get d (PyStr.of_string "timestamp") with
      | None => KeyError
      | Some _ => AttributeError
      end
  | Some _ => TypeError
  end.

(** The reading loop of [today], lines 189-192. *)
Fixpoint read_entries (today_str : PyStr.str) (lines : list string)
  : result (list value) :=
  match lines with
  | [] => Ok []
  | line :: rest =>
      r <- read_line today_str line ;;
      entries <- read_entries today_str rest ;;
      Ok (match r with
          | Some entry => entry :: entries
          | None => entries
          end)
  end.

(** [today], with the clock reading [now]. *)
Definition today (now : DateTime) (fs : file) : result Report :=
  match fs with
  | None => Ok NoFoodsLoggedYet
  | Some content =>
      entries <- read_entries (PyStr.of_string (date_isoformat now))
                              (readlines content) ;;
      match entries with
      | [] => Ok NoFoodsLoggedToday
      | _ :: _ =>
          filled <- add_entries entries (zero_totals, []) ;;
          _ <- print_table (snd filled) ;;
          Ok (Table entries (fst filled))
      end
  end.

(** Reading the whole log: the reading loop without a date to select by
    (every [str] starts with the empty prefix); a missing file has no
    entries. *)
Definition readAll (fs : file) : result (list value) :=
  match fs with
  | None => Ok []
  | Some content => read_entries [] (readlines content)
  end.

(** The rows and totals [today] reports on the date of [d]. *)
Definition entriesForDate (d : DateTime) (fs : file)
  : result (list value * Totals) :=
  r <- today d fs ;; Ok (rows_of r, totals_of r).

(** The log after a sequence of appends, starting without a file. *)
Definition log_of (entries : list LogEntry) : file :=
  fold_left (fun fs e => append_entry fs (entry_dict e)) entries None.

End Store.

(** *** What an entry must hold to be shown and counted *)

(** The float that a number of the log adds to a total. *)
Definition number (v : option value) : option float :=
  match v with
  | Some (JFloat f) => Some f
  | Some (JBool b) => Some (if b then 1 else 0)%float
  | Some (JInt z) =>
      match float_of_int z with
      | Ok f => Some f
      | Raise _ => None
      end
  | _ => None
  end.

Definition is_number (v : option value) : bool :=
  match number v with
  | Some _ => true
  | None => false
  end.

Section Shown.
Context {cs : Console}.

(** A text cell: a text the console renders, or [null]. *)
Definition is_text_cell (v : option value) : bool :=
  match v with
  | Some (JStr s) => markup_ok s
  | Some JNull => true
  | _ => false
  end.

(** An entry that [today] can show: a dictionary with a timestamp that
    [fromisoformat] reads, a food and a serving that are text cells, and
    four numbers. *)
Definition displayable (entry : value) : bool :=
  match entry with
  | JObj d =>
      match dict_get d (PyStr.of_string "timestamp") with
      | Some (JStr ts) => fromisoformat_ok ts
      | _ => false
      end
      && is_text_cell (dict_get d (PyStr.of_string "food"))
      && is_text_cell (dict_get d (PyStr.of_string "serving"))
      && is_number (dict_get d (PyStr.of_string "calories"))
      && is_number (dict_get d (PyStr.of_string "protein_g"))
      && is_number (dict_get d (PyStr.of_string "carbs_g"))
      && is_number (dict_get d (PyStr.of_string "fat_g"))
  | _ => false
  end.

(** A [LogEntry] that [today] can show. *)
Definition showable (e : LogEntry) : bool :=
  fromisoformat_ok (timestamp e) && markup_ok (food e) && markup_ok (serving e).

End Shown.

(** The number under a key of an entry, [0.0] where there is none. *)
Definition field (entry : value) (key : PyStr.str) : float :=
  match entry with
  | JObj d =>
      match number (dict_get d key) with
      | Some f => f
      | None => 0%float
      end
  | _ => 0%float
  end.

(** The totals with the four numbers of one more entry added. *)
Definition add_fields (t : Totals) (row : value) : Totals :=
  mkTotals (total_cals t + field row (PyStr.of_string "calories"))
           (total_protein t + field row (PyStr.of_string "protein_g"))
           (total_carbs t + field row (PyStr.of_string "carbs_g"))
           (total_fat t + field row (PyStr.of_string "fat_g")).

(** The field-wise sums of a sequence of entries, in order, from 0.0. *)
Definition field_sums (rows : list value) : Totals :=
  fold_left add_fields rows zero_totals.

End LogStore.

(** ** A console for the examples

    A timestamp is read when it has the form that [isoformat] writes, with
    fields in range.  In a text to print, [[name]], where [name] starts
    with a small letter, is an opening tag, [[/name]] the tag that closes
    the nearest open [name], and [[/]] the tag that closes the last open
    one; the text is rendered unless a closing tag finds nothing to close.
    This is what [datetime] and [rich] do on the texts of the examples,
    which compute with it; the properties hold for every console. *)
Module PlainConsole.

(** The days of a month of the proleptic Gregorian calendar. *)
Definition is_leap (y : N) : bool :=
  (((y mod 4 =? 0) && negb (y mod 100 =? 0)) || (y mod 400 =? 0))%N.

Definition days_in_month (y m : N) : N :=
  if (m =? 2)%N then (if is_leap y then 29 else 28)%N
  else if ((m =? 4) || (m =? 6) || (m =? 9) || (m =? 11))%N then 30%N
  else 31%N.

(** A number of [width] decimal digits at the start of a text, and the
    text after it. *)
Fixpoint number (width : nat) (acc : N) (s : PyStr.str)
  : option (N * PyStr.str) :=
  match width with
  | O => Some (acc, s)
  | S width' =>
      match s with
      | [] => None
      | c :: t =>
          if ((48 <=? c) && (c <=? 57))%N
          then number width' (10 * acc + (c - 48))%N t
          else None
      end
  end.

(** Two numbers of [w1] and [w2] digits with the character [sep] between
    them. *)
Definition two_numbers (w1 w2 : nat) (sep : N) (s : PyStr.str)
  : option (N * N * PyStr.str) :=
  match number w1 0 s with
  | Some (a, c :: t) =>
      if (c =? sep)%N then
        match number w2 0 t with
        | Some (b, rest) => Some (a, b, rest)
        | None => None
        end
      else None
  | _ => None
  end.

(** [HH:MM:SS], with six digits of a fraction or without. *)
Definition time_ok (s : PyStr.str) : bool :=
  match two_numbers 2 2 58 s with
  | Some (h, m, c :: t) =>
      (c =? 58)%N
      && match number 2 0 t with
         | Some (sec, rest) =>
             (h <? 24)%N && (m <? 60)%N && (sec <? 60)%N
             && match rest with
                | [] => true
                | dot :: fraction =>
                    (dot =? 46)%N
                    && match number 6 0 fraction with
                       | Some (_, []) => true
                       | _ => false
                       end
                end
         | None => false
         end
  | _ => false
  end.

(** [datetime.fromisoformat] on the texts [YYYY-MM-DD] and
    [YYYY-MM-DD*HH:MM:SS] with or without [.ffffff], where [*] is any one
    character: the forms that [isoformat] writes, and a date alone.  The
    other forms that [fromisoformat] reads, a shorter time or one with a
    UTC offset, are taken as not read. *)
Definition fromisoformat_ok (s : PyStr.str) : bool :=
  match two_numbers 4 2 45 s with
  | Some (y, m, c :: t) =>
      (c =? 45)%N
      && match number 2 0 t with
         | Some (d, rest) =>
             (1 <=? y)%N && (1 <=? m)%N && (m <=? 12)%N && (1 <=? d)%N
             && (d <=? days_in_month y m)%N
             && match rest with
                | [] => true
                | _ :: time => time_ok time
                end
         | None => false
         end
  | _ => false
  end.

(** From just after an opening bracket: the text up to the closing
    bracket, and the text after it. *)
Fixpoint scan_tag (s : PyStr.str) : option (PyStr.str * PyStr.str) :=
  match s with
  | [] => None
  | c :: t =>
      if (c =? 93)%N then Some ([], t)
      else if (c =? 91)%N then None
      else
        match scan_tag t with
        | Some (name, rest) => Some (c :: name, rest)
        | None => None
        end
  end.

(** The open tags without the nearest one called [name]. *)
Fixpoint close (name : PyStr.str) (open : list PyStr.str)
  : option (list PyStr.str) :=
  match open with
  | [] => None
  | n :: rest =>
      if PyStr.eqb n name then Some rest
      else
        match close name rest with
        | Some rest' => Some (n :: rest')
        | None => None
        end
  end.

Definition small_letter (c : N) : bool := ((97 <=? c) && (c <=? 122))%N.

Fixpoint render (fuel : nat) (s : PyStr.str) (open : list PyStr.str) : bool :=
  match fuel with
  | O => true
  | S fuel' =>
      match s with
      | [] => true
      | c :: t =>
          if (c =? 91)%N then
            match scan_tag t with
            | Some (47%N :: [], rest) =>
                match open with
                | [] => false
                | _ :: open' => render fuel' rest open'
                end
            | Some (47%N :: name, rest) =>
                match close name open with
                | Some open' => render fuel' rest open'
                | None => false
                end
            | Some (first :: name, rest) =>
                if small_letter first
                then render fuel' rest ((first :: name) :: open)
                else render fuel' t open
            | _ => render fuel' t open
            end
          else render fuel' t open
      end
  end.

Definition markup_ok (s : PyStr.str) : bool :=
  render (S (List.length s)) s [].

Definition console : LogStore.Console :=
  {| LogStore.fromisoformat_ok := fromisoformat_ok;
     LogStore.markup_ok := markup_ok |}.

End PlainConsole.

(** ** The [log] and [quick] commands *)
Module Commands.
Import Json LogStore.

(** One item of the search response, and the response. *)
Record SearchHit : Type := mkHit {
  fdcId : option Z;
  hit_description : option PyStr.str
}.

Record SearchResponse : Type := mkResponse {
  foods : option (list SearchHit)
}.

(** How a command ends: an entry was logged and confirmed (what is
    confirmed on screen, and the log file afterwards); nothing was found;
    an exception was raised before anything was written, so the exit
    status is 1 and the log file is untouched; or the entry was appended
    and the confirmation raised, so the exit status is 1 and the log file
    has the new entry. *)
Inductive Outcome : Type :=
| Logged (name serving_text : PyStr.str) (scaled : Usda.Nutrition) (fs : file)
| NoFoodsFound
| Exit1
| Exit1AfterLogging (fs : file).

(** The log file after a command that found it as [fs]. *)
Definition file_after (o : Outcome) (fs : file) : file :=
  match o with
  | Logged _ _ _ fs' => fs'
  | Exit1AfterLogging fs' => fs'
  | NoFoodsFound => fs
  | Exit1 => fs
  end.

(** Line 261: [f"[dim]Found: {food_result.get('description')}[/dim]"]. *)
Definition found_line (hit : SearchHit) : PyStr.str :=
  (PyStr.of_string "[dim]Found: "
   ++ Usda.get (hit_description hit) (PyStr.of_string "None")
   ++ PyStr.of_string "[/dim]")%list.

(** Lines 165 and 298: the check mark is the code point [0x2713]. *)
Definition logged_line (name : PyStr.str) : PyStr.str :=
  (PyStr.of_string "[green]" ++ [10003%N]
   ++ PyStr.of_string "[/green] Logged: [bold]" ++ name
   ++ PyStr.of_string "[/bold]")%list.

(** Lines 166 and 299. *)
Definition serving_line (serving_text : PyStr.str) : PyStr.str :=
  (PyStr.of_string "  Serving: " ++ serving_text)%list.

Section Api.
Context {ft : FloatText} {cs : Console}.

(** The two requests; [None] when the request raises. *)
Variable get_food_details : Z -> option Usda.FoodDetail.
Variable search_food : string -> Z -> option SearchResponse.

(** [log], lines 133-168, for the fetched [food].  The entry is appended
    before the confirmation is printed; the two lines of numbers that end
    the confirmation hold no square bracket. *)
Definition log_detail (food : Usda.FoodDetail) (servings : float)
  (now : DateTime) (fs : file) : Outcome :=
  let name := Usda.get (Usda.description food)
                       (PyStr.of_string "Unknown food") in
  let serving_size := Usda.get (Usda.servingSize food) 100%float in
  let serving_unit := Usda.get (Usda.servingUnit food) (PyStr.of_string "g") in
  let (scaled, serving_text) :=
    Usda.log_scale (Usda.log_extract food) serving_size serving_unit
                   servings in
  let fs' :=
    log_food now fs name (Usda.calories scaled) (Usda.protein scaled)
             (Usda.carbs scaled) (Usda.fat scaled) serving_text in
  if markup_ok (logged_line name) && markup_ok (serving_line serving_text)
  then Logged name serving_text scaled fs'
  else Exit1AfterLogging fs'.

(** [log], lines 130-172 *)
Definition log (fdc_id : Z) (servings : float) (now : DateTime) (fs : file)
  : Outcome :=
  match get_food_details fdc_id with
  | None => Exit1
  | Some food => log_detail food servings now fs
  end.

(** [quick], lines 266-301, for the fetched [food]. *)
Definition quick_detail (food : Usda.FoodDetail) (servings : float)
  (now : DateTime) (fs : file) : Outcome :=
  let name := Usda.get (Usda.description food)
                       (PyStr.of_string "Unknown food") in
  let serving_size := Usda.get (Usda.servingSize food) 100%float in
  let serving_unit := Usda.get (Usda.servingUnit food) (PyStr.of_string "g") in
  let (scaled, serving_text) :=
    Usda.quick_scale (Usda.quick_extract food) serving_size serving_unit
                     servings in
  let fs' :=
    log_food now fs name (Usda.calories scaled) (Usda.protein scaled)
             (Usda.carbs scaled) (Usda.fat scaled) serving_text in
  if markup_ok (logged_line name) && markup_ok (serving_line serving_text)
  then Logged name serving_text scaled fs'
  else Exit1AfterLogging fs'.

(** [quick], lines 250-305: the first hit must have an id, and its
    description is printed before the details are fetched. *)
Definition quick (query : string) (servings : float) (now : DateTime)
  (fs : file) : Outcome :=
  match search_food query 1 with
  | None => Exit1
  | Some results =>
      match Usda.get (foods results) [] with
      | [] => NoFoodsFound
      | food_result :: _ =>
          match fdcId food_result with
          | None => Exit1
          | Some fdc_id =>
              if markup_ok (found_line food_result) then
                match get_food_details fdc_id with
                | None => Exit1
                | Some food => quick_detail food servings now fs
                end
              else Exit1
          end
      end
  end.

End Api.

End Commands.

(** ** The API key *)
Module Config.

(** [c.isspace()] for a character below 256. *)
Definition is_space (c : ascii) : bool :=
  let n := N_of_ascii c in
  (((9 <=? n) && (n <=? 13)) || ((28 <=? n) && (n <=? 32))
   || (n =? 133) || (n =? 160))%N.

Fixpoint lstrip (s : string) : string :=
  match s with
  | EmptyString => ""
  | String c t => if is_space c then lstrip t else s
  end.

Fixpoint rstrip (s : string) : string :=
  match s with
  | EmptyString => ""
  | String c t =>
      match rstrip t with
      | EmptyString => if is_space c then "" else String c ""
      | String d r => String c (String d r)
      end
  end.

(** [s.strip()] *)
Definition strip (s : string) : string := rstrip (lstrip s).

(** The truth value of an optional string: [None] and the empty string are
    false. *)
Definition truthy (x : option string) : bool :=
  match x with
  | Some (String _ _) => true
  | _ => false
  end.

(** [get_api_key], lines 21-31.  [env] is [os.getenv("USDA_API_KEY")];
    [key_file] is the text of [~/pa/usda] as [read_text] returns it, or
    [None] when the file does not exist.  The result [None] is
    [typer.Exit(1)]. *)
Definition get_api_key (env key_file : option string) : option string :=
  let api_key :=
    if truthy env then env
    else
      match key_file with
      | Some text => Some (strip text)
      | None => env
      end in
  if truthy api_key then api_key else None.

(** The last character of a text. *)
Fixpoint last_char (s : string) : option ascii :=
  match s with
  | EmptyString => None
  | String c t =>
      match last_char t with
      | Some d => Some d
      | None => Some c
      end
  end.

(** Neither the first nor the last character of a text is a space. *)
Definition clean_ends (s : string) : bool :=
  match s with
  | EmptyString => true
  | String c _ =>
      negb (is_space c)
      && match last_char s with
         | Some d => negb (is_space d)
         | None => true
         end
  end.

End Config.

(** ** The two requests *)
Module Requests.

(** A value of the [params] dictionary of a request. *)
Inductive param : Type :=
| PStr (s : string)
| PInt (z : Z).

Section Http.
(** The type of a decoded response, and [requests.get(url, params=params)]
    followed by [raise_for_status()] and [json()]: [None] when one of the
    three raises. *)
Context {R : Type}.
Variable request : string -> list (string * param) -> option R.

(** The environment variable and the key file, as [Config.get_api_key]
    reads them. *)
Variables env key_file : option string.

(** [search_food], lines 33-46; [None] when it raises. *)
Definition search_food (query : string) (page_size : Z) : option R :=
  match Config.get_api_key env key_file with
  | None => None
  | Some api_key =>
      request "https://api.nal.usda.gov/fdc/v1/foods/search"
        [("api_key", PStr api_key); ("query", PStr query);
         ("pageSize", PInt page_size)]
  end.

(** [get_food_details], lines 48-57; [None] when it raises. *)
Definition get_food_details (fdc_id : Z) : option R :=
  match Config.get_api_key env key_file with
  | None => None
  | Some api_key =>
      request ("https://api.nal.usda.gov/fdc/v1/food/" ++ Json.intstr fdc_id)
        [("api_key", PStr api_key)]
  end.

End Http.

End Requests.

(** ** The [search] command *)
Module Search.

(** A JSON number of the search response. *)
Inductive number : Type :=
| Int (z : Z)
| Float (f : float).

(** The exceptions of [food["fdcId"]] and of [int(x)]. *)
Inductive exn : Type :=
| KeyError
| ValueError
| OverflowError.

Inductive attempt (A : Type) : Type :=
| Done (a : A)
| Raised (e : exn).
Arguments Done {A} a.
Arguments Raised {A} e.

(** One item of [foodNutrients] in a search result, as [search] reads it. *)
Record SearchNutrient : Type := mkSearchNutrient {
  nutrientName : option string;
  value : option number
}.

(** One item of [results["foods"]]. *)
Record FoodSummary : Type := mkSummary {
  fdcId : option Z;
  description : option string;
  brandName : option string;
  brandOwner : option string;
  foodNutrients : option (list SearchNutrient)
}.

(** The response of [search_food]. *)
Record Results : Type := mkResults {
  foods : option (list FoodSummary)
}.

(** The integer part of [m * 2^e]. *)
Definition integer_part (m : positive) (e : Z) : Z :=
  if (0 <=? e)%Z then (Zpos m * 2 ^ e)%Z else (Zpos m / 2 ^ (- e))%Z.

(** [int(x)]: a float is cut off towards zero; NaN and the infinities have
    no integer. *)
Definition int (x : number) : attempt Z :=
  match x with
  | Int z => Done z
  | Float f =>
      match Prim2SF f with
      | S754_nan => Raised ValueError
      | S754_infinity _ => Raised OverflowError
      | S754_zero _ => Done 0%Z
      | S754_finite s m e =>
          Done (if s then (- integer_part m e)%Z else integer_part m e)
      end
  end.

(** [nutrient.get("nutrientName") == "Energy"] *)
Definition is_energy (n : SearchNutrient) : bool :=
  match nutrientName n with
  | Some nm => (nm =? "Energy")%string
  | None => false
  end.

(** The inner loop of [search], lines 104-109: the text of the calories
    column. *)
Fixpoint calorie_cell (nutrients : list SearchNutrient) : attempt string :=
  match nutrients with
  | [] => Done "N/A"
  | nutrient :: rest =>
      if is_energy nutrient then
        match int (Usda.get (value nutrient) (Int 0)) with
        | Done z => Done (Json.intstr z)
        | Raised e => Raised e
        end
      else calorie_cell rest
  end.

(** The cells of one row of the table. *)
Record Row : Type := mkRow {
  row_id : string;
  row_food : string;
  row_brand : string;
  row_calories : string
}.

(** One pass of the loop over [results["foods"]], lines 99-111. *)
Definition food_row (food : FoodSummary) : attempt Row :=
  match fdcId food with
  | None => Raised KeyError
  | Some id =>
      let fdc_id := Json.intstr id in
      let name := Usda.get (description food) "Unknown" in
      let brand :=
        match brandName food with
        | Some b => b
        | None => Usda.get (brandOwner food) ""
        end in
      match calorie_cell (Usda.get (foodNutrients food) []) with
      | Done calories => Done (mkRow fdc_id name brand calories)
      | Raised e => Raised e
      end
  end.

Fixpoint table_rows (foods : list FoodSummary) : attempt (list Row) :=
  match foods with
  | [] => Done []
  | food :: rest =>
      match food_row food with
      | Raised e => Raised e
      | Done row =>
          match table_rows rest with
          | Raised e => Raised e
          | Done rows => Done (row :: rows)
          end
      end
  end.

(** How [search] ends: the table is printed, the "no foods" message is
    printed, or an exception is reported and the exit status is 1. *)
Inductive Outcome : Type :=
| Shown (rows : list Row)
| NoFoodsFound
| Exit1.

(** [search], lines 85-118; [search_food] gives [None] when it raises. *)
Definition search (search_food : string -> Z -> option Results)
  (query : string) (count : Z) : Outcome :=
  match search_food query count with
  | None => Exit1
  | Some results =>
      match Usda.get (foods results) [] with
      | [] => NoFoodsFound
      | food :: rest =>
          match table_rows (food :: rest) with
          | Done rows => Shown rows
          | Raised _ => Exit1
          end
      end
  end.

End Search.

(** ** Example data *)
Module Examples.
Import Json LogStore Commands.

Definition oatmeal : LogEntry :=
  mkEntry "2024-01-15T08:30:00" "Oatmeal" "150.0 g" 200 5 27 3.

Definition banana : LogEntry :=
  mkEntry "2024-01-15T12:05:10.250000" "Bananas, raw" "100.0 g" 300 1.5 23 0.5.

Definition rice : LogEntry :=
  mkEntry "2024-01-16T19:00:00" "Rice \ white" "1.0 cup" 205 4.25 45 0.5.

Definition jan_15 : DateTime := mkDateTime 2024 1 15 21 30 0 0.

(** A log written by three appends, and one whose second line is not JSON. *)
Definition three_entries : file :=
  log_of (ft := BinaryText.text) [oatmeal; banana; rice].

Definition good_line : string :=
  entry_line (ft := BinaryText.text) (entry_dict oatmeal).

Definition broken_log : string :=
  good_line ++ "not json" ++ String "010" "" ++ good_line.

Definition banana_detail : Usda.FoodDetail :=
  Usda.mkFood (Some (PyStr.of_string "Bananas, raw")) None None
    (Some [Usda.reading "Energy" "kJ" 371; Usda.reading "Energy" "kcal" 89;
           Usda.reading "Protein" "g" 1.25;
           Usda.reading "Carbohydrate, by difference" "g" 22.75;
           Usda.reading "Total lipid (fat)" "g" 0.25]).

Definition details (fdc_id : Z) : option Usda.FoodDetail :=
  if (fdc_id =? 173944)%Z then Some banana_detail else None.

Definition search (query : string) (page_size : Z) : option SearchResponse :=
  Some (mkResponse
          (Some [mkHit (Some 173944%Z)
                       (Some (PyStr.of_string "Bananas, raw"))])).

End Examples.

(** ** Predicates of the properties *)
Module Shape.
Import LogStore.

(** A character of the printable ASCII range [' '..'~']. *)
Definition printable (c : ascii) : bool :=
  let n := N_of_ascii c in ((32 <=? n) && (n <=? 126))%N.

(** The date fields are those of a [datetime]: a year in 1..9999, a month
    in 1..12 and a day in 1..31. *)
Definition date_in_range (d : DateTime) : bool :=
  ((1 <=? year d) && (year d <=? 9999) && (1 <=? month d) && (month d <=? 12)
   && (1 <=? day d) && (day d <=? 31))%N.

(** [p] holds of the [count] numbers from [start] on. *)
Fixpoint all_from (count : nat) (start : N) (p : N -> bool) : bool :=
  match count with
  | O => true
  | S count' => if p start then all_from count' (N.succ start) p else false
  end.

(** The four digits of [u_escape n] are read back as [n]. *)
Definition hex_roundtrip (n : N) : bool :=
  match Json.u_escape n with
  | String _ (String _ (String a (String b (String c (String d _))))) =>
      match Json.decode_uXXXX a b c d with
      | Some m => (m =? n)%N
      | None => false
      end
  | _ => false
  end.

(** The text starts with the escape of a low surrogate. *)
Definition low_ahead (x : string) : bool :=
  match x with
  | String a (String b (String g1 (String g2 (String g3 (String g4 _))))) =>
      ((a =? "\") && (b =? "u"))%char
      && match Json.decode_uXXXX g1 g2 g3 g4 with
         | Some n2 => PyStr.is_low n2
         | None => false
         end
  | _ => false
  end.

(** [n], padded to [width] digits, has exactly that width and reads back
    as [n]. *)
Definition padded_ok (width : nat) (n : N) : bool :=
  Nat.eqb (String.length (zfill width (PyStr.digits n))) width
  && N.eqb (Json.of_digits (zfill width (PyStr.digits n))) n.

End Shape.

(** ** Example data of the requests and of [search] *)
Module Samples.
Import Json LogStore.

(** The nutrients of a search result: the first "Energy" item is the one in
    kcal, a second one follows. *)
Definition banana_nutrients : list Search.SearchNutrient :=
  [Search.mkSearchNutrient (Some "Protein") (Some (Search.Float 1.25));
   Search.mkSearchNutrient (Some "Energy") (Some (Search.Float 89.75));
   Search.mkSearchNutrient (Some "Energy") (Some (Search.Int 371))].

Definition banana_summary : Search.FoodSummary :=
  Search.mkSummary (Some 173944%Z) (Some "Bananas, raw") None None
    (Some banana_nutrients).

Definition chips_summary : Search.FoodSummary :=
  Search.mkSummary (Some 2012128%Z) (Some "BANANA CHIPS") None
    (Some "Snack Co.") None.

(** A result whose energy value is not a number. *)
Definition broken_summary : Search.FoodSummary :=
  Search.mkSummary (Some 7%Z) (Some "Mystery") None None
    (Some [Search.mkSearchNutrient (Some "Energy") (Some (Search.Float nan))]).

Definition search_food (query : string) (page_size : Z)
  : option Search.Results :=
  Some (Search.mkResults (Some [banana_summary; chips_summary])).

Definition broken_search_food (query : string) (page_size : Z)
  : option Search.Results :=
  Some (Search.mkResults
          (Some [banana_summary; broken_summary; chips_summary])).

(** Requests that always answer. *)
Definition request_results (url : string)
  (params : list (string * Requests.param)) : option Search.Results :=
  search_food "" 0.

Definition request_hits (url : string)
  (params : list (string * Requests.param))
  : option Commands.SearchResponse :=
  Examples.search "" 0.

Definition request_detail (url : string)
  (params : list (string * Requests.param)) : option Usda.FoodDetail :=
  Some Examples.banana_detail.

(** The table [search] prints for [search_food]. *)
Definition rows : list Search.Row :=
  [Search.mkRow "173944" "Bananas, raw" "" "89";
   Search.mkRow "2012128" "BANANA CHIPS" "Snack Co." "N/A"].

(** A key file with the key on a line of its own, indented. *)
Definition key_file_text : string := "  k3y" ++ String "010" "".

(** A log whose second line, of 15 January, has no nutrient values, and
    one where that line is of 16 January. *)
Definition bare_line (ts : string) : string :=
  entry_line (ft := BinaryText.text)
    (JObj [(PyStr.of_string "timestamp", JStr (PyStr.of_string ts));
           (PyStr.of_string "food", JStr (PyStr.of_string "Tea"))]).

(** A log whose only line does not end, as an editor may leave it. *)
Definition unterminated_log : file :=
  Some (dumps (ft := BinaryText.text) (entry_dict Examples.oatmeal)).

(** A high and a low surrogate, which the encoder writes as the escape of
    one code point, and that code point. *)
Definition surrogate_pair : PyStr.str := [55357%N; 56832%N].

Definition joined_pair : PyStr.str := [128512%N].

(** A name with a right single quotation mark, the code point [0x2019]. *)
Definition lays : PyStr.str :=
  (PyStr.of_string "Lay" ++ [8217%N] ++ PyStr.of_string "s")%list.

(** An entry whose name holds a closing tag, and one stamped at hour 25. *)
Definition tagged_entry : LogEntry :=
  mkEntry "2024-01-15T09:00:00" "Bar [/b]" "40.0 g" 190 3 25 9.

Definition late_entry : LogEntry :=
  mkEntry "2024-01-15T25:00:00" "Tea" "250.0 g" 2 0 0.5 0.

(** A line that holds a list, and one that holds an object without a
    timestamp. *)
Definition list_line : string := "[1, 2]" ++ String "010" "".

Definition untimed_line : string :=
  entry_line (ft := BinaryText.text)
    (JObj [(PyStr.of_string "food", JStr (PyStr.of_string "Tea"))]).

Definition bare_today_log : string :=
  Examples.good_line ++ bare_line "2024-01-15T10:00:00".

Definition bare_other_day_log : string :=
  Examples.good_line ++ bare_line "2024-01-16T10:00:00".

End Samples.

Import Usda.

(** * Properties *)

(** ** The nutrient loop *)

Section NutrientLoop.

Lemma field_value_all_zero (f : Field) : field_value f all_zero = 0%float.
Proof. destruct f; reflexivity. Qed.

(** What one iteration does to each tracked field: the reading's amount
    when the field's rule selects the reading, the old value otherwise. *)
Lemma log_nutrient_step_field (f : Field) (acc : Nutrition) (n : FoodNutrient) :
  field_value f (log_nutrient_step acc n) =
  if matches f n then reading_amount n else field_value f acc.
Proof.
  unfold log_nutrient_step, matches.
  fold (reading_name n) (reading_unit n) (reading_amount n).
  generalize (reading_name n) (reading_unit n) (reading_amount n).
  intros nm u v.
  destruct f; cbn [field_value].
  - destruct (PyStr.contains "Energy" nm && PyStr.contains "kcal" u);
      [reflexivity |].
    repeat (destruct (String.eqb nm _); try reflexivity).
  - destruct (String.eqb_spec nm "Protein") as [-> | Hne]; [reflexivity |].
    destruct (PyStr.contains "Energy" nm && PyStr.contains "kcal" u);
      [reflexivity |].
    repeat (destruct (String.eqb nm _); try reflexivity).
  - destruct (String.eqb_spec nm "Carbohydrate, by difference") as [-> | Hne];
      [reflexivity |].
    destruct (PyStr.contains "Energy" nm && PyStr.contains "kcal" u);
      [reflexivity |].
    repeat (destruct (String.eqb nm _); try reflexivity).
  - destruct (String.eqb_spec nm "Total lipid (fat)") as [-> | Hne];
      [reflexivity |].
    destruct (PyStr.contains "Energy" nm && PyStr.contains "kcal" u);
      [reflexivity |].
    repeat (destruct (String.eqb nm _); try reflexivity).
Qed.

Lemma log_extract_nutrients_snoc (ns : list FoodNutrient) (n : FoodNutrient) :
  log_extract_nutrients (ns ++ [n]) =
  log_nutrient_step (log_extract_nutrients ns) n.
Proof. unfold log_extract_nutrients. now rewrite fold_left_app. Qed.

(** Each field holds the amount of the last reading its rule selects, and
    [0.0] when it selects none. *)
Lemma log_extract_last_match (f : Field) (ns : list FoodNutrient) :
  field_value f (log_extract_nutrients ns) =
  match last_match f ns with
  | Some r => reading_amount r
  | None => 0%float
  end.
Proof.
  induction ns as [| n ns IH] using rev_ind.
  - apply field_value_all_zero.
  - rewrite log_extract_nutrients_snoc, log_nutrient_step_field.
    unfold last_match in *. rewrite rev_app_distr. cbn [rev app find].
    destruct (matches f n); [reflexivity | exact IH].
Qed.

Lemma find_none {A : Type} (p : A -> bool) (l : list A) :
  (forall x, In x l -> p x = false) -> find p l = None.
Proof.
  induction l as [| a l IH]; intros H; [reflexivity |].
  cbn. rewrite (H a (or_introl eq_refl)). apply IH.
  intros x Hx. apply H. now right.
Qed.

Lemma find_app_none {A : Type} (p : A -> bool) (l1 l2 : list A) :
  find p l1 = None -> find p (l1 ++ l2) = find p l2.
Proof.
  induction l1 as [| a l1 IH]; intros H; [reflexivity |].
  cbn in *. destruct (p a); [discriminate | now apply IH].
Qed.

End NutrientLoop.

(** C1, as amended: when several readings match one field's rule, the field
    receives the amount of the last of them in sequence order; the loops of
    [log] and [quick] have no [break], so every earlier match is
    overwritten. *)
Theorem extract_last_match_wins :
  forall (f : Field) (pre post : list FoodNutrient) (r : FoodNutrient),
    matches f r = true ->
    (forall x, In x post -> matches f x = false) ->
    field_value f (log_extract_nutrients (pre ++ r :: post)) = reading_amount r /\
    field_value f (quick_extract_nutrients (pre ++ r :: post)) = reading_amount r.
Proof.
  intros f pre post r Hr Hpost.
  assert (L : field_value f (log_extract_nutrients (pre ++ r :: post)) =
              reading_amount r).
  { rewrite log_extract_last_match. unfold last_match.
    rewrite rev_app_distr. cbn [rev].
    rewrite <- app_assoc. cbn [app].
    rewrite find_app_none.
    - cbn. now rewrite Hr.
    - apply find_none. intros x Hx. apply Hpost. now apply in_rev. }
  split; [exact L | exact L].
Qed.

Lemma extract_last_match_wins_witness :
  matches Protein (reading "Protein" "g" 2) = true /\
  field_value Protein
    (log_extract_nutrients
       ([reading "Protein" "g" 1] ++ reading "Protein" "g" 2
          :: [reading "Total lipid (fat)" "g" 3])) = 2%float.
Proof.
  split; [reflexivity |].
  apply (extract_last_match_wins Protein [reading "Protein" "g" 1]
           [reading "Total lipid (fat)" "g" 3] (reading "Protein" "g" 2)).
  - reflexivity.
  - intros x [<- | []]. reflexivity.
Defined.

(** C1, as stated, fails: with two "Protein" readings of 1.0 and 2.0 the
    first match is the 1.0 reading, and both loops return 2.0. *)
Lemma extract_first_match_loses :
  List.length
    (filter (matches Protein)
       [reading "Protein" "g" 1; reading "Protein" "g" 2]) = 2 /\
  first_match Protein [reading "Protein" "g" 1; reading "Protein" "g" 2] =
    Some (reading "Protein" "g" 1) /\
  protein (log_extract_nutrients
             [reading "Protein" "g" 1; reading "Protein" "g" 2]) = 2%float /\
  protein (quick_extract_nutrients
             [reading "Protein" "g" 1; reading "Protein" "g" 2]) = 2%float /\
  PrimFloat.eqb
    (protein (log_extract_nutrients
                [reading "Protein" "g" 1; reading "Protein" "g" 2]))
    (reading_amount (reading "Protein" "g" 1)) = false.
Proof. repeat split. Qed.

(** C2: a reading changes [calories] only if its name contains "Energy" and
    its unit contains "kcal"; a sequence with no "kcal" unit, such as one
    whose only energy reading is in "kJ", leaves [calories] at 0.0. *)
Theorem calories_need_energy_kcal :
  forall (ns : list FoodNutrient),
    (forall x, In x ns -> PyStr.contains "kcal" (reading_unit x) = false) ->
    (forall acc r,
        PyStr.contains "Energy" (reading_name r)
        && PyStr.contains "kcal" (reading_unit r) = false ->
        calories (log_nutrient_step acc r) = calories acc) /\
    calories (log_extract_nutrients ns) = 0%float.
Proof.
  intros ns Hns. split.
  - intros acc r Hr.
    change (field_value Calories (log_nutrient_step acc r) = field_value Calories acc).
    rewrite log_nutrient_step_field. cbn [matches]. now rewrite Hr.
  - change (field_value Calories (log_extract_nutrients ns) = 0%float).
    rewrite log_extract_last_match. unfold last_match.
    rewrite find_none; [reflexivity |].
    intros x Hx. cbn [matches]. rewrite (Hns x); [apply andb_false_r |].
    now apply in_rev.
Qed.

Lemma calories_need_energy_kcal_witness :
  PyStr.contains "Energy" "Energy" = true /\
  PyStr.contains "kcal" "kJ" = false /\
  PyStr.contains "kcal" "KCAL" = false /\
  calories (log_extract_nutrients
              [reading "Protein" "g" 3; reading "Energy" "kJ" 1046]) = 0%float.
Proof.
  split; [reflexivity |]. split; [reflexivity |]. split; [reflexivity |].
  apply (calories_need_energy_kcal
           [reading "Protein" "g" 3; reading "Energy" "kJ" 1046]).
  intros x [<- | [<- | []]]; reflexivity.
Defined.

(** C6: with [foodNutrients] absent or empty the loop body never runs and
    the four values stay at 0.0; extraction is a total function, so nothing
    is raised. *)
Theorem extract_no_nutrients :
  forall (d : option PyStr.str) (size : option float)
         (unit : option PyStr.str),
    log_extract (mkFood d size unit None) = all_zero /\
    log_extract (mkFood d size unit (Some [])) = all_zero /\
    all_zero = mkNutrition 0 0 0 0.
Proof. intros. repeat split. Qed.

(** ** The one-decimal format *)

Section Rounding.
#[local] Open Scope Z_scope.

Lemma round_half_even_nearest (num den : Z) :
  0 < den ->
  Z.abs (2 * num - 2 * den * PyFloat.round_half_even num den) <= den /\
  (Z.abs (2 * num - 2 * den * PyFloat.round_half_even num den) = den ->
   Z.even (PyFloat.round_half_even num den) = true).
Proof.
  intros Hden. unfold PyFloat.round_half_even.
  pose proof (Z.div_mod num den ltac:(lia)) as D.
  pose proof (Z.mod_pos_bound num den Hden) as B.
  set (q := num / den) in *. set (r := num mod den) in *.
  destruct (Z.compare_spec (2 * r) den) as [E | L | G].
  - destruct (Z.even q) eqn:Ev.
    + split; [lia | trivial].
    + split; [lia |]. intros _. rewrite Z.even_add, Ev. reflexivity.
  - split; lia.
  - split; lia.
Qed.

Lemma round_half_even_nonneg (num den : Z) :
  0 <= num -> 0 < den -> 0 <= PyFloat.round_half_even num den.
Proof.
  intros Hn Hd. unfold PyFloat.round_half_even.
  assert (0 <= num / den) by (apply Z.div_pos; lia).
  destruct (2 * (num mod den) ?= den); [destruct (Z.even _) | |]; lia.
Qed.

Lemma tenths_nonneg m e : 0 <= PyFloat.tenths m e.
Proof.
  unfold PyFloat.tenths. destruct (Z.leb_spec 0 e).
  - assert (0 < 2 ^ e) by (apply Z.pow_pos_nonneg; lia). nia.
  - apply round_half_even_nonneg; [lia |]. apply Z.pow_pos_nonneg; lia.
Qed.

(** The number of tenths is the nearest one, the even one on a tie. *)
Lemma tenths_nearest m e :
  Z.abs (2 * (10 * Zpos m * 2 ^ Z.max e 0)
         - 2 * 2 ^ Z.max (- e) 0 * PyFloat.tenths m e)
  <= 2 ^ Z.max (- e) 0 /\
  (Z.abs (2 * (10 * Zpos m * 2 ^ Z.max e 0)
          - 2 * 2 ^ Z.max (- e) 0 * PyFloat.tenths m e)
   = 2 ^ Z.max (- e) 0 ->
   Z.even (PyFloat.tenths m e) = true).
Proof.
  unfold PyFloat.tenths. destruct (Z.leb_spec 0 e) as [He | He].
  - rewrite (Z.max_l e 0), (Z.max_r (- e) 0) by lia. rewrite Z.pow_0_r.
    replace (2 * (10 * Zpos m * 2 ^ e) - 2 * 1 * (10 * Zpos m * 2 ^ e))
      with 0 by lia.
    cbn [Z.abs]. split; [lia | intros H; discriminate H].
  - rewrite (Z.max_r e 0), (Z.max_l (- e) 0) by lia. rewrite Z.pow_0_r.
    replace (10 * Zpos m * 1) with (10 * Zpos m) by lia.
    apply round_half_even_nearest. apply Z.pow_pos_nonneg; lia.
Qed.

(** A number from 0 to 9 prints as one digit. *)
Lemma one_digit r :
  0 <= r <= 9 -> String.length (PyStr.digits (Z.to_N r)) = 1%nat.
Proof.
  intros H.
  assert (C : r = 0 \/ r = 1 \/ r = 2 \/ r = 3 \/ r = 4 \/ r = 5 \/ r = 6
              \/ r = 7 \/ r = 8 \/ r = 9) by lia.
  repeat (destruct C as [-> | C]; [reflexivity |]). now subst r.
Qed.

End Rounding.

(** C3: scaling multiplies each of the four values by [servings], and the
    serving text is the one-decimal text of [serving_size * servings], a
    space and the unit as it is.  The one-decimal text of a finite product
    [(-1)^s * m * 2^e] is its sign, the digits of [q], a point and the one
    digit [r], where [10 * q + r] is the number of tenths nearest to
    [m * 2^e], the even one on a tie; a zero prints as "0.0" with its
    sign, and NaN and the infinities as "nan", "inf" and "-inf".  100 "g"
    at 1.5 servings gives "150.0 g". *)
Theorem scale_multiplies_and_formats :
  forall (n : Nutrition) (serving_size : float) (serving_unit : PyStr.str)
         (servings : float),
    calories (fst (log_scale n serving_size serving_unit servings))
      = (calories n * servings)%float /\
    protein (fst (log_scale n serving_size serving_unit servings))
      = (protein n * servings)%float /\
    carbs (fst (log_scale n serving_size serving_unit servings))
      = (carbs n * servings)%float /\
    fat (fst (log_scale n serving_size serving_unit servings))
      = (fat n * servings)%float /\
    (exists number : string,
        snd (log_scale n serving_size serving_unit servings) =
          (PyStr.of_string number ++ [32%N] ++ serving_unit)%list /\
        match Prim2SF (serving_size * servings) with
        | S754_nan => number = "nan"
        | S754_infinity s => number = PyFloat.sign_text s ++ "inf"
        | S754_zero s => number = PyFloat.sign_text s ++ "0.0"
        | S754_finite s m e =>
            exists q r : Z,
              (0 <= q)%Z /\ (0 <= r <= 9)%Z /\
              number = PyFloat.sign_text s ++ PyStr.digits (Z.to_N q) ++ "."
                       ++ PyStr.digits (Z.to_N r) /\
              String.length (PyStr.digits (Z.to_N r)) = 1%nat /\
              (Z.abs (2 * (10 * Zpos m * 2 ^ Z.max e 0)
                      - 2 * 2 ^ Z.max (- e) 0 * (10 * q + r))
               <= 2 ^ Z.max (- e) 0)%Z /\
              (Z.abs (2 * (10 * Zpos m * 2 ^ Z.max e 0)
                      - 2 * 2 ^ Z.max (- e) 0 * (10 * q + r))
               = 2 ^ Z.max (- e) 0 ->
               Z.even (10 * q + r) = true)%Z
        end) /\
    snd (log_scale n 100 (PyStr.of_string "g") 1.5) = PyStr.of_string "150.0 g".
Proof.
  intros n size unit servings. unfold log_scale. cbn [fst snd calories protein carbs fat].
  split; [reflexivity |]. split; [reflexivity |]. split; [reflexivity |].
  split; [reflexivity |]. split; [| reflexivity].
  exists (PyFloat.format_1f (size * servings)). split; [reflexivity |].
  unfold PyFloat.format_1f.
  destruct (Prim2SF (size * servings)) as [s | s | | s m e]; try reflexivity.
  pose proof (tenths_nonneg m e) as T0.
  pose proof (tenths_nearest m e) as [T1 T2].
  pose proof (Z.div_mod (PyFloat.tenths m e) 10 ltac:(lia)) as D.
  pose proof (Z.mod_pos_bound (PyFloat.tenths m e) 10 ltac:(lia)) as B.
  exists (PyFloat.tenths m e / 10)%Z, (PyFloat.tenths m e mod 10)%Z.
  split; [apply Z.div_pos; lia |]. split; [lia |].
  split; [reflexivity |]. split; [apply one_digit; lia |].
  rewrite <- D. split; [exact T1 | exact T2].
Qed.

Import Json LogStore.

(** ** Strings *)

Section StringFacts.

Lemma append_assoc (a b c : string) : (a ++ b) ++ c = a ++ (b ++ c).
Proof. induction a as [| x a IH]; cbn; [reflexivity | now rewrite IH]. Qed.

Lemma append_nil_r (a : string) : a ++ "" = a.
Proof. induction a as [| x a IH]; cbn; [reflexivity | now rewrite IH]. Qed.

Lemma length_append (a b : string) :
  String.length (a ++ b) = String.length a + String.length b.
Proof. induction a as [| x a IH]; cbn; [reflexivity | now rewrite IH]. Qed.

Lemma has_prefix_app (a b : string) : PyStr.has_prefix a (a ++ b) = true.
Proof.
  induction a as [| x a IH]; [reflexivity |].
  cbn. now rewrite Ascii.eqb_refl, IH.
Qed.

Lemma all_chars_app p a b : all_chars p (a ++ b) = all_chars p a && all_chars p b.
Proof. induction a as [| x a IH]; cbn; [reflexivity | now rewrite IH, andb_assoc]. Qed.

End StringFacts.

(** ** The number literals of the decoder *)

Section NumberLiterals.

Lemma ends_number_first c t :
  ends_number (String c t) = true ->
  is_digit c = false /\ (c =? "-")%char = false /\ (c =? "+")%char = false /\
  (c =? ".")%char = false /\ (c =? "e")%char = false /\ (c =? "E")%char = false.
Proof.
  cbn. unfold number_char. intros H. apply negb_true_iff in H.
  repeat (apply orb_false_iff in H; destruct H as [H ?]). tauto.
Qed.

Lemma span_digits_end rest :
  ends_number rest = true -> span_digits rest = ("", rest).
Proof.
  destruct rest as [| c t]; [reflexivity |].
  intros H. apply ends_number_first in H. cbn. now destruct H as [-> _].
Qed.

Lemma span_digits_app s rest :
  ends_number rest = true ->
  span_digits (s ++ rest) = (fst (span_digits s), snd (span_digits s) ++ rest).
Proof.
  intros H. induction s as [| c t IH].
  - cbn. now apply span_digits_end.
  - cbn. destruct (is_digit c); [| reflexivity].
    rewrite IH. now destruct (span_digits t).
Qed.

Lemma match_digits_app s rest i r :
  ends_number rest = true ->
  match_digits s = Some (i, r) ->
  match_digits (s ++ rest) = Some (i, r ++ rest).
Proof.
  intros H. destruct s as [| c t]; [discriminate |]. cbn.
  destruct (c =? "0")%char; [intros [= <- <-]; reflexivity |].
  destruct (is_digit c); [| discriminate].
  rewrite (span_digits_app t rest H).
  destruct (span_digits t) as [ds r']. intros [= <- <-]. reflexivity.
Qed.

Lemma match_integer_app s rest i r :
  ends_number rest = true ->
  match_integer s = Some (i, r) ->
  match_integer (s ++ rest) = Some (i, r ++ rest).
Proof.
  intros H. destruct s as [| c t]; [discriminate |].
  change (String c t ++ rest) with (String c (t ++ rest)).
  unfold match_integer.
  destruct (c =? "-")%char.
  - destruct (match_digits t) as [[i' r'] |] eqn:E; [| discriminate].
    intros [= <- <-]. now rewrite (match_digits_app t rest i' r' H E).
  - intros E. now apply (match_digits_app (String c t)).
Qed.

Lemma match_frac_app s rest :
  ends_number rest = true ->
  match_frac (s ++ rest) = (fst (match_frac s), snd (match_frac s) ++ rest).
Proof.
  intros H. destruct s as [| c t].
  - cbn. destruct rest as [| c t]; [reflexivity |].
    apply ends_number_first in H. cbn.
    now destruct H as (_ & _ & _ & -> & _).
  - cbn. destruct (c =? ".")%char; [| reflexivity].
    rewrite (span_digits_app t rest H).
    destruct (span_digits t) as [[| d ds] r']; reflexivity.
Qed.

Lemma match_sign_app s rest :
  ends_number rest = true ->
  match_sign (s ++ rest) = (fst (match_sign s), snd (match_sign s) ++ rest).
Proof.
  intros H. destruct s as [| c t].
  - cbn. destruct rest as [| c t]; [reflexivity |].
    apply ends_number_first in H. cbn.
    now destruct H as (_ & -> & -> & _).
  - cbn. now destruct ((c =? "+") || (c =? "-"))%char.
Qed.

Lemma match_exp_app s rest :
  ends_number rest = true ->
  match_exp (s ++ rest) = (fst (match_exp s), snd (match_exp s) ++ rest).
Proof.
  intros H. destruct s as [| c t].
  - cbn. destruct rest as [| c t]; [reflexivity |].
    apply ends_number_first in H. cbn.
    now destruct H as (_ & _ & _ & _ & -> & ->).
  - cbn. destruct ((c =? "e") || (c =? "E"))%char; [| reflexivity].
    rewrite (match_sign_app t rest H).
    destruct (match_sign t) as [sg t1]. cbn [fst snd].
    rewrite (span_digits_app t1 rest H).
    destruct (span_digits t1) as [[| d ds] r']; reflexivity.
Qed.

Lemma match_number_app s rest i f e :
  ends_number rest = true ->
  match_number s = Some (i, f, e, "") ->
  match_number (s ++ rest) = Some (i, f, e, rest).
Proof.
  intros H. unfold match_number.
  destruct (match_integer s) as [[i' r1] |] eqn:Ei; [| discriminate].
  rewrite (match_integer_app s rest i' r1 H Ei).
  rewrite (match_frac_app r1 rest H).
  destruct (match_frac r1) as [f' r2]. cbn [fst snd].
  rewrite (match_exp_app r2 rest H).
  destruct (match_exp r2) as [e' r3]. cbn [fst snd].
  intros [= <- <- <- ->]. reflexivity.
Qed.

(** What a match is made of. *)
Lemma span_digits_parts s :
  s = fst (span_digits s) ++ snd (span_digits s) /\
  all_chars is_digit (fst (span_digits s)) = true.
Proof.
  induction s as [| c t [IH1 IH2]]; [now split |].
  cbn. destruct (is_digit c) eqn:E; [| now split].
  destruct (span_digits t) as [ds r]. cbn in *. rewrite E, IH2.
  split; [now f_equal | reflexivity].
Qed.

Lemma digit_number_char s :
  all_chars is_digit s = true -> all_chars number_char s = true.
Proof.
  induction s as [| c t IH]; [reflexivity |]. cbn.
  intros H. apply andb_true_iff in H as [H1 H2].
  rewrite (IH H2), andb_true_r. unfold number_char. now rewrite H1.
Qed.

Lemma match_digits_parts s i r :
  match_digits s = Some (i, r) ->
  s = i ++ r /\ all_chars number_char i = true /\
  exists c t, i = String c t /\ is_digit c = true.
Proof.
  destruct s as [| c t]; [discriminate |]. cbn.
  destruct (c =? "0")%char eqn:E0.
  - apply Ascii.eqb_eq in E0. subst c. intros [= <- <-].
    repeat split. now exists "0"%char, "".
  - destruct (is_digit c) eqn:Ed; [| discriminate].
    destruct (span_digits_parts t) as [P1 P2].
    destruct (span_digits t) as [ds r']. cbn in P1, P2.
    intros [= <- <-]. repeat split.
    + cbn. now f_equal.
    + cbn. unfold number_char at 1. rewrite Ed. now apply digit_number_char.
    + now exists c, ds.
Qed.

Lemma match_integer_parts s i r :
  match_integer s = Some (i, r) ->
  s = i ++ r /\ all_chars number_char i = true /\
  exists c t, i = String c t /\ (c = "-"%char \/ is_digit c = true).
Proof.
  destruct s as [| c t]; [discriminate |]. unfold match_integer.
  destruct (c =? "-")%char eqn:E.
  - apply Ascii.eqb_eq in E. subst c.
    destruct (match_digits t) as [[i' r'] |] eqn:Ed; [| discriminate].
    apply match_digits_parts in Ed as (P1 & P2 & _).
    intros [= <- <-]. repeat split.
    + cbn. now f_equal.
    + cbn. exact P2.
    + exists "-"%char, i'. now split; [| left].
  - intros Ed. apply match_digits_parts in Ed as (P1 & P2 & c' & t' & P3 & P4).
    repeat split; trivial. exists c', t'. now split; [| right].
Qed.

Lemma match_frac_parts s :
  s = fst (match_frac s) ++ snd (match_frac s) /\
  all_chars number_char (fst (match_frac s)) = true.
Proof.
  destruct s as [| c t]; [now split |]. cbn.
  destruct (c =? ".")%char eqn:E; [| now split].
  apply Ascii.eqb_eq in E. subst c.
  destruct (span_digits_parts t) as [P1 P2].
  destruct (span_digits t) as [[| d ds] r]; [now split |].
  cbn [fst snd] in *. split; [cbn; now f_equal |].
  change (all_chars number_char (String d ds) = true).
  now apply digit_number_char.
Qed.

Lemma match_sign_parts s :
  s = fst (match_sign s) ++ snd (match_sign s) /\
  all_chars number_char (fst (match_sign s)) = true.
Proof.
  destruct s as [| c t]; [now split |]. cbn.
  destruct ((c =? "+") || (c =? "-"))%char eqn:E; [| now split].
  split; [reflexivity |]. cbn. unfold number_char.
  apply orb_true_iff in E as [-> | ->]; now rewrite ?orb_true_r.
Qed.

Lemma match_exp_parts s :
  s = fst (match_exp s) ++ snd (match_exp s) /\
  all_chars number_char (fst (match_exp s)) = true.
Proof.
  destruct s as [| c t]; [now split |]. cbn.
  destruct ((c =? "e") || (c =? "E"))%char eqn:E; [| now split].
  destruct (match_sign_parts t) as [S1 S2].
  destruct (match_sign t) as [sg t1]. cbn [fst snd] in *.
  destruct (span_digits_parts t1) as [P1 P2].
  destruct (span_digits t1) as [[| d ds] r]; [now split |].
  cbn [fst snd] in *. split.
  - cbn. f_equal. rewrite S1, P1. now rewrite append_assoc.
  - cbn. rewrite all_chars_app, S2. cbn [andb].
    rewrite (digit_number_char _ P2), andb_true_r.
    unfold number_char.
    apply orb_true_iff in E as [-> | ->]; now rewrite ?orb_true_r.
Qed.

Lemma match_number_parts s i f e r :
  match_number s = Some (i, f, e, r) ->
  s = (i ++ f ++ e) ++ r /\ all_chars number_char (i ++ f ++ e) = true /\
  exists c t, i = String c t /\ (c = "-"%char \/ is_digit c = true).
Proof.
  unfold match_number.
  destruct (match_integer s) as [[i' r1] |] eqn:Ei; [| discriminate].
  apply match_integer_parts in Ei as (I1 & I2 & I3).
  destruct (match_frac_parts r1) as [F1 F2].
  destruct (match_frac r1) as [f' r2]. cbn [fst snd] in *.
  destruct (match_exp_parts r2) as [E1 E2].
  destruct (match_exp r2) as [e' r3]. cbn [fst snd] in *.
  intros [= <- <- <- <-]. repeat split.
  - rewrite I1, F1, E1. now rewrite !append_assoc.
  - now rewrite !all_chars_app, I2, F2, E2.
  - exact I3.
Qed.

End NumberLiterals.

(** ** Decoding what the encoder wrote *)

Section Escapes.
#[local] Open Scope N_scope.

Lemma all_from_spec (p : N -> bool) count :
  forall start,
    Shape.all_from count start p = true ->
    forall n, start <= n < start + N.of_nat count -> p n = true.
Proof.
  induction count as [| count IH]; intros start H n Hn; [lia |].
  cbn [Shape.all_from] in H. destruct (p start) eqn:P; [| discriminate].
  destruct (N.eq_dec n start) as [-> | Hne]; [exact P |].
  apply (IH (N.succ start) H). lia.
Qed.

Lemma hex_roundtrip_below n : n < 65536 -> Shape.hex_roundtrip n = true.
Proof.
  intros H. apply (all_from_spec Shape.hex_roundtrip (256 * 256) 0).
  - vm_compute. reflexivity.
  - change (N.of_nat (256 * 256)) with 65536. lia.
Qed.

(** The digits of a [\uXXXX] escape and what the decoder reads in them. *)
Lemma u_escape_digits n :
  n < 65536 ->
  exists a b c d,
    u_escape n = String "\" (String "u" (String a (String b (String c (String d ""))))) /\
    decode_uXXXX a b c d = Some n.
Proof.
  intros H. pose proof (hex_roundtrip_below n H) as R.
  unfold Shape.hex_roundtrip in R. unfold u_escape in *.
  do 4 eexists. split; [reflexivity |].
  destruct (decode_uXXXX _ _ _ _) as [m |]; [| discriminate].
  apply N.eqb_eq in R. now subst m.
Qed.

Lemma lor_high a b n : b < 2 ^ n -> N.lor (a * 2 ^ n) b = a * 2 ^ n + b.
Proof.
  intros Hb.
  assert (L : N.land (a * 2 ^ n) b = 0).
  { apply N.bits_inj_0. intros i. rewrite N.land_spec.
    destruct (N.lt_ge_cases i n) as [Hi | Hi].
    - now rewrite N.mul_pow2_bits_low.
    - rewrite <- (N.mod_small b (2 ^ n) Hb) at 1.
      rewrite N.mod_pow2_bits_high by exact Hi. apply andb_false_r. }
  now rewrite <- (N.lxor_lor _ _ L), <- (N.add_nocarry_lxor _ _ L).
Qed.

Lemma surrogates c :
  65536 <= c < 1114112 ->
  let n := c - 65536 in
  let hi := N.lor 55296 (N.land (N.shiftr n 10) 1023) in
  let lo := N.lor 56320 (N.land n 1023) in
  PyStr.is_high hi = true /\ PyStr.is_low lo = true /\
  hi < 65536 /\ lo < 65536 /\ join_surrogates hi lo = c.
Proof.
  intros Hc n hi lo.
  assert (Hn : n < 1048576) by (unfold n; lia).
  assert (Q : N.land (N.shiftr n 10) 1023 = n / 1024).
  { change 1023 with (N.ones 10). rewrite N.land_ones, N.shiftr_div_pow2.
    change (2 ^ 10) with 1024. apply N.mod_small.
    apply N.Div0.div_lt_upper_bound. lia. }
  assert (R : N.land n 1023 = n mod 1024).
  { change 1023 with (N.ones 10). now rewrite N.land_ones. }
  assert (Hq : n / 1024 < 1024) by (apply N.Div0.div_lt_upper_bound; lia).
  assert (Hr : n mod 1024 < 1024) by (apply N.mod_lt; lia).
  assert (Ehi : hi = 55296 + n / 1024).
  { unfold hi. rewrite Q. change 55296 with (54 * 2 ^ 10).
    apply lor_high. exact Hq. }
  assert (Elo : lo = 56320 + n mod 1024).
  { unfold lo. rewrite R. change 56320 with (55 * 2 ^ 10).
    apply lor_high. exact Hr. }
  unfold PyStr.is_high, PyStr.is_low, join_surrogates.
  rewrite Ehi, Elo.
  repeat split; try (apply andb_true_iff; split; apply N.leb_le; lia); try lia.
  replace (55296 + n / 1024 - 55296) with (n / 1024) by lia.
  replace (56320 + n mod 1024 - 56320) with (n mod 1024) by lia.
  rewrite N.shiftl_mul_pow2. rewrite lor_high by exact Hr.
  change (2 ^ 10) with 1024.
  pose proof (N.div_mod n 1024 ltac:(lia)) as D. unfold n in *. lia.
Qed.

End Escapes.

Section Scanstring.
#[local] Open Scope N_scope.

Lemma scanstring_raw c t :
  (c =? dquote)%char = false -> (c =? "\")%char = false ->
  (N_of_ascii c <? 32) = false ->
  scanstring (String c t) = prepend (N_of_ascii c) (scanstring t).
Proof. intros H1 H2 H3. cbn [scanstring]. now rewrite H1, H2, H3. Qed.

(** After the escape of a high surrogate that no low one follows. *)
Lemma scanstring_u n x :
  n < 65536 -> Shape.low_ahead x = false ->
  scanstring (u_escape n ++ x) = prepend n (scanstring x).
Proof.
  intros Hn Hx. destruct (u_escape_digits n Hn) as (a & b & c & d & -> & D).
  cbn [append scanstring Ascii.eqb Bool.eqb dquote]. rewrite D.
  destruct (PyStr.is_high n); [| reflexivity].
  destruct x as [| x1 [| x2 [| g1 [| g2 [| g3 [| g4 t3]]]]]]; try reflexivity.
  unfold Shape.low_ahead in Hx.
  destruct ((x1 =? "\") && (x2 =? "u"))%char eqn:T; [| reflexivity].
  cbn [andb] in Hx. apply andb_true_iff in T as [T1 T2].
  apply Ascii.eqb_eq in T1, T2. subst x1 x2.
  destruct (decode_uXXXX g1 g2 g3 g4) as [n2 |] eqn:D2.
  - now rewrite Hx.
  - cbn [scanstring Ascii.eqb Bool.eqb dquote]. now rewrite D2.
Qed.

Lemma scanstring_pair c x :
  65536 <= c < 1114112 ->
  scanstring (escape_char c ++ x) = prepend c (scanstring x).
Proof.
  intros Hc. destruct (surrogates c Hc) as (Hhi & Hlo & Bhi & Blo & J).
  unfold escape_char.
  repeat match goal with
         | |- context [(c =? ?k)] =>
             destruct (N.eqb_spec c k) as [? | _]; [lia |]
         end.
  destruct ((32 <=? c) && (c <=? 126)) eqn:P.
  { apply andb_true_iff in P as [_ P]. apply N.leb_le in P. lia. }
  destruct (N.ltb_spec c 65536) as [? | _]; [lia |]. cbv zeta.
  set (hi := N.lor 55296 _) in *. set (lo := N.lor 56320 _) in *.
  destruct (u_escape_digits hi Bhi) as (a & b & c1 & d & -> & D).
  destruct (u_escape_digits lo Blo) as (a' & b' & c' & d' & -> & D').
  cbn [append scanstring Ascii.eqb Bool.eqb dquote andb].
  now rewrite D, Hhi, D', Hlo, J.
Qed.

Lemma N_of_ascii_of_N c : c < 256 -> N_of_ascii (ascii_of_N c) = c.
Proof. apply N_ascii_embedding. Qed.

(** What the decoder reads in the escape of one character. *)
Lemma scanstring_escape_char c x :
  c < 1114112 ->
  (PyStr.is_high c = true -> Shape.low_ahead x = false) ->
  scanstring (escape_char c ++ x) = prepend c (scanstring x).
Proof.
  intros Hc Hx.
  destruct (N.ltb_spec c 65536) as [Hs | Hs];
    [| apply scanstring_pair; lia].
  assert (U : Shape.low_ahead x = false \/ PyStr.is_high c = false).
  { destruct (PyStr.is_high c); [left; now apply Hx | now right]. }
  unfold escape_char.
  repeat match goal with
         | |- context [(c =? ?k)] =>
             destruct (N.eqb_spec c k) as [-> | ?]; [reflexivity |]
         end.
  destruct ((32 <=? c) && (c <=? 126)) eqn:P.
  - apply andb_true_iff in P as [P1 P2]. apply N.leb_le in P1, P2.
    cbn [append]. rewrite scanstring_raw.
    + now rewrite N_of_ascii_of_N by lia.
    + apply Ascii.eqb_neq. intros E. apply (f_equal N_of_ascii) in E.
      rewrite N_of_ascii_of_N in E by lia. cbn in E. lia.
    + apply Ascii.eqb_neq. intros E. apply (f_equal N_of_ascii) in E.
      rewrite N_of_ascii_of_N in E by lia. cbn in E. lia.
    + rewrite N_of_ascii_of_N by lia. apply N.ltb_ge. exact P1.
  - destruct (N.ltb_spec c 65536) as [_ | ?]; [| lia].
    destruct U as [U | U]; [now apply scanstring_u |].
    destruct (u_escape_digits c Hs) as (a & b & c1 & d & -> & D).
    cbn [append scanstring Ascii.eqb Bool.eqb dquote]. now rewrite D, U.
Qed.

(** The escapes start with no escape of a low surrogate, unless the text
    starts with a low surrogate. *)
Lemma low_ahead_escape_char c x :
  c < 1114112 -> PyStr.is_low c = false ->
  Shape.low_ahead (escape_char c ++ x) = false.
Proof.
  intros Hc Hl. unfold escape_char.
  repeat match goal with
         | |- context [(c =? ?k)] =>
             destruct (N.eqb_spec c k) as [-> | ?];
             [destruct x as [| ? [| ? [| ? [| ? ?]]]]; reflexivity |]
         end.
  destruct ((32 <=? c) && (c <=? 126)) eqn:P.
  - apply andb_true_iff in P as [P1 P2]. apply N.leb_le in P1, P2.
    cbn [append]. unfold Shape.low_ahead.
    destruct x as [| x2 [| g1 [| g2 [| g3 [| g4 t3]]]]]; try reflexivity.
    assert (E : (ascii_of_N c =? "\")%char = false).
    { apply Ascii.eqb_neq. intros E. apply (f_equal N_of_ascii) in E.
      rewrite N_of_ascii_of_N in E by lia. cbn in E. lia. }
    now rewrite E.
  - destruct (N.ltb_spec c 65536) as [Hs | Hs].
    + destruct (u_escape_digits c Hs) as (a & b & c1 & d & -> & D).
      cbn [append]. unfold Shape.low_ahead.
      cbn [Ascii.eqb Bool.eqb andb]. now rewrite D.
    + cbv zeta. destruct (surrogates c ltac:(lia)) as (Hhi & _ & Bhi & _ & _).
      set (hi := N.lor 55296 _) in *.
      destruct (u_escape_digits hi Bhi) as (a & b & c1 & d & -> & D).
      cbn [append]. unfold Shape.low_ahead.
      cbn [Ascii.eqb Bool.eqb andb]. rewrite D.
      unfold PyStr.is_high, PyStr.is_low in *.
      apply andb_true_iff in Hhi as [H1 H2]. apply N.leb_le in H1, H2.
      apply andb_false_iff. left. apply N.leb_gt. lia.
Qed.

Lemma low_ahead_escape s rest :
  PyStr.no_surrogate_pair s = true ->
  match s with c :: _ => PyStr.is_low c = false | [] => True end ->
  Shape.low_ahead (escape s ++ String dquote rest) = false.
Proof.
  destruct s as [| c t]; intros H L.
  - cbn [escape append]. unfold Shape.low_ahead.
    destruct rest as [| ? [| ? [| ? [| ? [| ? ?]]]]]; reflexivity.
  - cbn [escape]. rewrite append_assoc. apply low_ahead_escape_char; [| exact L].
    cbn [PyStr.no_surrogate_pair] in H.
    apply andb_true_iff in H as [H _]. apply andb_true_iff in H as [H _].
    now apply N.ltb_lt.
Qed.

Lemma scanstring_escape (s : PyStr.str) (rest : string) :
  PyStr.no_surrogate_pair s = true ->
  scanstring (escape s ++ String dquote rest) = Some (s, rest).
Proof.
  induction s as [| c s IH]; intros H; [reflexivity |].
  cbn [PyStr.no_surrogate_pair] in H.
  apply andb_true_iff in H as [H Hs]. apply andb_true_iff in H as [Hc Hp].
  apply N.ltb_lt in Hc. apply negb_true_iff in Hp.
  cbn [escape]. rewrite append_assoc.
  rewrite scanstring_escape_char; [now rewrite (IH Hs) | exact Hc |].
  intros Hh. rewrite Hh in Hp. cbn [andb] in Hp.
  apply low_ahead_escape; [exact Hs |].
  destruct s; [exact I | exact Hp].
Qed.

End Scanstring.

(** The three special floats and the finite ones. *)
Lemma is_nan_eq x : PrimFloat.is_nan x = true -> x = nan.
Proof.
  intros H. rewrite <- (SF2Prim_Prim2SF x). unfold Prim2SF. now rewrite H.
Qed.

Lemma eqb_infinity_eq x s :
  (x =? SF2Prim (S754_infinity s))%float = true -> x = SF2Prim (S754_infinity s).
Proof.
  intros H. rewrite <- (SF2Prim_Prim2SF x). f_equal.
  rewrite FloatAxioms.eqb_spec in H.
  rewrite Prim2SF_SF2Prim in H by reflexivity.
  destruct (Prim2SF x) as [s' | s' | | s' m e]; try discriminate H.
  all: destruct s, s'; try discriminate H; reflexivity.
Qed.

Lemma finite_cases x :
  PrimFloat.is_nan x = false ->
  (x =? infinity)%float = false ->
  (x =? neg_infinity)%float = false ->
  PrimFloat.is_finite x = true.
Proof.
  intros Hn Hp Hm. unfold is_finite. rewrite Hn. cbn [orb].
  apply negb_true_iff. unfold is_infinity.
  rewrite FloatAxioms.eqb_spec in *. rewrite abs_spec.
  change (Prim2SF infinity) with (S754_infinity false) in *.
  change (Prim2SF neg_infinity) with (S754_infinity true) in *.
  destruct (Prim2SF x) as [s' | s' | | s' m e]; try reflexivity.
  destruct s'; [exact Hm | exact Hp].
Qed.

Section Leaves.
Context {ft : FloatText} (laws : FloatTextLaws ft).

Lemma scan_once_unfold fuel c t :
  scan_once (S fuel) (String c t) =
  if (c =? dquote)%char then
    match scanstring t with
    | Some (str, rest) => Some (JStr str, rest)
    | None => None
    end
  else if (c =? "{")%char then
    match skip_ws t with
    | String "}" rest => Some (JObj [], rest)
    | String "034" rest => object_members fuel [] rest
    | _ => None
    end
  else if (c =? "[")%char then
    match skip_ws t with
    | String "]" rest => Some (JArr [], rest)
    | t' => array_items fuel [] t'
    end
  else if PyStr.has_prefix "null" (String c t) then Some (JNull, drop 4 (String c t))
  else if PyStr.has_prefix "true" (String c t) then Some (JBool true, drop 4 (String c t))
  else if PyStr.has_prefix "false" (String c t) then Some (JBool false, drop 5 (String c t))
  else scan_number (String c t).
Proof. reflexivity. Qed.

Lemma scan_once_number_start fuel c t :
  c = "-"%char \/ is_digit c = true ->
  scan_once (S fuel) (String c t) = scan_number (String c t).
Proof.
  intros H. rewrite scan_once_unfold.
  destruct H as [-> | H]; [reflexivity |].
  destruct c as [[] [] [] [] [] [] [] []]; try discriminate H; reflexivity.
Qed.

Lemma skip_ws_number_start c t :
  c = "-"%char \/ is_digit c = true ->
  skip_ws (String c t) = String c t.
Proof.
  intros [-> | H]; [reflexivity |].
  destruct c as [[] [] [] [] [] [] [] []]; try discriminate H; reflexivity.
Qed.

Lemma float_repr_shape x :
  PrimFloat.is_finite x = true ->
  exists i f e c t,
    match_number (float_repr x) = Some (i, f, e, "") /\
    (f <> "" \/ e <> "") /\
    float_repr x = i ++ f ++ e /\
    all_chars number_char (float_repr x) = true /\
    float_repr x = String c t /\ (c = "-"%char \/ is_digit c = true).
Proof.
  intros Hx. pose proof (repr_literal x Hx) as L. unfold float_literal in L.
  destruct (match_number (float_repr x)) as [[[[i f] e] r] |] eqn:E;
    [| discriminate].
  assert (r = "" /\ (f <> "" \/ e <> "")) as [-> Hfe].
  { destruct f, e, r; try discriminate L; split; trivial;
      try (left; discriminate); right; discriminate. }
  destruct (match_number_parts _ _ _ _ _ E) as (P1 & P2 & c & t & -> & P3).
  rewrite append_nil_r in P1.
  exists (String c t), f, e, c, (t ++ f ++ e).
  split; [reflexivity |]. split; [exact Hfe |]. split; [exact P1 |].
  split; [now rewrite P1 |]. split; [exact P1 | exact P3].
Qed.

Lemma scan_once_floatstr fuel x rest :
  ends_number rest = true ->
  scan_once (S fuel) (floatstr x ++ rest) = Some (JFloat x, rest).
Proof.
  intros Hrest. unfold floatstr.
  destruct (PrimFloat.is_nan x) eqn:Hn.
  { apply is_nan_eq in Hn. subst x. cbn [append].
    rewrite scan_once_unfold. reflexivity. }
  destruct (x =? infinity)%float eqn:Hp.
  { apply (eqb_infinity_eq x false) in Hp. subst x. cbn [append].
    rewrite scan_once_unfold. reflexivity. }
  destruct (x =? neg_infinity)%float eqn:Hm.
  { apply (eqb_infinity_eq x true) in Hm. subst x. cbn [append].
    rewrite scan_once_unfold. reflexivity. }
  pose proof (finite_cases x Hn Hp Hm) as Hx.
  destruct (float_repr_shape x Hx) as (i & f & e & c & t & M & Hfe & P & _ & S & C).
  rewrite S. change (String c t ++ rest) with (String c (t ++ rest)).
  rewrite scan_once_number_start by exact C.
  change (String c (t ++ rest)) with (String c t ++ rest). rewrite <- S.
  unfold scan_number. rewrite (match_number_app _ rest i f e Hrest M).
  rewrite <- P, (repr_roundtrip x Hx).
  destruct f; [destruct e; [destruct Hfe as [H | H]; now elim H |] |]; reflexivity.
Qed.

Lemma skip_ws_floatstr x rest :
  skip_ws (floatstr x ++ rest) = floatstr x ++ rest.
Proof.
  unfold floatstr.
  destruct (PrimFloat.is_nan x) eqn:Hn; [reflexivity |].
  destruct (x =? infinity)%float eqn:Hp; [reflexivity |].
  destruct (x =? neg_infinity)%float eqn:Hm; [reflexivity |].
  pose proof (finite_cases x Hn Hp Hm) as Hx.
  destruct (float_repr_shape x Hx) as (i & f & e & c & t & _ & _ & _ & _ & S & C).
  rewrite S. now apply skip_ws_number_start.
Qed.

End Leaves.

Section Objects.
Context {ft : FloatText} (laws : FloatTextLaws ft).

Lemma dumps_object pairs : dumps (JObj pairs) = "{" ++ members_text pairs ++ "}".
Proof. reflexivity. Qed.

Lemma scan_once_encoded fuel s rest :
  PyStr.no_surrogate_pair s = true ->
  scan_once (S fuel) (encode_basestring_ascii s ++ rest) = Some (JStr s, rest).
Proof.
  intros H. unfold encode_basestring_ascii. cbn [append].
  rewrite scan_once_unfold. cbn [Ascii.eqb Bool.eqb dquote].
  rewrite append_assoc. cbn [append]. now rewrite scanstring_escape.
Qed.

Lemma plain_flat v : plain v = true -> flat v = true.
Proof. now destruct v. Qed.

Lemma scan_once_flat fuel v rest :
  plain v = true -> ends_number rest = true ->
  scan_once (S fuel) (dumps v ++ rest) = Some (v, rest).
Proof.
  destruct v; try discriminate; cbn [plain dumps]; intros P H.
  - now apply scan_once_floatstr.
  - now apply scan_once_encoded.
Qed.

Lemma skip_ws_flat v rest :
  flat v = true -> skip_ws (dumps v ++ rest) = dumps v ++ rest.
Proof.
  destruct v; try discriminate; intros _; cbn [dumps].
  - now apply skip_ws_floatstr.
  - reflexivity.
Qed.

Lemma object_members_unfold fuel pairs s :
  object_members (S fuel) pairs s =
  match scanstring s with
  | None => None
  | Some (key, s1) =>
      match skip_ws s1 with
      | String ":" s2 =>
          match scan_once fuel (skip_ws s2) with
          | None => None
          | Some (v, s3) =>
              match skip_ws s3 with
              | String "}" rest =>
                  Some (JObj (dict_of_pairs (pairs ++ [(key, v)])), rest)
              | String "," s4 =>
                  match skip_ws s4 with
                  | String "034" s5 =>
                      object_members fuel (pairs ++ [(key, v)]) s5
                  | _ => None
                  end
              | _ => None
              end
          end
      | _ => None
      end
  end.
Proof. reflexivity. Qed.

Lemma members_text_cons k v more rest :
  members_text ((k, v) :: more) ++ String "}" rest =
  String dquote (after_quote k v more rest).
Proof.
  unfold after_quote. destruct more as [| [k' v'] more'];
    cbn [members_text]; unfold encode_basestring_ascii; cbn [append];
    rewrite !append_assoc; cbn [append]; rewrite ?append_assoc; reflexivity.
Qed.

Lemma object_members_flat more :
  forall fuel acc k v rest,
    forallb plain (v :: map snd more) = true ->
    forallb PyStr.no_surrogate_pair (k :: map fst more) = true ->
    S (List.length more) < fuel ->
    object_members fuel acc (after_quote k v more rest) =
    Some (JObj (dict_of_pairs (acc ++ (k, v) :: more)), rest).
Proof.
  induction more as [| [k' v'] more IH];
    intros fuel acc k v rest Hflat Hkeys Hfuel.
  - destruct fuel as [| [| fuel]]; cbn in Hfuel; try lia.
    cbn in Hflat, Hkeys. rewrite andb_true_r in Hflat, Hkeys.
    rewrite object_members_unfold. unfold after_quote.
    rewrite scanstring_escape by exact Hkeys. cbn [append skip_ws is_ws].
    rewrite (skip_ws_flat v _ (plain_flat v Hflat)).
    rewrite scan_once_flat by (exact Hflat || reflexivity). reflexivity.
  - destruct fuel as [| [| fuel]]; cbn in Hfuel; try lia.
    cbn [forallb map snd fst] in Hflat, Hkeys.
    apply andb_true_iff in Hflat as [Hv Hmore].
    apply andb_true_iff in Hkeys as [Hk Hks].
    rewrite object_members_unfold. unfold after_quote at 1.
    rewrite scanstring_escape by exact Hk. cbn [append skip_ws is_ws].
    rewrite (skip_ws_flat v _ (plain_flat v Hv)).
    rewrite scan_once_flat by (exact Hv || reflexivity).
    rewrite members_text_cons. cbn [append skip_ws is_ws dquote].
    rewrite (IH (S fuel) (acc ++ [(k, v)])%list k' v' rest Hmore Hks) by lia.
    now rewrite <- app_assoc.
Qed.

Lemma members_text_length pairs :
  List.length pairs <= String.length (members_text pairs).
Proof.
  induction pairs as [| [k v] more IH]; [cbn; lia |].
  change (members_text ((k, v) :: more)) with
    (match more with
     | [] => encode_basestring_ascii k ++ ": " ++ dumps v
     | _ :: _ =>
         encode_basestring_ascii k ++ ": " ++ dumps v ++ ", "
         ++ members_text more
     end).
  destruct more as [| p more].
  - unfold encode_basestring_ascii. cbn [append String.length List.length]. lia.
  - rewrite !length_append. cbn [List.length String.length] in *. lia.
Qed.

(** Decoding the encoding of a dictionary of strings and floats. *)
Lemma loads_dumps_flat k v more :
  forallb plain (v :: map snd more) = true ->
  forallb PyStr.no_surrogate_pair (k :: map fst more) = true ->
  loads (dumps (JObj ((k, v) :: more)) ++ String "010" "") =
  Some (JObj (dict_of_pairs ((k, v) :: more))).
Proof.
  intros Hflat Hkeys. rewrite dumps_object. unfold loads.
  rewrite !append_assoc. cbn [append].
  rewrite (members_text_cons k v more (String "010" "")).
  cbn [append skip_ws is_ws String.length].
  rewrite scan_once_unfold. cbn [Ascii.eqb Bool.eqb dquote skip_ws is_ws].
  rewrite (object_members_flat more _ [] k v _ Hflat Hkeys).
  - reflexivity.
  - pose proof (members_text_length more) as L.
    unfold after_quote. rewrite !length_append. cbn [String.length].
    destruct more; cbn [List.length] in *; rewrite ?length_append; cbn [String.length]; lia.
Qed.

End Objects.

(** ** Lines and line breaks *)

Section EscapeShape.
#[local] Open Scope N_scope.

Lemma hex_digit_cases n :
  exists d, hex_digit n = d /\
            In d ["0"; "1"; "2"; "3"; "4"; "5"; "6"; "7"; "8"; "9";
                  "a"; "b"; "c"; "d"; "e"; "f"]%char.
Proof.
  exists (hex_digit n). split; [reflexivity |]. unfold hex_digit.
  destruct n as [| p]; [cbn; tauto |].
  do 4 (destruct p as [p | p |]; try (cbn; tauto)).
Qed.

(** A property of the backslash, the letters of the escapes and the
    printable characters holds of every character of an escape. *)
Lemma escape_char_all (p : ascii -> bool) c :
  (forall a, (32 <= N_of_ascii a <= 126) -> p a = true) ->
  all_chars p (escape_char c) = true.
Proof.
  intros Hp.
  assert (H : forall n, all_chars p (u_escape n) = true).
  { intros n. unfold u_escape. cbn [all_chars].
    assert (D : forall k, p (hex_digit k) = true).
    { intros k. apply Hp. destruct (hex_digit_cases k) as (d & -> & Hd).
      cbn [In] in Hd.
      repeat (destruct Hd as [<- | Hd]; [cbn; lia |]). destruct Hd. }
    rewrite !D. rewrite !Hp by (cbn; lia). reflexivity. }
  unfold escape_char.
  repeat match goal with
         | |- context [(c =? ?k)] =>
             destruct (N.eqb_spec c k) as [-> | ?];
             [cbn [all_chars]; rewrite !Hp by (cbn; lia); reflexivity |]
         end.
  destruct ((32 <=? c) && (c <=? 126)) eqn:P.
  - apply andb_true_iff in P as [P1 P2]. apply N.leb_le in P1, P2.
    cbn [all_chars]. rewrite Hp; [reflexivity |].
    rewrite N_of_ascii_of_N by lia. lia.
  - destruct (c <? 65536); [apply H |]. cbv zeta.
    now rewrite all_chars_app, !H.
Qed.

End EscapeShape.

(** Texts without a line break. *)
Lemma escape_char_no_newline c : all_chars not_newline (escape_char c) = true.
Proof.
  apply escape_char_all. intros a Ha. unfold not_newline.
  apply negb_true_iff, orb_false_iff.
  split; apply Ascii.eqb_neq; intros ->; cbn in Ha; lia.
Qed.

Lemma escape_no_newline s : all_chars not_newline (escape s) = true.
Proof.
  induction s as [| c s IH]; [reflexivity |].
  cbn [escape]. now rewrite all_chars_app, escape_char_no_newline, IH.
Qed.

Lemma number_char_not_newline c : number_char c = true -> not_newline c = true.
Proof.
  intros H. destruct c as [[] [] [] [] [] [] [] []]; try reflexivity; discriminate H.
Qed.

Lemma all_chars_impl (p q : ascii -> bool) s :
  (forall c, p c = true -> q c = true) ->
  all_chars p s = true -> all_chars q s = true.
Proof.
  intros Hpq. induction s as [| c s IH]; [reflexivity |]. cbn.
  intros H. apply andb_true_iff in H as [H1 H2].
  now rewrite (Hpq c H1), (IH H2).
Qed.

Lemma encode_no_newline s :
  all_chars not_newline (encode_basestring_ascii s) = true.
Proof.
  unfold encode_basestring_ascii. cbn [all_chars].
  now rewrite all_chars_app, escape_no_newline.
Qed.

Section Lines.
Context {ft : FloatText} (laws : FloatTextLaws ft).

Lemma floatstr_no_newline x : all_chars not_newline (floatstr x) = true.
Proof.
  unfold floatstr.
  destruct (PrimFloat.is_nan x) eqn:Hn; [reflexivity |].
  destruct (x =? infinity)%float eqn:Hp; [reflexivity |].
  destruct (x =? neg_infinity)%float eqn:Hm; [reflexivity |].
  pose proof (finite_cases x Hn Hp Hm) as Hx.
  destruct (float_repr_shape laws x Hx) as (i & f & e & c & t & _ & _ & _ & N & _).
  apply (all_chars_impl number_char); [apply number_char_not_newline | exact N].
Qed.

Lemma dumps_flat_no_newline v :
  flat v = true -> all_chars not_newline (dumps v) = true.
Proof.
  destruct v; try discriminate; intros _; cbn [dumps].
  - apply floatstr_no_newline.
  - apply encode_no_newline.
Qed.

Lemma members_text_no_newline pairs :
  forallb flat (map snd pairs) = true ->
  all_chars not_newline (members_text pairs) = true.
Proof.
  induction pairs as [| [k v] more IH]; [reflexivity |].
  cbn [map snd forallb]. intros H. apply andb_true_iff in H as [Hv Hmore].
  change (members_text ((k, v) :: more)) with
    (match more with
     | [] => encode_basestring_ascii k ++ ": " ++ dumps v
     | _ :: _ =>
         encode_basestring_ascii k ++ ": " ++ dumps v ++ ", "
         ++ members_text more
     end).
  destruct more as [| p more];
    rewrite !all_chars_app, encode_no_newline, (dumps_flat_no_newline v Hv);
    [reflexivity |].
  now rewrite (IH Hmore).
Qed.

Lemma dumps_object_no_newline pairs :
  forallb flat (map snd pairs) = true ->
  all_chars not_newline (dumps (JObj pairs)) = true.
Proof.
  intros H. rewrite dumps_object. cbn [append all_chars].
  now rewrite all_chars_app, (members_text_no_newline pairs H).
Qed.

End Lines.

(** Lines of a file. *)
Lemma lines_from_one s :
  all_chars not_newline s = true ->
  lines_from false (s ++ String "010" "") = [s ++ String "010" ""].
Proof.
  induction s as [| c s IH]; [reflexivity |].
  cbn [all_chars]. intros H. apply andb_true_iff in H as [Hc Hs].
  cbn [append lines_from]. unfold not_newline in Hc.
  apply negb_true_iff, orb_false_iff in Hc as [-> ->].
  now rewrite (IH Hs).
Qed.

Lemma lines_from_nonempty c s : lines_from false (String c s) <> [].
Proof.
  cbn. destruct (c =? "010")%char; [discriminate |].
  destruct (c =? "013")%char; [discriminate |].
  destruct (lines_from false s); discriminate.
Qed.

Lemma lines_from_app a :
  forall f b,
    lines_from f ((a ++ String "010" "") ++ b) =
    (lines_from f (a ++ String "010" "")%string ++ lines_from false b)%list.
Proof.
  induction a as [| c a IH]; intros f b.
  - cbn. now destruct f.
  - cbn [append lines_from].
    destruct (c =? "010")%char; [destruct f; now rewrite IH |].
    destruct (c =? "013")%char; [now rewrite IH |].
    rewrite IH.
    destruct (lines_from false (a ++ String "010" "")) eqn:E; [| reflexivity].
    exfalso. destruct a; cbn in E; [discriminate |].
    revert E. apply lines_from_nonempty.
Qed.

Lemma newline_terminated_split s :
  newline_terminated s = true ->
  s = "" \/ exists a, s = a ++ String "010" "".
Proof.
  induction s as [| c s IH]; [now left |].
  cbn. destruct s as [| d s'].
  - intros H. apply Ascii.eqb_eq in H. subst c. right. now exists "".
  - intros H. destruct (IH H) as [E | [a E]]; [discriminate |].
    right. exists (String c a). cbn. now rewrite <- E.
Qed.

Lemma readlines_append old line :
  newline_terminated old = true ->
  all_chars not_newline line = true ->
  readlines (old ++ line ++ String "010" "") =
  (readlines old ++ [(line ++ String "010" "")%string])%list.
Proof.
  intros Hold Hline. unfold readlines.
  destruct (newline_terminated_split old Hold) as [-> | [a ->]].
  - cbn [append lines_from app]. exact (lines_from_one line Hline).
  - rewrite lines_from_app. now rewrite (lines_from_one line Hline).
Qed.

Lemma newline_terminated_app a b :
  newline_terminated (a ++ b ++ String "010" "") = true.
Proof.
  induction a as [| c a IH].
  - cbn [append]. induction b as [| d b IHb]; [reflexivity |].
    cbn [append newline_terminated]. destruct b; exact IHb.
  - cbn [append newline_terminated].
    destruct (a ++ b ++ String "010" "") eqn:E; [| exact IH].
    destruct a; [destruct b |]; discriminate E.
Qed.

(** ** The log file *)

Lemma read_entries_app {ft : FloatText} p l1 l2 :
  read_entries p (l1 ++ l2) =
  bind (read_entries p l1) (fun a =>
    bind (read_entries p l2) (fun b => Ok (a ++ b)%list)).
Proof.
  induction l1 as [| l l1 IH]; cbn [app read_entries bind].
  - now destruct (read_entries p l2).
  - destruct (read_line p l) as [r | x]; cbn [bind]; [| reflexivity].
    rewrite IH. destruct (read_entries p l1) as [a | x]; cbn [bind]; [| reflexivity].
    destruct (read_entries p l2) as [b | x]; cbn [bind]; [| reflexivity].
    now destruct r.
Qed.

Lemma has_prefix_nil s : PyStr.has_prefix "" s = true.
Proof. reflexivity. Qed.

(** ** Texts as code points *)

Section CodePoints.

Lemma of_string_app (a b : string) :
  PyStr.of_string (a ++ b) = (PyStr.of_string a ++ PyStr.of_string b)%list.
Proof. induction a as [| c a IH]; cbn; [reflexivity | now rewrite IH]. Qed.

Lemma of_string_length (a : string) :
  List.length (PyStr.of_string a) = String.length a.
Proof. induction a as [| c a IH]; cbn; [reflexivity | now rewrite IH]. Qed.

Lemma of_string_inj (a b : string) :
  PyStr.of_string a = PyStr.of_string b -> a = b.
Proof.
  revert b. induction a as [| c a IH]; intros [| d b]; cbn; try discriminate.
  - reflexivity.
  - intros [= E1 E2]. f_equal; [| now apply IH].
    rewrite <- (ascii_N_embedding c), <- (ascii_N_embedding d). now rewrite E1.
Qed.

(** A text of code points below 256 holds no surrogate. *)
Lemma of_string_no_pair (s : string) :
  PyStr.no_surrogate_pair (PyStr.of_string s) = true.
Proof.
  induction s as [| c s IH]; [reflexivity |].
  cbn [PyStr.of_string PyStr.no_surrogate_pair].
  pose proof (N_ascii_bounded c) as B. rewrite IH, andb_true_r.
  apply andb_true_iff. split; [apply N.ltb_lt; lia |].
  apply negb_true_iff, andb_false_iff. left. unfold PyStr.is_high.
  apply andb_false_iff. left. apply N.leb_gt. lia.
Qed.

Lemma str_eqb_eq (a b : PyStr.str) : PyStr.eqb a b = true <-> a = b.
Proof.
  revert b. induction a as [| x a IH]; intros [| y b]; cbn; try easy.
  rewrite andb_true_iff, N.eqb_eq, IH. split; [intros [-> ->] | intros [= -> ->]]; easy.
Qed.

Lemma str_startswith_app (a b : PyStr.str) :
  PyStr.str_startswith (a ++ b)%list a = true.
Proof.
  induction a as [| x a IH]; [reflexivity |].
  cbn. now rewrite N.eqb_refl, IH.
Qed.

(** The prefix test on code points agrees with the one on characters. *)
Lemma str_startswith_of_string (s p : string) :
  PyStr.str_startswith (PyStr.of_string s) (PyStr.of_string p)
  = PyStr.has_prefix p s.
Proof.
  revert s. induction p as [| a p IH]; intros s; [reflexivity |].
  destruct s as [| b s]; [reflexivity |]. cbn. rewrite IH. f_equal.
  destruct (Ascii.eqb_spec a b) as [-> | Hne]; [apply N.eqb_refl |].
  apply N.eqb_neq. intros E. apply Hne.
  rewrite <- (ascii_N_embedding a), <- (ascii_N_embedding b). now rewrite E.
Qed.

End CodePoints.

Section Log.
Context {ft : FloatText} (laws : FloatTextLaws ft).

Lemma loads_entry_line e :
  encodable e = true ->
  loads (entry_line (entry_dict e)) = Some (entry_dict e).
Proof.
  intros H. unfold encodable in H.
  apply andb_true_iff in H as [H Hs]. apply andb_true_iff in H as [Ht Hf].
  unfold entry_line, entry_dict. rewrite (loads_dumps_flat laws).
  - reflexivity.
  - cbn [forallb map snd plain]. now rewrite Ht, Hf, Hs.
  - reflexivity.
Qed.

Lemma read_line_entry p e :
  encodable e = true ->
  read_line p (entry_line (entry_dict e)) =
  Ok (if PyStr.str_startswith (timestamp e) p then Some (entry_dict e) else None).
Proof. intros H. unfold read_line. now rewrite loads_entry_line. Qed.

Lemma entry_no_newline e :
  all_chars not_newline (dumps (entry_dict e)) = true.
Proof. now apply (dumps_object_no_newline laws). Qed.

Lemma readAll_append_entry fs rows e :
  encodable e = true ->
  readAll fs = Ok rows ->
  newline_terminated (file_text fs) = true ->
  readAll (append_entry fs (entry_dict e)) = Ok (rows ++ [entry_dict e])%list.
Proof.
  intros He Hread Hnl. unfold append_entry, readAll.
  unfold entry_line at 1.
  rewrite (readlines_append _ _ Hnl (entry_no_newline e)).
  fold (entry_line (entry_dict e)).
  rewrite read_entries_app. cbn [read_entries].
  rewrite (read_line_entry _ _ He). cbn [bind PyStr.str_startswith].
  destruct fs as [content |]; cbn [file_text readAll] in *.
  - now rewrite Hread.
  - injection Hread as <-. reflexivity.
Qed.

Lemma append_entry_terminated fs v :
  newline_terminated (file_text (append_entry fs v)) = true.
Proof. apply newline_terminated_app. Qed.

Lemma log_of_snoc es e :
  log_of (es ++ [e]) = append_entry (log_of es) (entry_dict e).
Proof. unfold log_of. now rewrite fold_left_app. Qed.

Lemma log_of_readable es :
  forallb encodable es = true ->
  readAll (log_of es) = Ok (map entry_dict es) /\
  newline_terminated (file_text (log_of es)) = true.
Proof.
  induction es as [| e es IH] using rev_ind; intros H; [now split |].
  rewrite forallb_app in H. apply andb_true_iff in H as [Hes He].
  cbn [forallb] in He. rewrite andb_true_r in He.
  destruct (IH Hes) as [IH1 IH2].
  rewrite log_of_snoc, map_app. split.
  - now apply readAll_append_entry.
  - apply append_entry_terminated.
Qed.

Lemma log_of_nonempty e es : exists content, log_of (e :: es) = Some content.
Proof.
  destruct (exists_last (l := e :: es) ltac:(discriminate)) as (es' & e' & ->).
  rewrite log_of_snoc. unfold append_entry. eauto.
Qed.

End Log.

(** ** The report of [today] *)

Section Today.
Context {ft : FloatText} {cs : Console}.

Lemma bind_ok {A B : Type} (r : result A) (k : A -> result B) b :
  bind r k = Ok b -> exists a, r = Ok a /\ k a = Ok b.
Proof. destruct r as [a | x]; cbn [bind]; [eauto | discriminate]. Qed.

Lemma read_entries_select p lines :
  forall js,
    read_entries [] lines = Ok js ->
    read_entries p lines = Ok (filter (starts_with_date p) js).
Proof.
  induction lines as [| l lines IH]; intros js; cbn [read_entries].
  - intros [= <-]. reflexivity.
  - unfold read_line. destruct (loads l) as [entry |]; [| discriminate].
    unfold starts_with_date.
    destruct (getitem entry (PyStr.of_string "timestamp")) as [ts | x] eqn:G;
      [| discriminate].
    destruct ts; try discriminate. cbn [bind value_startswith].
    destruct (read_entries [] lines) as [js' | x]; [| discriminate].
    cbn [bind PyStr.str_startswith]. intros [= <-].
    rewrite (IH js' eq_refl). cbn [bind filter]. rewrite G.
    now destruct (PyStr.str_startswith s p).
Qed.

Lemma filter_entry_dict p es :
  filter (starts_with_date p) (map entry_dict es) =
  map entry_dict (filter (fun e => PyStr.str_startswith (timestamp e) p) es).
Proof.
  induction es as [| e es IH]; [reflexivity |].
  cbn [map filter].
  change (starts_with_date p (entry_dict e))
    with (PyStr.str_startswith (timestamp e) p).
  destruct (PyStr.str_startswith (timestamp e) p); cbn [map]; now rewrite IH.
Qed.

(** *** One entry *)

Lemma number_shown v f :
  number (Some v) = Some f -> format_f v = Ok tt /\ as_float v = Ok f.
Proof.
  destruct v; cbn [number format_f as_float]; try discriminate.
  - intros [= <-]. now split.
  - destruct (float_of_int z) as [g | x]; [| discriminate].
    intros [= <-]. now split.
  - intros [= <-]. now split.
Qed.

Lemma shown_number v :
  format_f v = Ok tt -> is_number (Some v) = true.
Proof.
  unfold is_number. destruct v; cbn [number format_f]; try discriminate; trivial.
  destruct (float_of_int z); [trivial | discriminate].
Qed.

Lemma is_number_cases o :
  is_number o = true -> exists v f, o = Some v /\ number (Some v) = Some f.
Proof.
  unfold is_number. destruct o as [v |]; [| discriminate].
  destruct (number (Some v)) as [f |] eqn:E; [eauto | discriminate].
Qed.

Lemma text_cell_cases o :
  is_text_cell o = true ->
  exists v c, o = Some v /\ cell v = Ok c /\ cell_prints c = true.
Proof.
  destruct o as [[] |]; cbn [is_text_cell]; try discriminate; intros H.
  - exists JNull, None. now repeat split.
  - exists (JStr s), (Some s). now repeat split.
Qed.

Lemma cell_text v c :
  cell v = Ok c -> cell_prints c = true -> is_text_cell (Some v) = true.
Proof.
  destruct v; cbn [cell]; try discriminate; intros [= <-]; trivial.
Qed.

Lemma getitem_obj d key :
  getitem (JObj d) key =
  match dict_get d key with
  | Some x => Ok x
  | None => Raise KeyError
  end.
Proof. reflexivity. Qed.

Lemma getitem_ok v key x :
  getitem v key = Ok x -> exists d, v = JObj d /\ dict_get d key = Some x.
Proof.
  destruct v; cbn [getitem]; try discriminate.
  destruct (dict_get pairs key) eqn:E; [| discriminate].
  intros [= <-]. eauto.
Qed.

Lemma add_entry_displayable acc row :
  displayable row = true ->
  exists cells,
    add_entry acc row = Ok (add_fields (fst acc) row, (snd acc ++ [cells])%list) /\
    row_prints cells = true.
Proof.
  destruct row as [| | | | | | d]; try discriminate. cbn [displayable].
  intros H.
  apply andb_true_iff in H as [H Hf]. apply andb_true_iff in H as [H Hcb].
  apply andb_true_iff in H as [H Hp]. apply andb_true_iff in H as [H Hc].
  apply andb_true_iff in H as [H Hs]. apply andb_true_iff in H as [Ht Hfo].
  destruct (dict_get d (PyStr.of_string "timestamp")) as [[] |] eqn:Et;
    try discriminate.
  apply text_cell_cases in Hfo as (vf & cf & Ef & Cf & Pf).
  apply text_cell_cases in Hs as (vs & csv & Es & Cs & Ps).
  apply is_number_cases in Hc as (vc & fc & Ec & Nc).
  apply is_number_cases in Hp as (vp & fp & Ep & Np).
  apply is_number_cases in Hcb as (vcb & fcb & Ecb & Ncb).
  apply is_number_cases in Hf as (vff & ff & Eff & Nff).
  destruct (number_shown _ _ Nc) as [Fc Ac].
  destruct (number_shown _ _ Np) as [Fp Ap].
  destruct (number_shown _ _ Ncb) as [Fcb Acb].
  destruct (number_shown _ _ Nff) as [Fff Aff].
  exists (cf, csv). split.
  - unfold add_entry, show_entry, add_fields, field.
    rewrite !getitem_obj, Et, Ef, Es, Ec, Ep, Ecb, Eff.
    cbn [bind parse_timestamp]. rewrite Ht. cbn [bind].
    rewrite Fc, Fp, Fcb, Fff. cbn [bind]. rewrite Cf, Cs. cbn [bind].
    rewrite Ac, Ap, Acb, Aff. cbn [bind].
    now rewrite Nc, Np, Ncb, Nff.
  - unfold row_prints. cbn [fst snd]. now rewrite Pf, Ps.
Qed.

Lemma show_entry_shown row cells :
  show_entry row = Ok cells -> row_prints cells = true ->
  displayable row = true.
Proof.
  unfold show_entry. intros H Hp.
  apply bind_ok in H as (ts & Gt & H).
  apply getitem_ok in Gt as (d & -> & Et).
  apply bind_ok in H as ([] & Pt & H).
  apply bind_ok in H as (vf & Gf & H).
  apply bind_ok in H as (vs & Gs & H).
  apply bind_ok in H as ([] & Gc & H). apply bind_ok in Gc as (vc & Gc & Fc).
  apply bind_ok in H as ([] & Gp & H). apply bind_ok in Gp as (vp & Gp & Fp).
  apply bind_ok in H as ([] & Gcb & H). apply bind_ok in Gcb as (vcb & Gcb & Fcb).
  apply bind_ok in H as ([] & Gff & H). apply bind_ok in Gff as (vff & Gff & Fff).
  apply bind_ok in H as (cf & Cf & H).
  apply bind_ok in H as (csv & Cs & H).
  injection H as <-.
  unfold row_prints in Hp. cbn [fst snd] in Hp.
  apply andb_true_iff in Hp as [Pf Ps].
  rewrite getitem_obj in Gf, Gs, Gc, Gp, Gcb, Gff.
  destruct (dict_get d (PyStr.of_string "food")) eqn:Ef; [| discriminate].
  destruct (dict_get d (PyStr.of_string "serving")) eqn:Es; [| discriminate].
  destruct (dict_get d (PyStr.of_string "calories")) eqn:Ec; [| discriminate].
  destruct (dict_get d (PyStr.of_string "protein_g")) eqn:Ep; [| discriminate].
  destruct (dict_get d (PyStr.of_string "carbs_g")) eqn:Ecb; [| discriminate].
  destruct (dict_get d (PyStr.of_string "fat_g")) eqn:Eff; [| discriminate].
  injection Gf as ->. injection Gs as ->. injection Gc as ->.
  injection Gp as ->. injection Gcb as ->. injection Gff as ->.
  cbn [displayable]. rewrite Et, Ef, Es, Ec, Ep, Ecb, Eff.
  rewrite (cell_text _ _ Cf Pf), (cell_text _ _ Cs Ps).
  rewrite (shown_number _ Fc), (shown_number _ Fp), (shown_number _ Fcb),
    (shown_number _ Fff).
  destruct ts; cbn [parse_timestamp] in Pt; try discriminate.
  destruct (fromisoformat_ok s); [reflexivity | discriminate].
Qed.

Lemma add_entry_shown acc row acc' :
  add_entry acc row = Ok acc' ->
  exists cells, show_entry row = Ok cells /\ snd acc' = (snd acc ++ [cells])%list.
Proof.
  unfold add_entry. intros H.
  apply bind_ok in H as (cells & S & H).
  apply bind_ok in H as (c & _ & H). apply bind_ok in H as (p & _ & H).
  apply bind_ok in H as (cb & _ & H). apply bind_ok in H as (f & _ & H).
  injection H as <-. eauto.
Qed.

(** *** The loop *)

Lemma add_entries_displayable rows :
  forallb displayable rows = true ->
  forall acc,
    forallb row_prints (snd acc) = true ->
    exists table,
      add_entries rows acc = Ok (fold_left add_fields rows (fst acc), table) /\
      forallb row_prints table = true.
Proof.
  induction rows as [| row rows IH]; intros H acc Hacc.
  - exists (snd acc). split; [now destruct acc | exact Hacc].
  - cbn [forallb] in H. apply andb_true_iff in H as [Hr Hrows].
    destruct (add_entry_displayable acc row Hr) as (cells & E & P).
    cbn [add_entries fold_left]. rewrite E. cbn [bind].
    apply (IH Hrows (add_fields (fst acc) row, (snd acc ++ [cells])%list)).
    cbn [snd]. rewrite forallb_app, Hacc. cbn [forallb]. now rewrite P.
Qed.

Lemma add_entries_shown rows :
  forall acc acc',
    add_entries rows acc = Ok acc' ->
    forallb row_prints (snd acc') = true ->
    forallb displayable rows = true /\ forallb row_prints (snd acc) = true.
Proof.
  induction rows as [| row rows IH]; intros acc acc'; cbn [add_entries].
  - intros [= <-] H. now split.
  - intros H Hp. apply bind_ok in H as (a1 & E1 & H).
    destruct (IH _ _ H Hp) as [Hrows H1].
    destruct (add_entry_shown _ _ _ E1) as (cells & S & E).
    rewrite E, forallb_app in H1. apply andb_true_iff in H1 as [Hacc Hc].
    cbn [forallb] in Hc. rewrite andb_true_r in Hc.
    split; [| exact Hacc]. cbn [forallb].
    now rewrite (show_entry_shown _ _ S Hc), Hrows.
Qed.

Lemma field_sums_fold rows : field_sums rows = fold_left add_fields rows zero_totals.
Proof. reflexivity. Qed.

Lemma today_of_rows now content js :
  readAll (Some content) = Ok js ->
  forallb displayable
    (filter (starts_with_date (PyStr.of_string (date_isoformat now))) js) = true ->
  today now (Some content) =
  Ok (match filter (starts_with_date (PyStr.of_string (date_isoformat now))) js with
      | [] => NoFoodsLoggedToday
      | row :: rows => Table (row :: rows) (field_sums (row :: rows))
      end).
Proof.
  cbn [readAll]. intros H D. unfold today.
  rewrite (read_entries_select _ _ _ H). cbn [bind].
  destruct (filter _ js) as [| row rows]; [reflexivity |].
  destruct (add_entries_displayable _ D (zero_totals, []) eq_refl)
    as (table & E & P).
  rewrite E. cbn [bind]. unfold print_table. cbn [snd fst]. now rewrite P.
Qed.

Lemma entriesForDate_of_rows now fs js :
  readAll fs = Ok js ->
  forallb displayable
    (filter (starts_with_date (PyStr.of_string (date_isoformat now))) js) = true ->
  entriesForDate now fs =
  Ok (filter (starts_with_date (PyStr.of_string (date_isoformat now))) js,
      field_sums
        (filter (starts_with_date (PyStr.of_string (date_isoformat now))) js)).
Proof.
  destruct fs as [content |]; intros H D.
  - unfold entriesForDate. rewrite (today_of_rows _ _ _ H D). cbn [bind].
    now destruct (filter _ js).
  - cbn [readAll] in H. injection H as <-. reflexivity.
Qed.

(** A table is shown only when every row of it can be. *)
Lemma today_table now fs rows totals :
  today now fs = Ok (Table rows totals) ->
  rows <> [] /\ forallb displayable rows = true /\ totals = field_sums rows.
Proof.
  destruct fs as [content |]; cbn [today]; [| discriminate].
  intros H. apply bind_ok in H as (entries & R & H).
  destruct entries as [| row entries]; [discriminate |].
  apply bind_ok in H as (filled & A & H).
  apply bind_ok in H as ([] & P & H). injection H as <- <-.
  unfold print_table in P.
  destruct (forallb row_prints (snd filled)) eqn:Hp; [| discriminate].
  destruct (add_entries_shown _ _ _ A Hp) as [D _].
  split; [discriminate |]. split; [exact D |].
  destruct (add_entries_displayable _ D (zero_totals, []) eq_refl)
    as (table & E & _).
  rewrite E in A. injection A as <-. reflexivity.
Qed.

Lemma today_raises now content js :
  readAll (Some content) = Ok js ->
  forallb displayable
    (filter (starts_with_date (PyStr.of_string (date_isoformat now))) js) = false ->
  exists x, today now (Some content) = Raise x.
Proof.
  intros H D. cbn [readAll] in H. unfold today.
  rewrite (read_entries_select _ _ _ H). cbn [bind].
  destruct (filter _ js) as [| row rows] eqn:F; [discriminate D |].
  destruct (add_entries (row :: rows) (zero_totals, [])) as [filled | x] eqn:A;
    cbn [bind]; [| eauto].
  unfold print_table.
  destruct (forallb row_prints (snd filled)) eqn:P; cbn [bind]; [| eauto].
  destruct (add_entries_shown _ _ _ A P) as [D' _]. congruence.
Qed.

(** *** Entries written by [log_food] *)

Lemma displayable_entry e : displayable (entry_dict e) = showable e.
Proof.
  unfold showable. cbn.
  now rewrite !andb_true_r.
Qed.

Lemma field_sums_entries es :
  forall t, fold_left add_fields (map entry_dict es) t = fold_left add_totals es t.
Proof.
  induction es as [| e es IH]; intros t; [reflexivity |].
  cbn [map fold_left]. rewrite <- IH. reflexivity.
Qed.

Lemma forallb_map {A B : Type} (f : A -> B) (p : B -> bool) l :
  forallb p (map f l) = forallb (fun a => p (f a)) l.
Proof. induction l as [| a l IH]; cbn; [reflexivity | now rewrite IH]. Qed.

Lemma forallb_eq {A : Type} (p q : A -> bool) l :
  (forall a, p a = q a) -> forallb p l = forallb q l.
Proof.
  intros H. induction l as [| a l IH]; cbn; [reflexivity | now rewrite H, IH].
Qed.

Lemma entriesForDate_entries now fs es :
  readAll fs = Ok (map entry_dict es) ->
  forallb showable (filter (on_date now) es) = true ->
  entriesForDate now fs =
  Ok (map entry_dict (filter (on_date now) es), sum_totals (filter (on_date now) es)).
Proof.
  intros H S.
  assert (F : filter (starts_with_date (PyStr.of_string (date_isoformat now)))
                (map entry_dict es) = map entry_dict (filter (on_date now) es))
    by apply filter_entry_dict.
  rewrite (entriesForDate_of_rows now fs _ H); rewrite F.
  - now rewrite field_sums_fold, field_sums_entries.
  - rewrite forallb_map, <- S. apply forallb_eq. intros e.
    apply displayable_entry.
Qed.

Lemma read_entries_abort p pre bad post :
  (forall l, In l pre -> well_formed_line l = true) ->
  well_formed_line bad = false ->
  read_entries p (pre ++ bad :: post) = Raise (line_error bad).
Proof.
  intros Hpre Hbad. induction pre as [| l pre IH]; cbn [app read_entries].
  - assert (B : read_line p bad = Raise (line_error bad)).
    { unfold well_formed_line in Hbad. unfold read_line, line_error.
      destruct (loads bad) as [entry |]; [| reflexivity].
      destruct entry; try reflexivity.
      rewrite getitem_obj in *.
      destruct (dict_get pairs (PyStr.of_string "timestamp")) as [[] |];
        try reflexivity; discriminate. }
    now rewrite B.
  - assert (exists r, read_line p l = Ok r) as [r ->].
    { specialize (Hpre l (or_introl eq_refl)). unfold well_formed_line in Hpre.
      unfold read_line. destruct (loads l) as [entry |]; [| discriminate].
      destruct (getitem entry (PyStr.of_string "timestamp")) as [[] | ];
        try discriminate.
      cbn. eauto. }
    cbn [bind]. rewrite IH; [reflexivity |].
    intros l' Hl'. apply Hpre. now right.
Qed.

End Today.

(** ** The laws of [BinaryText] *)

Section BinaryTextLaws.
Import BinaryText.

Lemma string_of_uint_digits d :
  all_chars is_digit (NilEmpty.string_of_uint d) = true.
Proof. induction d; cbn; trivial. Qed.

Lemma digits_all_digits n : all_chars is_digit (PyStr.digits n) = true.
Proof.
  unfold PyStr.digits, NilZero.string_of_uint.
  destruct (N.to_uint n); try reflexivity; apply string_of_uint_digits.
Qed.

Lemma digits_nonempty n : exists c t, PyStr.digits n = String c t.
Proof.
  unfold PyStr.digits, NilZero.string_of_uint.
  destruct (N.to_uint n); cbn; eauto.
Qed.

Lemma of_digits_digits n : of_digits (PyStr.digits n) = n.
Proof.
  unfold of_digits, PyStr.digits.
  destruct (NilZero.usu_gen (N.to_uint n)) as [-> | E].
  - apply DecimalN.Unsigned.of_to.
  - destruct (N.to_uint n) eqn:En.
    + rewrite <- (DecimalN.Unsigned.of_to n), En. reflexivity.
    + rewrite NilZero.usu by discriminate. rewrite <- En. apply DecimalN.Unsigned.of_to.
    + rewrite NilZero.usu by discriminate. rewrite <- En. apply DecimalN.Unsigned.of_to.
    + rewrite NilZero.usu by discriminate. rewrite <- En. apply DecimalN.Unsigned.of_to.
    + rewrite NilZero.usu by discriminate. rewrite <- En. apply DecimalN.Unsigned.of_to.
    + rewrite NilZero.usu by discriminate. rewrite <- En. apply DecimalN.Unsigned.of_to.
    + rewrite NilZero.usu by discriminate. rewrite <- En. apply DecimalN.Unsigned.of_to.
    + rewrite NilZero.usu by discriminate. rewrite <- En. apply DecimalN.Unsigned.of_to.
    + rewrite NilZero.usu by discriminate. rewrite <- En. apply DecimalN.Unsigned.of_to.
    + rewrite NilZero.usu by discriminate. rewrite <- En. apply DecimalN.Unsigned.of_to.
    + rewrite NilZero.usu by discriminate. rewrite <- En. apply DecimalN.Unsigned.of_to.
Qed.

Lemma span_digits_all d rest :
  all_chars is_digit d = true ->
  span_digits rest = ("", rest) ->
  span_digits (d ++ rest) = (d, rest).
Proof.
  intros Hd Hrest. induction d as [| c d IH]; [exact Hrest |].
  cbn in Hd. apply andb_true_iff in Hd as [Hc Hd].
  cbn. now rewrite Hc, (IH Hd).
Qed.

Lemma match_number_finite s m e :
  match_number (PyFloat.sign_text s ++ "0." ++ PyStr.digits (Npos m) ++ "e"
                ++ exponent_text e) =
  Some (PyFloat.sign_text s ++ "0", String "." (PyStr.digits (Npos m)),
        String "e" (exponent_text e), "").
Proof.
  assert (F : match_frac (String "." (PyStr.digits (Npos m) ++ "e" ++ exponent_text e)) =
              (String "." (PyStr.digits (Npos m)), "e" ++ exponent_text e)).
  { cbn [match_frac Ascii.eqb Bool.eqb].
    rewrite (span_digits_all _ _ (digits_all_digits _)) by reflexivity.
    now destruct (digits_nonempty (Npos m)) as (c & t & ->). }
  assert (E : match_exp ("e" ++ exponent_text e) = (String "e" (exponent_text e), "")).
  { unfold exponent_text. cbn [append match_exp Ascii.eqb Bool.eqb orb].
    assert (S : match_sign (String (if (e <? 0)%Z then "-"%char else "+"%char)
                              (PyStr.digits (Z.abs_N e))) =
                (String (if (e <? 0)%Z then "-"%char else "+"%char) "",
                 PyStr.digits (Z.abs_N e))) by now destruct (e <? 0)%Z.
    rewrite S.
    rewrite <- (append_nil_r (PyStr.digits (Z.abs_N e))) at 1.
    rewrite (span_digits_all _ _ (digits_all_digits _)) by reflexivity.
    now destruct (digits_nonempty (Z.abs_N e)) as (c & t & ->). }
  unfold match_number.
  destruct s; cbn [PyFloat.sign_text append match_integer match_digits
                   Ascii.eqb Bool.eqb];
    cbn [append] in F, E; rewrite F; cbn iota beta; rewrite E; reflexivity.
Qed.

Lemma Prim2SF_finite x :
  PrimFloat.is_finite x = true ->
  (exists s, Prim2SF x = S754_zero s) \/
  (exists s m e, Prim2SF x = S754_finite s m e).
Proof.
  intros H. unfold is_finite in H. apply negb_true_iff, orb_false_iff in H as [Hn Hi].
  unfold Prim2SF. rewrite Hn, Hi.
  destruct (is_zero x); [left; eauto |].
  destruct (Z.frexp x) as [r ex].
  destruct (shr_fexp prec emax _ _ _) as [sh e'].
  destruct (shr_m sh); [left | right | left]; eauto.
Qed.

Lemma exponent_of_text e :
  exponent_text e = String (if (e <? 0)%Z then "-"%char else "+"%char)
                           (PyStr.digits (Z.abs_N e)) /\
  exponent_of (if (e <? 0)%Z then "-"%char else "+"%char)
              (PyStr.digits (Z.abs_N e)) = e.
Proof.
  split; [reflexivity |]. unfold exponent_of. rewrite of_digits_digits.
  destruct (Z.ltb_spec e 0); cbn [Ascii.eqb Bool.eqb]; rewrite N2Z.inj_abs_N; lia.
Qed.

Lemma text_laws : FloatTextLaws text.
Proof.
  split; intros x Hx; cbn [float_repr float_of_string text]; unfold repr.
  - destruct (Prim2SF_finite x Hx) as [[s ->] | (s & m & e & ->)].
    + now destruct s.
    + unfold float_literal. now rewrite match_number_finite.
  - rewrite <- (SF2Prim_Prim2SF x) at 2.
    destruct (Prim2SF_finite x Hx) as [[s ->] | (s & m & e & ->)].
    + now destruct s.
    + unfold of_string. rewrite match_number_finite.
      destruct (exponent_of_text e) as [-> Ee].
      cbn [drop]. rewrite of_digits_digits, Ee.
      now destruct s.
Qed.

End BinaryTextLaws.

(** ** The claims about the log and the commands *)

(** C4: when the log reads as [rows] and its text is empty or ends with a
    line feed, and neither the food name nor the serving text holds a high
    surrogate directly followed by a low one, then after [log_food] the
    whole log reads as [rows] followed by one more dictionary; that
    dictionary has exactly the seven keys of an entry, in the order
    written, and under each key the value that [log_food] was given: the
    clock's ISO text, the name, the serving text and the four floats. *)
Theorem append_then_readAll :
  forall (ft : FloatText) (laws : FloatTextLaws ft) (now : DateTime)
         (fs : file) (rows : list value) (food_name serving_text : PyStr.str)
         (c p cb f : float),
    readAll fs = Ok rows ->
    newline_terminated (file_text fs) = true ->
    PyStr.no_surrogate_pair food_name = true ->
    PyStr.no_surrogate_pair serving_text = true ->
    exists d : list (PyStr.str * value),
      readAll (log_food now fs food_name c p cb f serving_text) =
        Ok (rows ++ [JObj d])%list /\
      last (rows ++ [JObj d])%list JNull = JObj d /\
      map fst d =
        map PyStr.of_string
          ["timestamp"; "food"; "serving"; "calories"; "protein_g"; "carbs_g";
           "fat_g"] /\
      dict_get d "timestamp" = Some (JStr (isoformat now)) /\
      dict_get d "food" = Some (JStr food_name) /\
      dict_get d "serving" = Some (JStr serving_text) /\
      dict_get d "calories" = Some (JFloat c) /\
      dict_get d "protein_g" = Some (JFloat p) /\
      dict_get d "carbs_g" = Some (JFloat cb) /\
      dict_get d "fat_g" = Some (JFloat f).
Proof.
  intros ft laws now fs rows food_name serving_text c p cb f Hread Hnl Hn Hs.
  pose (e := mkEntry (isoformat now) food_name serving_text c p cb f).
  assert (He : encodable e = true).
  { unfold encodable, e. cbn [timestamp food serving].
    now rewrite of_string_no_pair, Hn, Hs. }
  pose proof (readAll_append_entry laws fs rows e He Hread Hnl) as R.
  eexists. split; [exact R |]. split; [apply last_last |].
  repeat split.
Qed.

Lemma append_then_readAll_witness :
  readAll (ft := BinaryText.text) Examples.three_entries =
    Ok [entry_dict Examples.oatmeal; entry_dict Examples.banana;
        entry_dict Examples.rice] /\
  newline_terminated (file_text Examples.three_entries) = true /\
  PyStr.no_surrogate_pair Samples.lays = true /\
  exists d : list (PyStr.str * value),
    readAll (ft := BinaryText.text)
      (log_food (ft := BinaryText.text) Examples.jan_15 Examples.three_entries
                Samples.lays 2 0 0.5 0 "250.0 g") =
      Ok ([entry_dict Examples.oatmeal; entry_dict Examples.banana;
           entry_dict Examples.rice] ++ [JObj d])%list /\
    dict_get d "food" = Some (JStr Samples.lays).
Proof.
  assert (R : readAll (ft := BinaryText.text) Examples.three_entries =
              Ok [entry_dict Examples.oatmeal; entry_dict Examples.banana;
                  entry_dict Examples.rice]) by (vm_compute; reflexivity).
  assert (N : newline_terminated (file_text Examples.three_entries) = true)
    by (vm_compute; reflexivity).
  assert (L : PyStr.no_surrogate_pair Samples.lays = true)
    by (vm_compute; reflexivity).
  split; [exact R |]. split; [exact N |]. split; [exact L |].
  destruct (append_then_readAll BinaryText.text text_laws Examples.jan_15
              Examples.three_entries _ Samples.lays "250.0 g" 2 0 0.5 0
              R N L eq_refl)
    as (d & H1 & _ & _ & _ & H5 & _).
  exists d. split; [exact H1 | exact H5].
Defined.

(** C4, the two limits of the claim.  A log whose last line does not end
    reads as one entry; the entry that [log_food] appends lands on that
    line, and the log no longer reads.  And a name of two code points, a
    high surrogate and a low one, is read back as one code point. *)
Lemma append_then_readAll_limits :
  readAll (ft := BinaryText.text) Samples.unterminated_log =
    Ok [entry_dict Examples.oatmeal] /\
  newline_terminated (file_text Samples.unterminated_log) = false /\
  readAll (ft := BinaryText.text)
    (log_food (ft := BinaryText.text) Examples.jan_15 Samples.unterminated_log
              "Tea" 2 0 0.5 0 "250.0 g") = Raise JSONDecodeError /\
  PyStr.no_surrogate_pair Samples.surrogate_pair = false /\
  readAll (ft := BinaryText.text)
    (log_food (ft := BinaryText.text) Examples.jan_15 None
              Samples.surrogate_pair 2 0 0.5 0 "250.0 g") =
    Ok [entry_dict (mkEntry (isoformat Examples.jan_15) Samples.joined_pair
                            "250.0 g" 2 0 0.5 0)] /\
  PyStr.eqb Samples.surrogate_pair Samples.joined_pair = false.
Proof. repeat split; vm_compute; reflexivity. Qed.

(** C9: [log_food] writes the old text of the file followed by exactly one
    line, the encoded entry and a line feed; the old text is a prefix of the
    new one, and the old lines are read back unchanged and in order before
    the new line. *)
Theorem log_food_appends_one_line :
  forall (ft : FloatText) (laws : FloatTextLaws ft) (now : DateTime) (fs : file)
         (food_name : PyStr.str) (c p cb f : float) (serving_text : PyStr.str),
    let entry :=
      entry_dict (mkEntry (isoformat now) food_name serving_text c p cb f) in
    log_food now fs food_name c p cb f serving_text =
      Some (file_text fs ++ entry_line entry) /\
    PyStr.has_prefix (file_text fs)
      (file_text (log_food now fs food_name c p cb f serving_text)) = true /\
    readlines (entry_line entry) = [entry_line entry] /\
    (newline_terminated (file_text fs) = true ->
     readlines (file_text (log_food now fs food_name c p cb f serving_text)) =
     (readlines (file_text fs) ++ [entry_line entry])%list).
Proof.
  intros ft laws now fs food_name c p cb f serving_text entry.
  assert (L : all_chars not_newline (dumps entry) = true)
    by apply (entry_no_newline laws).
  split; [reflexivity |]. split; [| split].
  - cbn [log_food append_entry file_text]. apply has_prefix_app.
  - exact (readlines_append "" (dumps entry) eq_refl L).
  - intros Hnl. cbn [log_food append_entry file_text]. unfold entry_line.
    now apply readlines_append.
Qed.

Lemma log_food_appends_one_line_witness :
  file_text (log_food (ft := BinaryText.text) Examples.jan_15
               Examples.three_entries "Tea" 2 0 0.5 0 "250.0 g") =
  file_text Examples.three_entries
  ++ entry_line (ft := BinaryText.text)
       (entry_dict (mkEntry (isoformat Examples.jan_15) "Tea" "250.0 g"
                            2 0 0.5 0)) /\
  List.length
    (readlines
       (file_text (log_food (ft := BinaryText.text) Examples.jan_15
                     Examples.three_entries "Tea" 2 0 0.5 0 "250.0 g"))) = 4.
Proof.
  pose proof (log_food_appends_one_line BinaryText.text text_laws
                Examples.jan_15 Examples.three_entries "Tea" 2 0 0.5 0
                "250.0 g") as H.
  cbv zeta in H. destruct H as (H1 & _ & _ & H4).
  split.
  - rewrite H1. reflexivity.
  - rewrite H4 by (vm_compute; reflexivity). vm_compute. reflexivity.
Defined.

(** C5: when the log reads as the entries [js], and every entry of [js]
    whose timestamp text starts with the ISO text of the date can be shown
    (its timestamp is one that [fromisoformat] reads, its food and its
    serving are texts that the console renders, or [null], and its
    calories, protein, carbs and fat are numbers), the report for the date
    has as rows exactly those entries, in log order, and as totals the
    sums of their four numbers, each added in log order from 0.0. *)
Theorem entriesForDate_filters_and_sums :
  forall (ft : FloatText) (cs : Console) (d : DateTime) (fs : file)
         (js : list value),
    readAll fs = Ok js ->
    forallb displayable (filter (starts_with_date (date_isoformat d)) js)
      = true ->
    entriesForDate d fs =
    Ok (filter (starts_with_date (date_isoformat d)) js,
        field_sums (filter (starts_with_date (date_isoformat d)) js)).
Proof.
  intros ft cs d fs js H D. destruct fs as [content |].
  - unfold entriesForDate. rewrite (today_of_rows _ _ _ H D). cbn [bind].
    now destruct (filter _ js).
  - cbn [readAll] in H. injection H as <-. reflexivity.
Qed.

Lemma entriesForDate_filters_and_sums_witness :
  date_isoformat Examples.jan_15 = "2024-01-15" /\
  readAll (ft := BinaryText.text) Examples.three_entries =
    Ok [entry_dict Examples.oatmeal; entry_dict Examples.banana;
        entry_dict Examples.rice] /\
  entriesForDate (ft := BinaryText.text) (cs := PlainConsole.console)
    Examples.jan_15 Examples.three_entries =
  Ok ([entry_dict Examples.oatmeal; entry_dict Examples.banana],
      mkTotals 500 6.5 50 3.5).
Proof.
  split; [reflexivity |].
  assert (R : readAll (ft := BinaryText.text) Examples.three_entries =
              Ok [entry_dict Examples.oatmeal; entry_dict Examples.banana;
                  entry_dict Examples.rice])
    by (vm_compute; reflexivity).
  split; [exact R |].
  rewrite (entriesForDate_filters_and_sums BinaryText.text PlainConsole.console
             Examples.jan_15 Examples.three_entries _ R)
    by (vm_compute; reflexivity).
  vm_compute. reflexivity.
Defined.

(** C5, the limit of the claim.  An entry that [log_food] wrote with a
    closing tag in its name is read back, and is of the date; the report
    for that date raises when the table is printed.  An entry stamped at
    hour 25 makes the report raise where the time is read off the
    timestamp, and an entry of the date without a serving where the row is
    built. *)
Lemma entriesForDate_raises_on_entry_not_shown :
  readAll (ft := BinaryText.text)
    (log_of (ft := BinaryText.text) [Samples.tagged_entry]) =
    Ok [entry_dict Samples.tagged_entry] /\
  filter (starts_with_date (date_isoformat Examples.jan_15))
    [entry_dict Samples.tagged_entry] = [entry_dict Samples.tagged_entry] /\
  entriesForDate (ft := BinaryText.text) (cs := PlainConsole.console)
    Examples.jan_15 (log_of (ft := BinaryText.text) [Samples.tagged_entry]) =
    Raise MarkupError /\
  entriesForDate (ft := BinaryText.text) (cs := PlainConsole.console)
    Examples.jan_15 (log_of (ft := BinaryText.text) [Samples.late_entry]) =
    Raise ValueError /\
  entriesForDate (ft := BinaryText.text) (cs := PlainConsole.console)
    Examples.jan_15 (Some Samples.bare_today_log) = Raise KeyError.
Proof. repeat split; vm_compute; reflexivity. Qed.

(** C7: without a log file there is nothing to read and no error: the whole
    log is the empty sequence, and the report for any date has no rows and
    totals of 0.0; the same holds for an empty file. *)
Theorem missing_log_is_empty :
  forall (ft : FloatText) (cs : Console) (d : DateTime),
    readAll None = Ok [] /\
    today d None = Ok NoFoodsLoggedYet /\
    entriesForDate d None = Ok ([], mkTotals 0 0 0 0) /\
    readAll (Some "") = Ok [] /\
    entriesForDate d (Some "") = Ok ([], mkTotals 0 0 0 0).
Proof. intros ft cs d. repeat split. Qed.

(** C8: a line is malformed for the reading loop when it is not JSON, when
    it holds something other than an object, or an object without a
    timestamp, or with a timestamp that is not a text.  When the lines
    before the first such line are well formed, reading stops at it with
    the exception of that line, [JSONDecodeError] when it is not JSON:
    neither the entries read so far nor any later line is returned,
    whatever follows. *)
Theorem read_aborts_at_first_malformed_line :
  forall (ft : FloatText) (cs : Console) (d : DateTime) (content : string)
         (pre : list string) (bad : string) (post : list string),
    readlines content = (pre ++ bad :: post)%list ->
    (forall l, In l pre -> well_formed_line l = true) ->
    well_formed_line bad = false ->
    readAll (Some content) = Raise (line_error bad) /\
    today d (Some content) = Raise (line_error bad) /\
    entriesForDate d (Some content) = Raise (line_error bad) /\
    (loads bad = None -> line_error bad = JSONDecodeError).
Proof.
  intros ft cs d content pre bad post Hlines Hpre Hbad.
  assert (T : today d (Some content) = Raise (line_error bad)).
  { unfold today. rewrite Hlines.
    now rewrite (read_entries_abort _ pre bad post Hpre Hbad). }
  split; [| split; [| split]].
  - cbn [readAll]. rewrite Hlines.
    exact (read_entries_abort _ pre bad post Hpre Hbad).
  - exact T.
  - unfold entriesForDate. now rewrite T.
  - intros E. unfold line_error. now rewrite E.
Qed.

Lemma read_aborts_at_first_malformed_line_witness :
  readlines Examples.broken_log =
    [Examples.good_line; "not json" ++ String "010" ""; Examples.good_line] /\
  well_formed_line (ft := BinaryText.text) Examples.good_line = true /\
  well_formed_line (ft := BinaryText.text) ("not json" ++ String "010" "")
    = false /\
  readAll (ft := BinaryText.text) (Some Examples.broken_log) =
    Raise JSONDecodeError /\
  well_formed_line (ft := BinaryText.text) Samples.list_line = false /\
  readAll (ft := BinaryText.text)
    (Some (Examples.good_line ++ Samples.list_line)) = Raise TypeError /\
  well_formed_line (ft := BinaryText.text) Samples.untimed_line = false /\
  readAll (ft := BinaryText.text)
    (Some (Examples.good_line ++ Samples.untimed_line)) = Raise KeyError.
Proof.
  assert (G : forall l, In l [Examples.good_line] ->
                        well_formed_line (ft := BinaryText.text) l = true)
    by (intros l [<- | []]; vm_compute; reflexivity).
  split; [vm_compute; reflexivity |]. split; [vm_compute; reflexivity |].
  split; [vm_compute; reflexivity |]. split; [| split; [| split; [| split]]].
  - refine (proj1 (read_aborts_at_first_malformed_line BinaryText.text
                     PlainConsole.console Examples.jan_15 Examples.broken_log
                     [Examples.good_line] ("not json" ++ String "010" "")
                     [Examples.good_line] _ G _));
      vm_compute; reflexivity.
  - vm_compute. reflexivity.
  - refine (proj1 (read_aborts_at_first_malformed_line BinaryText.text
                     PlainConsole.console Examples.jan_15
                     (Examples.good_line ++ Samples.list_line)
                     [Examples.good_line] Samples.list_line [] _ G _));
      vm_compute; reflexivity.
  - vm_compute. reflexivity.
  - refine (proj1 (read_aborts_at_first_malformed_line BinaryText.text
                     PlainConsole.console Examples.jan_15
                     (Examples.good_line ++ Samples.untimed_line)
                     [Examples.good_line] Samples.untimed_line [] _ G _));
      vm_compute; reflexivity.
Defined.

(** C10: for every food detail and every number of servings, the code of
    [quick] after the details are fetched does what the code of [log]
    does: the two nutrient loops and the two scalings are the same
    functions, and the two paths append the same entry and end alike.  So
    [quick], once the first hit has given an id and its description has
    been printed, ends as [log] does for that id. *)
Theorem quick_agrees_with_log :
  forall (ft : FloatText) (cs : Console)
         (get_food_details : Z -> option FoodDetail)
         (search_food : string -> Z -> option Commands.SearchResponse)
         (query : string) (servings : float) (now : DateTime) (fs : file),
    (forall food,
        Commands.quick_detail food servings now fs =
        Commands.log_detail food servings now fs) /\
    (forall food, quick_extract food = log_extract food) /\
    (forall n size unit, quick_scale n size unit servings =
                         log_scale n size unit servings) /\
    (forall hit others id,
        search_food query 1%Z =
          Some (Commands.mkResponse (Some (hit :: others))) ->
        Commands.fdcId hit = Some id ->
        markup_ok (Commands.found_line hit) = true ->
        Commands.quick get_food_details search_food query servings now fs =
        Commands.log get_food_details id servings now fs).
Proof.
  intros ft cs get_food_details search_food query servings now fs.
  split; [reflexivity |]. split; [reflexivity |]. split; [reflexivity |].
  intros hit others id H Hid Hm.
  unfold Commands.quick, Commands.log. rewrite H. cbn [Commands.foods get].
  rewrite Hid, Hm. reflexivity.
Qed.

Lemma quick_agrees_with_log_witness :
  Commands.quick (ft := BinaryText.text) (cs := PlainConsole.console)
                 Examples.details Examples.search
                 "banana" 1.5 Examples.jan_15 None =
  Commands.log (ft := BinaryText.text) (cs := PlainConsole.console)
               Examples.details 173944 1.5 Examples.jan_15 None /\
  Commands.log (ft := BinaryText.text) (cs := PlainConsole.console)
               Examples.details 173944 1.5 Examples.jan_15 None =
  Commands.Logged "Bananas, raw" "150.0 g"
    (mkNutrition 133.5 1.875 34.125 0.375)
    (log_food (ft := BinaryText.text) Examples.jan_15 None "Bananas, raw"
              133.5 1.875 34.125 0.375 "150.0 g").
Proof.
  split; [| vm_compute; reflexivity].
  refine (proj2 (proj2 (proj2
            (quick_agrees_with_log BinaryText.text PlainConsole.console
               Examples.details Examples.search "banana" 1.5 Examples.jan_15
               None)))
            (Commands.mkHit (Some 173944%Z) (Some (PyStr.of_string "Bananas, raw")))
            [] 173944%Z eq_refl eq_refl _).
  vm_compute. reflexivity.
Defined.

(** ** Further properties *)

(** *** Logs written by appends *)

Section Appended.
Context {ft : FloatText} {cs : Console} (laws : FloatTextLaws ft).

Lemma no_pair_of_string_app (s : string) (b : PyStr.str) :
  PyStr.no_surrogate_pair (PyStr.of_string s ++ b)%list
  = PyStr.no_surrogate_pair b.
Proof.
  induction s as [| c s IH]; [reflexivity |].
  cbn [PyStr.of_string app PyStr.no_surrogate_pair]. rewrite IH.
  pose proof (N_ascii_bounded c) as B.
  assert (L : (N_of_ascii c <? 1114112)%N = true) by (apply N.ltb_lt; lia).
  assert (H : PyStr.is_high (N_of_ascii c) = false).
  { unfold PyStr.is_high. apply andb_false_iff. left. apply N.leb_gt. lia. }
  now rewrite L, H.
Qed.

Lemma serving_text_no_pair (number : string) (serving_unit : PyStr.str) :
  PyStr.no_surrogate_pair serving_unit = true ->
  PyStr.no_surrogate_pair
    (PyStr.of_string number ++ PyStr.of_string " " ++ serving_unit)%list = true.
Proof. intros H. now rewrite !no_pair_of_string_app. Qed.

Lemma on_date_now now food_name serving_text c p cb f :
  on_date now (mkEntry (isoformat now) food_name serving_text c p cb f) = true.
Proof.
  unfold on_date, isoformat. cbn [timestamp].
  rewrite of_string_app. apply str_startswith_app.
Qed.

Lemma forallb_In_false {A : Type} (p : A -> bool) l a :
  In a l -> p a = false -> forallb p l = false.
Proof.
  intros Hin Ha. destruct (forallb p l) eqn:E; [| reflexivity].
  rewrite forallb_forall in E. now rewrite (E a Hin) in Ha.
Qed.

Lemma shown_entries now es :
  forallb displayable
    (filter (starts_with_date (date_isoformat now)) (map entry_dict es))
  = forallb showable (filter (on_date now) es).
Proof.
  rewrite filter_entry_dict, forallb_map. apply forallb_eq. intros e.
  apply displayable_entry.
Qed.

Lemma today_log_of now es :
  forallb encodable es = true ->
  forallb showable (filter (on_date now) es) = true ->
  today now (log_of es) =
  Ok match es with
     | [] => NoFoodsLoggedYet
     | _ :: _ =>
         match filter (on_date now) es with
         | [] => NoFoodsLoggedToday
         | e :: rows =>
             Table (map entry_dict (e :: rows)) (sum_totals (e :: rows))
         end
     end.
Proof.
  intros He Hs. destruct es as [| e es]; [reflexivity |].
  destruct (log_of_nonempty e es) as [content C].
  pose proof (proj1 (log_of_readable laws (e :: es) He)) as R.
  rewrite C in *. rewrite (today_of_rows now content _ R).
  - rewrite filter_entry_dict. fold (on_date now).
    destruct (filter (on_date now) (e :: es)) as [| r rows]; [reflexivity |].
    cbn [map]. rewrite <- (map_cons entry_dict r rows).
    rewrite field_sums_fold, field_sums_entries. reflexivity.
  - now rewrite shown_entries.
Qed.

Lemma today_log_of_raises now es :
  forallb encodable es = true ->
  forallb showable (filter (on_date now) es) = false ->
  exists x, today now (log_of es) = Raise x.
Proof.
  intros He Hs. destruct es as [| e es]; [discriminate Hs |].
  destruct (log_of_nonempty e es) as [content C].
  pose proof (proj1 (log_of_readable laws (e :: es) He)) as R.
  rewrite C in *. apply (today_raises now content _ R).
  now rewrite shown_entries.
Qed.

Lemma today_after_log_food now es food_name c p cb f serving_text :
  forallb encodable es = true ->
  PyStr.no_surrogate_pair food_name = true ->
  PyStr.no_surrogate_pair serving_text = true ->
  forallb showable (filter (on_date now) es) = true ->
  showable (mkEntry (isoformat now) food_name serving_text c p cb f) = true ->
  today now (log_food now (log_of es) food_name c p cb f serving_text) =
  Ok (Table
        (map entry_dict
           (filter (on_date now) es
            ++ [mkEntry (isoformat now) food_name serving_text c p cb f])%list)
        (sum_totals
           (filter (on_date now) es
            ++ [mkEntry (isoformat now) food_name serving_text c p cb f])%list)).
Proof.
  intros He Hn Hs Hshown Hnew.
  set (e := mkEntry (isoformat now) food_name serving_text c p cb f) in *.
  change (log_food now (log_of es) food_name c p cb f serving_text)
    with (append_entry (log_of es) (entry_dict e)).
  assert (T : on_date now e = true) by apply on_date_now.
  assert (E : encodable e = true).
  { unfold encodable, e. cbn [timestamp food serving].
    now rewrite of_string_no_pair, Hn, Hs. }
  rewrite <- log_of_snoc, today_log_of.
  - rewrite filter_app. cbn [filter]. rewrite T.
    destruct es as [| e0 es]; [reflexivity |]. cbn [app].
    destruct (filter (on_date now) (e0 :: es)); reflexivity.
  - rewrite forallb_app, He. cbn [forallb]. now rewrite E.
  - rewrite filter_app, forallb_app, Hshown. cbn [filter]. rewrite T.
    cbn [forallb]. now rewrite Hnew.
Qed.

(** An entry without one of the six keys that [today] reads from a
    selected entry cannot be shown. *)
Lemma missing_key_not_displayable bad key :
  In key (map PyStr.of_string
            ["food"; "serving"; "calories"; "protein_g"; "carbs_g"; "fat_g"]) ->
  getitem bad key = Raise KeyError ->
  displayable bad = false.
Proof.
  intros Hk Hbad. destruct bad as [| | | | | | d]; try reflexivity.
  rewrite getitem_obj in Hbad.
  destruct (dict_get d key) eqn:E; [discriminate |].
  cbn [displayable].
  destruct Hk as [<- | [<- | [<- | [<- | [<- | [<- | []]]]]]];
    cbn [PyStr.of_string] in E |- *; rewrite E; cbn [is_text_cell is_number number];
    now rewrite ?andb_false_r.
Qed.

End Appended.

(** X1: a log written by appends alone, of entries whose texts hold no
    high surrogate directly followed by a low one, reads back as exactly
    the appended entries, in order, and its text ends with a line feed.
    The report for a date selects and sums the entries of that date when
    each of them can be shown, and raises otherwise. *)
Theorem appended_log_reads_back :
  forall (ft : FloatText) (laws : FloatTextLaws ft) (cs : Console)
         (es : list LogEntry) (d : DateTime),
    forallb encodable es = true ->
    readAll (log_of es) = Ok (map entry_dict es) /\
    newline_terminated (file_text (log_of es)) = true /\
    (forallb showable (filter (on_date d) es) = true ->
     entriesForDate d (log_of es) =
     Ok (map entry_dict (filter (on_date d) es),
         sum_totals (filter (on_date d) es))) /\
    (forallb showable (filter (on_date d) es) = false ->
     exists x, entriesForDate d (log_of es) = Raise x).
Proof.
  intros ft laws cs es d He. destruct (log_of_readable laws es He) as [R N].
  split; [exact R |]. split; [exact N |]. split.
  - intros Hs. now apply entriesForDate_entries.
  - intros Hs. destruct (today_log_of_raises laws d es He Hs) as [x T].
    exists x. unfold entriesForDate. now rewrite T.
Qed.

Lemma appended_log_reads_back_witness :
  forallb encodable [Examples.rice; Examples.oatmeal] = true /\
  readAll (ft := BinaryText.text)
    (log_of (ft := BinaryText.text) [Examples.rice; Examples.oatmeal]) =
  Ok (map entry_dict [Examples.rice; Examples.oatmeal]).
Proof.
  split; [reflexivity |].
  exact (proj1 (appended_log_reads_back BinaryText.text text_laws
                  PlainConsole.console
                  [Examples.rice; Examples.oatmeal] Examples.jan_15 eq_refl)).
Defined.

(** X2: on a log written by appends whose entries of the date can be
    shown, an entry logged by [log_food] is the last row [today] shows on
    the same date, after the earlier entries of that date, and is counted
    in the totals, provided [fromisoformat] reads the clock's ISO text and
    the console renders the name and the serving text. *)
Theorem logged_entry_shows_today :
  forall (ft : FloatText) (laws : FloatTextLaws ft) (cs : Console)
         (now : DateTime) (es : list LogEntry) (food_name : PyStr.str)
         (c p cb f : float) (serving_text : PyStr.str),
    forallb encodable es = true ->
    PyStr.no_surrogate_pair food_name = true ->
    PyStr.no_surrogate_pair serving_text = true ->
    forallb showable (filter (on_date now) es) = true ->
    fromisoformat_ok (isoformat now) = true ->
    markup_ok food_name = true ->
    markup_ok serving_text = true ->
    entriesForDate now
      (log_food now (log_of es) food_name c p cb f serving_text) =
    Ok (map entry_dict
          (filter (on_date now) es
           ++ [mkEntry (isoformat now) food_name serving_text c p cb f])%list,
        sum_totals
          (filter (on_date now) es
           ++ [mkEntry (isoformat now) food_name serving_text c p cb f])%list).
Proof.
  intros ft laws cs now es food_name c p cb f serving_text He Hn Hs Hshown
         Ht Hmn Hms.
  unfold entriesForDate. rewrite (today_after_log_food laws); trivial.
  unfold showable. cbn [timestamp food serving]. now rewrite Ht, Hmn, Hms.
Qed.

Lemma logged_entry_shows_today_witness :
  entriesForDate (ft := BinaryText.text) (cs := PlainConsole.console)
    Examples.jan_15
    (log_food (ft := BinaryText.text) Examples.jan_15 Examples.three_entries
              "Tea" 2 0 0.5 0 "250.0 g") =
  Ok ([entry_dict Examples.oatmeal; entry_dict Examples.banana;
       entry_dict (mkEntry "2024-01-15T21:30:00" "Tea" "250.0 g" 2 0 0.5 0)],
      mkTotals 502 6.5 50.5 3.5).
Proof.
  change Examples.three_entries
    with (log_of (ft := BinaryText.text)
            [Examples.oatmeal; Examples.banana; Examples.rice]).
  rewrite (logged_entry_shows_today BinaryText.text text_laws
             PlainConsole.console Examples.jan_15
             [Examples.oatmeal; Examples.banana; Examples.rice]
             "Tea" 2 0 0.5 0 "250.0 g");
    vm_compute; reflexivity.
Defined.

(** X3: the one-decimal format prints the number of tenths nearest to the
    exact binary value of a finite float, the even one on a tie. *)
Theorem format_1f_nearest_tenth :
  forall (x : float) (s : bool) (m : positive) (e : Z),
    Prim2SF x = S754_finite s m e ->
    PyFloat.format_1f x =
      PyFloat.sign_text s ++ PyFloat.one_decimal (PyFloat.tenths m e) /\
    ((0 <= e)%Z -> PyFloat.tenths m e = (10 * Zpos m * 2 ^ e)%Z) /\
    ((e < 0)%Z ->
     (Z.abs (2 * (10 * Zpos m) - 2 * 2 ^ (- e) * PyFloat.tenths m e)
      <= 2 ^ (- e))%Z /\
     (Z.abs (2 * (10 * Zpos m) - 2 * 2 ^ (- e) * PyFloat.tenths m e)
      = (2 ^ (- e))%Z ->
      Z.even (PyFloat.tenths m e) = true)).
Proof.
  intros x s m e H. split; [| split].
  - unfold PyFloat.format_1f. now rewrite H.
  - intros He. unfold PyFloat.tenths.
    destruct (Z.leb_spec 0 e); [reflexivity | lia].
  - intros He. unfold PyFloat.tenths.
    destruct (Z.leb_spec 0 e); [lia |].
    apply round_half_even_nearest. apply Z.pow_pos_nonneg; lia.
Qed.

Lemma format_1f_nearest_tenth_witness :
  Prim2SF 0.25 = S754_finite false 4503599627370496 (-54) /\
  PyFloat.format_1f 0.25 = "0.2" /\
  PyFloat.tenths 4503599627370496 (-54) = 2%Z.
Proof.
  split; [reflexivity |].
  destruct (format_1f_nearest_tenth 0.25 false 4503599627370496 (-54) eq_refl)
    as (F & _ & _).
  split; [rewrite F |]; vm_compute; reflexivity.
Defined.

(** X4: a field whose rule selects exactly one reading of the sequence
    receives that reading's amount. *)
Theorem extract_single_match :
  forall (f : Field) (pre post : list FoodNutrient) (r : FoodNutrient),
    matches f r = true ->
    (forall x, In x pre -> matches f x = false) ->
    (forall x, In x post -> matches f x = false) ->
    filter (matches f) (pre ++ r :: post) = [r] /\
    field_value f (log_extract_nutrients (pre ++ r :: post)) = reading_amount r.
Proof.
  intros f pre post r Hr Hpre Hpost. split.
  - rewrite filter_app. cbn [filter]. rewrite Hr.
    assert (N : forall l, (forall x, In x l -> matches f x = false) ->
                          filter (matches f) l = []).
    { induction l as [| a l IH]; intros H; [reflexivity |].
      cbn [filter]. rewrite (H a (or_introl eq_refl)). apply IH.
      intros x Hx. apply H. now right. }
    now rewrite (N pre Hpre), (N post Hpost).
  - rewrite log_extract_last_match. unfold last_match.
    rewrite rev_app_distr. cbn [rev]. rewrite <- app_assoc. cbn [app].
    rewrite find_app_none.
    + cbn. now rewrite Hr.
    + apply find_none. intros x Hx. apply Hpost. now apply in_rev.
Qed.

Lemma extract_single_match_witness :
  carbs (log_extract_nutrients
           ([reading "Energy" "kcal" 89]
            ++ reading "Carbohydrate, by difference" "g" 22.75
            :: [reading "Protein" "g" 1.25])) = 22.75%float.
Proof.
  apply (extract_single_match Carbs [reading "Energy" "kcal" 89]
           [reading "Protein" "g" 1.25]
           (reading "Carbohydrate, by difference" "g" 22.75)).
  - reflexivity.
  - intros x [<- | []]. reflexivity.
  - intros x [<- | []]. reflexivity.
Defined.

(** X5: a field whose rule selects no reading of the sequence keeps its
    default 0.0. *)
Theorem unmatched_field_is_zero :
  forall (f : Field) (ns : list FoodNutrient),
    (forall x, In x ns -> matches f x = false) ->
    field_value f (log_extract_nutrients ns) = 0%float.
Proof.
  intros f ns H. rewrite log_extract_last_match. unfold last_match.
  rewrite find_none; [reflexivity |].
  intros x Hx. apply H. now apply in_rev.
Qed.

Lemma unmatched_field_is_zero_witness :
  fat (log_extract_nutrients
         [reading "Energy" "kcal" 89; reading "Protein" "g" 1.25]) = 0%float.
Proof.
  apply (unmatched_field_is_zero Fat
           [reading "Energy" "kcal" 89; reading "Protein" "g" 1.25]).
  intros x [<- | [<- | []]]; reflexivity.
Defined.

(** X6: when the detail request succeeds on a log that reads as [rows] and
    ends its last line, the log after [log] reads as [rows] followed by one
    more entry, whether or not the confirmation could be printed: the
    clock's ISO text, the description (or "Unknown food"), the serving
    text built from the serving size (100 by default) and the unit ("g" by
    default), and the four extracted values multiplied by [servings].
    The command ends with the confirmation when the console renders its
    two lines of text, and with exit status 1 otherwise. *)
Theorem log_records_scaled_values :
  forall (ft : FloatText) (laws : FloatTextLaws ft) (cs : Console)
         (get_food_details : Z -> option FoodDetail)
         (fdc_id : Z) (food : FoodDetail) (servings : float)
         (now : DateTime) (fs : file) (rows : list value),
    get_food_details fdc_id = Some food ->
    readAll fs = Ok rows ->
    newline_terminated (file_text fs) = true ->
    PyStr.no_surrogate_pair (get (description food) "Unknown food") = true ->
    PyStr.no_surrogate_pair (get (servingUnit food) "g") = true ->
    exists (d : list (PyStr.str * value)) (fs' : file),
      Commands.log get_food_details fdc_id servings now fs =
        (if markup_ok
              (Commands.logged_line (get (description food) "Unknown food"))
            && markup_ok
                 (Commands.serving_line
                    (PyStr.of_string
                       (PyFloat.format_1f
                          (get (servingSize food) 100%float * servings))
                     ++ PyStr.of_string " "
                     ++ get (servingUnit food) "g")%list)
         then Commands.Logged
                (get (description food) "Unknown food")
                (PyStr.of_string
                   (PyFloat.format_1f
                      (get (servingSize food) 100%float * servings))
                 ++ PyStr.of_string " " ++ get (servingUnit food) "g")%list
                (mkNutrition (Usda.calories (log_extract food) * servings)
                             (protein (log_extract food) * servings)
                             (carbs (log_extract food) * servings)
                             (fat (log_extract food) * servings))
                fs'
         else Commands.Exit1AfterLogging fs') /\
      readAll fs' = Ok (rows ++ [JObj d])%list /\
      dict_get d "timestamp" = Some (JStr (isoformat now)) /\
      dict_get d "food" = Some (JStr (get (description food) "Unknown food")) /\
      dict_get d "serving" =
        Some (JStr (PyStr.of_string
                      (PyFloat.format_1f
                         (get (servingSize food) 100%float * servings))
                    ++ PyStr.of_string " "
                    ++ get (servingUnit food) "g")%list) /\
      dict_get d "calories" =
        Some (JFloat (Usda.calories (log_extract food) * servings)) /\
      dict_get d "protein_g" =
        Some (JFloat (protein (log_extract food) * servings)) /\
      dict_get d "carbs_g" =
        Some (JFloat (carbs (log_extract food) * servings)) /\
      dict_get d "fat_g" =
        Some (JFloat (fat (log_extract food) * servings)).
Proof.
  intros ft laws cs get_food_details fdc_id food servings now fs rows
         Hd Hread Hnl Hname Hunit.
  set (name := get (description food) "Unknown food") in *.
  set (text := (PyStr.of_string
                  (PyFloat.format_1f
                     (get (servingSize food) 100%float * servings))
                ++ PyStr.of_string " " ++ get (servingUnit food) "g")%list).
  pose (e := mkEntry (isoformat now) name text
               (Usda.calories (log_extract food) * servings)
               (protein (log_extract food) * servings)
               (carbs (log_extract food) * servings)
               (fat (log_extract food) * servings)).
  assert (He : encodable e = true).
  { unfold encodable, e. cbn [timestamp LogStore.food serving].
    rewrite of_string_no_pair, Hname. unfold text.
    now rewrite serving_text_no_pair. }
  pose proof (readAll_append_entry laws fs rows e He Hread Hnl) as R.
  eexists. exists (append_entry fs (entry_dict e)).
  split; [| split; [exact R |]].
  - unfold Commands.log. rewrite Hd. reflexivity.
  - repeat split.
Qed.

Lemma log_records_scaled_values_witness :
  exists (d : list (PyStr.str * value)) (fs' : file),
    Commands.log (ft := BinaryText.text) (cs := PlainConsole.console)
                 Examples.details 173944 2 Examples.jan_15 None =
    Commands.Logged "Bananas, raw" "200.0 g" (mkNutrition 178 2.5 45.5 0.5)
                    fs' /\
    readAll (ft := BinaryText.text) fs' = Ok [JObj d] /\
    dict_get d "calories" = Some (JFloat 178).
Proof.
  destruct (log_records_scaled_values BinaryText.text text_laws
              PlainConsole.console Examples.details
              173944 Examples.banana_detail 2
              Examples.jan_15 None [] eq_refl eq_refl eq_refl eq_refl eq_refl)
    as (d & fs' & H & R & _ & _ & _ & C & _).
  exists d, fs'. split; [| split; [exact R | exact C]].
  etransitivity; [exact H |]. vm_compute. reflexivity.
Defined.

(** ** The API key and the requests *)

Section Strip.
Import Config.

Lemma lstrip_split s :
  exists a, s = a ++ lstrip s /\ all_chars is_space a = true.
Proof.
  induction s as [| c s (a & E & A)]; [now exists "" |].
  cbn [lstrip]. destruct (is_space c) eqn:C.
  - exists (String c a). cbn. rewrite C, A. split; [now f_equal | reflexivity].
  - now exists "".
Qed.

Lemma rstrip_split s :
  exists b, s = rstrip s ++ b /\ all_chars is_space b = true.
Proof.
  induction s as [| c s (b & E & B)]; [now exists "" |].
  cbn [rstrip]. destruct (rstrip s) as [| d r] eqn:R.
  - destruct (is_space c) eqn:C.
    + exists (String c b). cbn in *. rewrite C, B.
      split; [now f_equal | reflexivity].
    + exists b. cbn in *. split; [now f_equal | exact B].
  - exists b. split; [| exact B]. cbn in *. now f_equal.
Qed.

Lemma lstrip_clean s :
  match lstrip s with
  | String c _ => is_space c = false
  | EmptyString => True
  end.
Proof.
  induction s as [| c s IH]; [exact I |]. cbn.
  destruct (is_space c) eqn:C; [exact IH | exact C].
Qed.

Lemma rstrip_last s :
  match last_char (rstrip s) with
  | Some d => is_space d = false
  | None => True
  end.
Proof.
  induction s as [| c s IH]; [exact I |]. cbn [rstrip].
  destruct (rstrip s) as [| d r] eqn:R.
  - destruct (is_space c) eqn:C; cbn; trivial.
  - change (last_char (String c (String d r)))
      with (match last_char (String d r) with
            | Some x => Some x
            | None => Some c
            end).
    destruct (last_char (String d r)) eqn:L; [exact IH |].
    cbn in L. destruct (last_char r); discriminate.
Qed.

Lemma rstrip_head c t d r : rstrip (String c t) = String d r -> d = c.
Proof.
  cbn. destruct (rstrip t); [destruct (is_space c) |]; congruence.
Qed.

Lemma rstrip_empty s : rstrip s = "" <-> all_chars is_space s = true.
Proof.
  induction s as [| c s IH]; [easy |]. cbn.
  destruct (rstrip s) as [| d r].
  - destruct (is_space c); cbn; [tauto | easy].
  - split; [discriminate |]. intros H. apply andb_true_iff in H as [_ H].
    apply IH in H. discriminate.
Qed.

Lemma strip_empty s : strip s = "" <-> all_chars is_space s = true.
Proof.
  unfold strip. rewrite rstrip_empty.
  destruct (lstrip_split s) as (a & E & A).
  split; intros H.
  - rewrite E, all_chars_app, A, H. reflexivity.
  - rewrite E, all_chars_app in H at 1.
    apply andb_true_iff in H as [_ H]. exact H.
Qed.

Lemma strip_split text :
  exists a b, text = a ++ strip text ++ b /\
              all_chars is_space a = true /\ all_chars is_space b = true.
Proof.
  destruct (lstrip_split text) as (a & Ea & A).
  destruct (rstrip_split (lstrip text)) as (b & Eb & B).
  exists a, b. unfold strip. now rewrite <- Eb, <- Ea.
Qed.

Lemma strip_clean_ends text : clean_ends (strip text) = true.
Proof.
  unfold clean_ends, strip.
  destruct (rstrip (lstrip text)) as [| d r] eqn:R; [reflexivity |].
  pose proof (lstrip_clean text) as L.
  pose proof (rstrip_last (lstrip text)) as T.
  rewrite R in T.
  destruct (lstrip text) as [| c t]; [discriminate R |].
  apply rstrip_head in R. subst d. rewrite L. cbn [negb andb].
  destruct (last_char (String c r)); [now rewrite T | reflexivity].
Qed.

(** No key: the variable is unset or empty, and the key file is missing or
    blank. *)
Lemma get_api_key_none env key_file :
  truthy env = false ->
  key_file = None \/
  (exists text, key_file = Some text /\ all_chars is_space text = true) ->
  get_api_key env key_file = None.
Proof.
  intros T H. unfold get_api_key. rewrite T.
  destruct H as [-> | (text & -> & B)]; [now rewrite T |].
  apply strip_empty in B. now rewrite B.
Qed.

Lemma get_api_key_none_inv env key_file :
  get_api_key env key_file = None ->
  truthy env = false /\
  (key_file = None \/
   exists text, key_file = Some text /\ all_chars is_space text = true).
Proof.
  unfold get_api_key. destruct (truthy env) eqn:T.
  - rewrite T. destruct env as [[| c s] |]; discriminate.
  - intros H. split; [reflexivity |].
    destruct key_file as [text |]; [| now left].
    right. exists text. split; [reflexivity |]. apply strip_empty.
    cbn [truthy] in H. now destruct (strip text).
Qed.

End Strip.

(** X7: [get_api_key] fails (exit status 1) exactly when the environment
    variable is unset or empty and the key file is missing or holds nothing
    but white space. *)
Theorem get_api_key_fails_iff :
  forall (env key_file : option string),
    Config.get_api_key env key_file = None <->
    Config.truthy env = false /\
    (key_file = None \/
     exists text,
       key_file = Some text /\ all_chars Config.is_space text = true).
Proof.
  intros env key_file. split.
  - apply get_api_key_none_inv.
  - intros [T H]. now apply get_api_key_none.
Qed.

(** X8: a key that [get_api_key] returns is never empty.  It is the
    environment variable, unchanged, when that is set and not empty;
    otherwise it is the text of the key file without the white space
    around it, and neither begins nor ends with a white-space character. *)
Theorem get_api_key_clean :
  forall (env key_file : option string) (key : string),
    Config.get_api_key env key_file = Some key ->
    key <> "" /\
    ((Config.truthy env = true /\ env = Some key) \/
     (Config.truthy env = false /\
      exists text a b,
        key_file = Some text /\ key = Config.strip text /\
        text = a ++ key ++ b /\
        all_chars Config.is_space a = true /\
        all_chars Config.is_space b = true /\
        Config.clean_ends key = true)).
Proof.
  intros env key_file key. unfold Config.get_api_key.
  destruct (Config.truthy env) eqn:T.
  - rewrite T. intros [= ->]. split; [| now left].
    intros ->. discriminate T.
  - destruct key_file as [text |]; [| rewrite T; discriminate].
    cbn [Config.truthy].
    destruct (Config.strip text) as [| c s] eqn:S; [discriminate |].
    intros [= <-]. split; [discriminate |]. right. split; [reflexivity |].
    destruct (strip_split text) as (a & b & E & A & B).
    exists text, a, b. rewrite <- S.
    split; [reflexivity |]. split; [reflexivity |]. split; [exact E |].
    split; [exact A |]. split; [exact B |]. apply strip_clean_ends.
Qed.

Lemma get_api_key_clean_witness :
  Config.get_api_key (Some "") (Some Samples.key_file_text) = Some "k3y" /\
  Config.clean_ends "k3y" = true.
Proof.
  split; [reflexivity |].
  destruct (get_api_key_clean (Some "") (Some Samples.key_file_text) "k3y"
              eq_refl)
    as [_ [[H _] | (_ & text & a & b & _ & _ & _ & _ & _ & C)]];
    [discriminate H | exact C].
Defined.

(** X9: without a key, none of the three commands gets an answer from the
    service, whatever the service would have answered: [search], [log] and
    [quick] all end with exit status 1, and nothing is logged. *)
Theorem commands_need_api_key :
  forall (ft : FloatText) (cs : Console) (env key_file : option string)
         (request_results :
            string -> list (string * Requests.param) -> option Search.Results)
         (request_hits :
            string -> list (string * Requests.param)
            -> option Commands.SearchResponse)
         (request_detail :
            string -> list (string * Requests.param) -> option FoodDetail)
         (query : string) (count fdc_id : Z) (servings : float)
         (now : DateTime) (fs : file),
    Config.truthy env = false ->
    key_file = None \/
    (exists text,
        key_file = Some text /\ all_chars Config.is_space text = true) ->
    Search.search (Requests.search_food request_results env key_file)
                  query count = Search.Exit1 /\
    Commands.log (Requests.get_food_details request_detail env key_file)
                 fdc_id servings now fs = Commands.Exit1 /\
    Commands.quick (Requests.get_food_details request_detail env key_file)
                   (Requests.search_food request_hits env key_file)
                   query servings now fs = Commands.Exit1.
Proof.
  intros ft cs env key_file rr rh rd query count fdc_id servings now fs T K.
  pose proof (get_api_key_none env key_file T K) as H.
  unfold Search.search, Commands.log, Commands.quick,
    Requests.search_food, Requests.get_food_details.
  rewrite H. split; [reflexivity |]. split; reflexivity.
Qed.

Lemma commands_need_api_key_witness :
  Search.search
    (Requests.search_food Samples.request_results None (Some " "))
    "banana" 10 = Search.Exit1 /\
  Commands.log (ft := BinaryText.text) (cs := PlainConsole.console)
    (Requests.get_food_details Samples.request_detail None (Some " "))
    173944 1.5 Examples.jan_15 None = Commands.Exit1 /\
  Commands.quick (ft := BinaryText.text) (cs := PlainConsole.console)
    (Requests.get_food_details Samples.request_detail None (Some " "))
    (Requests.search_food Samples.request_hits None (Some " "))
    "banana" 1.5 Examples.jan_15 None = Commands.Exit1.
Proof.
  apply (commands_need_api_key BinaryText.text PlainConsole.console None
           (Some " ")
           Samples.request_results Samples.request_hits
           Samples.request_detail "banana" 10 173944 1.5 Examples.jan_15 None).
  - reflexivity.
  - right. exists " ". split; reflexivity.
Defined.

(** ** The [search] command *)

Section SearchTable.

Lemma calorie_cell_skip pre rest :
  (forall x, In x pre -> Search.is_energy x = false) ->
  Search.calorie_cell (pre ++ rest) = Search.calorie_cell rest.
Proof.
  induction pre as [| a pre IH]; intros H; [reflexivity |].
  cbn [app Search.calorie_cell]. rewrite (H a (or_introl eq_refl)).
  apply IH. intros x Hx. apply H. now right.
Qed.

Lemma table_rows_Forall2 foods :
  forall rows,
    Search.table_rows foods = Search.Done rows ->
    Forall2 (fun food row => Search.food_row food = Search.Done row) foods rows.
Proof.
  induction foods as [| f foods IH]; intros rows; cbn [Search.table_rows].
  - intros [= <-]. constructor.
  - destruct (Search.food_row f) as [row | e] eqn:R; [| discriminate].
    destruct (Search.table_rows foods) as [rs | e]; [| discriminate].
    intros [= <-]. constructor; [exact R | now apply IH].
Qed.

Lemma table_rows_raises foods bad e :
  In bad foods -> Search.food_row bad = Search.Raised e ->
  exists e', Search.table_rows foods = Search.Raised e'.
Proof.
  intros Hin Hbad. induction foods as [| f foods IH]; [destruct Hin |].
  cbn [Search.table_rows]. destruct Hin as [-> | Hin].
  - rewrite Hbad. eauto.
  - destruct (Search.food_row f); [| eauto].
    destruct (IH Hin) as [e' ->]. eauto.
Qed.

Lemma int_not_a_number x :
  PrimFloat.is_nan x = true \/ PrimFloat.is_infinity x = true ->
  exists e, Search.int (Search.Float x) = Search.Raised e.
Proof.
  intros Hx. cbn [Search.int]. destruct Hx as [Hx | Hx].
  - rewrite (is_nan_eq x Hx). cbn. eauto.
  - unfold PrimFloat.is_infinity in Hx.
    pose proof (FloatAxioms.eqb_spec (abs x) infinity) as E.
    rewrite Hx in E. rewrite FloatAxioms.abs_spec in E.
    destruct (Prim2SF x) as [| | |]; cbn in E; try discriminate; eauto.
Qed.

End SearchTable.

(** X10: the calories column of [search] shows the first nutrient named
    exactly "Energy" in sequence order, as an integer; later ones are not
    looked at.  Without such a nutrient it shows "N/A". *)
Theorem search_shows_first_energy :
  forall (pre post : list Search.SearchNutrient) (n : Search.SearchNutrient)
         (z : Z),
    (forall x, In x pre -> Search.is_energy x = false) ->
    Search.is_energy n = true ->
    Search.int (get (Search.value n) (Search.Int 0)) = Search.Done z ->
    Search.calorie_cell (pre ++ n :: post) = Search.Done (intstr z) /\
    Search.calorie_cell pre = Search.Done "N/A".
Proof.
  intros pre post n z Hpre Hn Hz. split.
  - rewrite (calorie_cell_skip pre _ Hpre). cbn [Search.calorie_cell].
    now rewrite Hn, Hz.
  - rewrite <- (app_nil_r pre). now rewrite (calorie_cell_skip pre [] Hpre).
Qed.

Lemma search_shows_first_energy_witness :
  Search.calorie_cell Samples.banana_nutrients = Search.Done "89".
Proof.
  refine (proj1 (search_shows_first_energy
                   [Search.mkSearchNutrient (Some "Protein")
                      (Some (Search.Float 1.25))]
                   [Search.mkSearchNutrient (Some "Energy")
                      (Some (Search.Int 371))]
                   (Search.mkSearchNutrient (Some "Energy")
                      (Some (Search.Float 89.75)))
                   89%Z _ _ _)).
  - intros x [<- | []]. reflexivity.
  - reflexivity.
  - vm_compute. reflexivity.
Defined.

(** X11: [int] cuts a finite float off towards zero: for the float
    [(-1)^s * m * 2^e] the result is [q] with the float's sign, where [q]
    is the natural number with [q <= m * 2^e < q + 1]. *)
Theorem int_cuts_towards_zero :
  forall (x : float) (s : bool) (m : positive) (e : Z),
    Prim2SF x = S754_finite s m e ->
    exists q : Z,
      Search.int (Search.Float x) = Search.Done (if s then (- q)%Z else q) /\
      (0 <= q)%Z /\
      (q * 2 ^ Z.max (- e) 0 <= Zpos m * 2 ^ Z.max e 0)%Z /\
      (Zpos m * 2 ^ Z.max e 0 < (q + 1) * 2 ^ Z.max (- e) 0)%Z.
Proof.
  intros x s m e H. exists (Search.integer_part m e).
  unfold Search.int. rewrite H. split; [reflexivity |].
  unfold Search.integer_part.
  destruct (Z.leb_spec 0 e) as [He | He].
  - rewrite (Z.max_r (- e) 0), (Z.max_l e 0) by lia.
    assert (0 < 2 ^ e)%Z by (apply Z.pow_pos_nonneg; lia).
    rewrite Z.pow_0_r. nia.
  - rewrite (Z.max_l (- e) 0), (Z.max_r e 0) by lia.
    assert (P : (0 < 2 ^ (- e))%Z) by (apply Z.pow_pos_nonneg; lia).
    pose proof (Z.div_mod (Zpos m) (2 ^ (- e)) ltac:(lia)) as D.
    pose proof (Z.mod_pos_bound (Zpos m) (2 ^ (- e)) P) as B.
    assert (0 <= Zpos m / 2 ^ (- e))%Z by (apply Z.div_pos; lia).
    split; [assumption |]. rewrite Z.pow_0_r. nia.
Qed.

Lemma int_cuts_towards_zero_witness :
  Prim2SF (-2.5) = S754_finite true 5629499534213120 (-51) /\
  Search.int (Search.Float (-2.5)) = Search.Done (-2)%Z.
Proof.
  split; [reflexivity |].
  destruct (int_cuts_towards_zero (-2.5) true 5629499534213120 (-51) eq_refl)
    as (q & E & Hq & Hlo & Hhi).
  rewrite E. f_equal.
  change (2 ^ Z.max (- -51) 0)%Z with 2251799813685248%Z in Hlo, Hhi.
  change (2 ^ Z.max (-51) 0)%Z with 1%Z in Hlo, Hhi.
  lia.
Defined.

(** X12: when [search] prints a table, the service answered with a list of
    foods that is not empty, and the table has exactly one row for each
    food, in the order of the answer, showing the food's id and its
    description ("Unknown" without one). *)
Theorem search_shows_one_row_per_food :
  forall (search_food : string -> Z -> option Search.Results)
         (query : string) (count : Z) (rows : list Search.Row),
    Search.search search_food query count = Search.Shown rows ->
    exists foods,
      search_food query count = Some (Search.mkResults (Some foods)) /\
      foods <> [] /\
      Forall2 (fun food row => Search.food_row food = Search.Done row)
              foods rows /\
      map (fun row => Some (Search.row_id row)) rows =
      map (fun f => option_map intstr (Search.fdcId f)) foods /\
      map Search.row_food rows =
      map (fun f => get (Search.description f) "Unknown") foods.
Proof.
  intros sf query count rows. unfold Search.search.
  destruct (sf query count) as [[[foods |]] |]; cbn [Search.foods get];
    try discriminate.
  destruct foods as [| f foods]; [discriminate |].
  destruct (Search.table_rows (f :: foods)) as [rs | e] eqn:T; [| discriminate].
  intros [= <-]. exists (f :: foods).
  split; [reflexivity |]. split; [discriminate |].
  pose proof (table_rows_Forall2 _ _ T) as F. split; [exact F |].
  clear T.
  induction F as [| food row fs rs' R F [IH1 IH2]]; [split; reflexivity |].
  cbn [map]. unfold Search.food_row in R.
  destruct (Search.fdcId food) as [id |]; [| discriminate].
  destruct (Search.calorie_cell _); [| discriminate].
  injection R as <-. cbn [Search.row_id Search.row_food option_map].
  now rewrite IH1, IH2.
Qed.

Lemma search_shows_one_row_per_food_witness :
  Search.search Samples.search_food "banana" 10 = Search.Shown Samples.rows /\
  exists foods,
    Samples.search_food "banana" 10%Z = Some (Search.mkResults (Some foods)) /\
    foods <> [] /\
    Forall2 (fun food row => Search.food_row food = Search.Done row)
            foods Samples.rows /\
    map (fun row => Some (Search.row_id row)) Samples.rows =
    map (fun f => option_map intstr (Search.fdcId f)) foods /\
    map Search.row_food Samples.rows =
    map (fun f => get (Search.description f) "Unknown") foods.
Proof.
  assert (H : Search.search Samples.search_food "banana" 10
              = Search.Shown Samples.rows) by (vm_compute; reflexivity).
  split; [exact H |].
  exact (search_shows_one_row_per_food Samples.search_food "banana" 10
           Samples.rows H).
Defined.

(** X13: one food that cannot be shown hides the whole table.  When any
    food of the answer has no id, or has as its first "Energy" nutrient a
    value that is NaN or infinite, [search] prints no row at all and ends
    with exit status 1. *)
Theorem search_bad_food_hides_table :
  forall (search_food : string -> Z -> option Search.Results)
         (query : string) (count : Z) (foods : list Search.FoodSummary)
         (bad : Search.FoodSummary),
    search_food query count = Some (Search.mkResults (Some foods)) ->
    In bad foods ->
    (Search.fdcId bad = None \/
     exists pre n post x,
       Search.foodNutrients bad = Some (pre ++ n :: post)%list /\
       (forall y, In y pre -> Search.is_energy y = false) /\
       Search.is_energy n = true /\
       Search.value n = Some (Search.Float x) /\
       (PrimFloat.is_nan x = true \/ PrimFloat.is_infinity x = true)) ->
    Search.search search_food query count = Search.Exit1.
Proof.
  intros sf query count foods bad Hsf Hin Hbad.
  assert (R : exists e, Search.food_row bad = Search.Raised e).
  { unfold Search.food_row.
    destruct Hbad as [-> | (pre & n & post & x & Hn & Hpre & He & Hv & Hx)];
      [eauto |].
    destruct (Search.fdcId bad); [| eauto].
    rewrite Hn. cbn [get]. rewrite (calorie_cell_skip pre _ Hpre).
    cbn [Search.calorie_cell]. rewrite He, Hv. cbn [get].
    destruct (int_not_a_number x Hx) as [e ->]. eauto. }
  destruct R as [e R].
  unfold Search.search. rewrite Hsf. cbn [Search.foods get].
  destruct foods as [| f foods]; [destruct Hin |].
  destruct (table_rows_raises (f :: foods) bad e Hin R) as [e' ->].
  reflexivity.
Qed.

Lemma search_bad_food_hides_table_witness :
  Search.search Samples.broken_search_food "banana" 10 = Search.Exit1.
Proof.
  apply (search_bad_food_hides_table Samples.broken_search_food "banana" 10
           [Samples.banana_summary; Samples.broken_summary;
            Samples.chips_summary]
           Samples.broken_summary eq_refl).
  - right. left. reflexivity.
  - right.
    exists [], (Search.mkSearchNutrient (Some "Energy")
                  (Some (Search.Float nan))), [], nan.
    split; [reflexivity |]. split; [intros y [] |].
    split; [reflexivity |]. split; [reflexivity |]. left. reflexivity.
Defined.

(** ** The day of an entry *)

Section Dates.

Lemma padded_below (width bound : nat) :
  forallb (Shape.padded_ok width) (map N.of_nat (seq 0 bound)) = true ->
  forall n, (n < N.of_nat bound)%N ->
    String.length (zfill width (PyStr.digits n)) = width /\
    of_digits (zfill width (PyStr.digits n)) = n.
Proof.
  intros H n Hn. rewrite forallb_forall in H.
  specialize (H n). unfold Shape.padded_ok in H.
  rewrite andb_true_iff, Nat.eqb_eq, N.eqb_eq in H. apply H.
  rewrite <- (N2Nat.id n). apply in_map. apply in_seq. lia.
Qed.

Lemma padded4 n : (n < 10000)%N ->
  String.length (zfill 4 (PyStr.digits n)) = 4%nat /\
  of_digits (zfill 4 (PyStr.digits n)) = n.
Proof.
  intros H. apply (padded_below 4 (100 * 100)); [vm_compute; reflexivity |].
  exact H.
Qed.

Lemma padded2 n : (n < 100)%N ->
  String.length (zfill 2 (PyStr.digits n)) = 2%nat /\
  of_digits (zfill 2 (PyStr.digits n)) = n.
Proof.
  intros H. apply (padded_below 2 100); [vm_compute; reflexivity |].
  exact H.
Qed.

Lemma append_inj_length a b x y :
  String.length a = String.length b -> a ++ x = b ++ y -> a = b /\ x = y.
Proof.
  revert b. induction a as [| c a IH]; intros [| d b]; cbn; try discriminate.
  - auto.
  - intros [= L] [= -> E]. destruct (IH b L E) as [-> ->]. auto.
Qed.

Lemma has_prefix_same_length a b rest :
  String.length a = String.length b ->
  PyStr.has_prefix a (b ++ rest) = true -> a = b.
Proof.
  revert b. induction a as [| c a IH]; intros [| d b]; cbn; try discriminate.
  - auto.
  - intros [= L]. rewrite andb_true_iff, Ascii.eqb_eq. intros [-> H].
    f_equal. now apply IH.
Qed.

Lemma date_isoformat_length d :
  (year d < 10000)%N -> (month d < 100)%N -> (day d < 100)%N ->
  String.length (date_isoformat d) = 10%nat.
Proof.
  intros Hy Hm Hd. unfold date_isoformat.
  rewrite !length_append.
  rewrite (proj1 (padded4 _ Hy)), (proj1 (padded2 _ Hm)), (proj1 (padded2 _ Hd)).
  reflexivity.
Qed.

Lemma date_isoformat_inj a b :
  (year a < 10000)%N -> (month a < 100)%N -> (day a < 100)%N ->
  (year b < 10000)%N -> (month b < 100)%N -> (day b < 100)%N ->
  date_isoformat a = date_isoformat b ->
  year a = year b /\ month a = month b /\ day a = day b.
Proof.
  intros Hya Hma Hda Hyb Hmb Hdb. unfold date_isoformat. intros E.
  destruct (padded4 _ Hya) as [Lya Rya]. destruct (padded4 _ Hyb) as [Lyb Ryb].
  destruct (padded2 _ Hma) as [Lma Rma]. destruct (padded2 _ Hmb) as [Lmb Rmb].
  destruct (padded2 _ Hda) as [Lda Rda]. destruct (padded2 _ Hdb) as [Ldb Rdb].
  apply append_inj_length in E; [| congruence]. destruct E as [Ey E].
  injection E as E. apply append_inj_length in E; [| congruence].
  destruct E as [Em E]. injection E as E.
  rewrite <- Rya, <- Ryb, <- Rma, <- Rmb, <- Rda, <- Rdb.
  now rewrite Ey, Em, E.
Qed.

Lemma date_in_range_bounds d :
  Shape.date_in_range d = true ->
  (year d < 10000)%N /\ (month d < 100)%N /\ (day d < 100)%N.
Proof.
  unfold Shape.date_in_range. rewrite !andb_true_iff, !N.leb_le. lia.
Qed.

End Dates.

(** X14: the test by which [today] selects an entry, that its timestamp
    text starts with the ISO text of today's date, holds for an entry
    stamped by the clock exactly when the entry was written on the same
    calendar day: same year, same month and same day, whatever the time. *)
Theorem today_selects_same_day :
  forall (now d : DateTime) (e : LogEntry),
    Shape.date_in_range now = true -> Shape.date_in_range d = true ->
    timestamp e = isoformat d ->
    (on_date now e = true <->
     year d = year now /\ month d = month now /\ day d = day now).
Proof.
  intros now d e Hnow Hd Ht.
  destruct (date_in_range_bounds _ Hnow) as (Hy & Hm & Hdy).
  destruct (date_in_range_bounds _ Hd) as (Hy' & Hm' & Hdy').
  unfold on_date. rewrite Ht, str_startswith_of_string. unfold isoformat.
  split.
  - intros H. apply has_prefix_same_length in H.
    + symmetry in H. now apply date_isoformat_inj.
    + now rewrite !date_isoformat_length.
  - intros (Ey & Em & Ed).
    assert (E : date_isoformat now = date_isoformat d)
      by (unfold date_isoformat; now rewrite Ey, Em, Ed).
    rewrite E. apply has_prefix_app.
Qed.

Lemma today_selects_same_day_witness :
  timestamp Examples.oatmeal = isoformat (mkDateTime 2024 1 15 8 30 0 0) /\
  on_date Examples.jan_15 Examples.oatmeal = true.
Proof.
  assert (T : timestamp Examples.oatmeal
              = isoformat (mkDateTime 2024 1 15 8 30 0 0))
    by (vm_compute; reflexivity).
  split; [exact T |].
  apply (proj2 (today_selects_same_day Examples.jan_15
                  (mkDateTime 2024 1 15 8 30 0 0) Examples.oatmeal
                  eq_refl eq_refl T)).
  split; [reflexivity |]. split; reflexivity.
Defined.

(** X15: on a log written by appends alone, [today] ends in one of three
    ways when every entry of the clock's date can be shown.  With nothing
    logged there is no file, and it says so; with entries but none of the
    clock's date, it says that nothing was logged today; otherwise it shows
    the entries of the date in log order with their field-wise sums.  When
    an entry of the date cannot be shown, [today] raises. *)
Theorem today_report_cases :
  forall (ft : FloatText) (laws : FloatTextLaws ft) (cs : Console)
         (now : DateTime) (es : list LogEntry),
    forallb encodable es = true ->
    (forallb showable (filter (on_date now) es) = true ->
     today now (log_of es) =
     Ok match es with
        | [] => NoFoodsLoggedYet
        | _ :: _ =>
            match filter (on_date now) es with
            | [] => NoFoodsLoggedToday
            | e :: rows =>
                Table (map entry_dict (e :: rows)) (sum_totals (e :: rows))
            end
        end) /\
    (forallb showable (filter (on_date now) es) = false ->
     exists x, today now (log_of es) = Raise x).
Proof.
  intros ft laws cs now es He. split; intros Hs.
  - now apply today_log_of.
  - now apply today_log_of_raises.
Qed.

Lemma today_report_cases_witness :
  today (ft := BinaryText.text) (cs := PlainConsole.console) Examples.jan_15
    (log_of (ft := BinaryText.text) [Examples.rice]) = Ok NoFoodsLoggedToday /\
  today (ft := BinaryText.text) (cs := PlainConsole.console) Examples.jan_15
    (log_of (ft := BinaryText.text) [Examples.rice; Examples.oatmeal]) =
  Ok (Table [entry_dict Examples.oatmeal] (mkTotals 200 5 27 3)) /\
  exists x,
    today (ft := BinaryText.text) (cs := PlainConsole.console) Examples.jan_15
      (log_of (ft := BinaryText.text) [Examples.rice; Samples.tagged_entry]) =
    Raise x.
Proof.
  split; [| split].
  - rewrite (proj1 (today_report_cases BinaryText.text text_laws
                      PlainConsole.console Examples.jan_15
                      [Examples.rice] eq_refl) eq_refl).
    reflexivity.
  - rewrite (proj1 (today_report_cases BinaryText.text text_laws
                      PlainConsole.console Examples.jan_15
                      [Examples.rice; Examples.oatmeal] eq_refl));
      vm_compute; reflexivity.
  - apply (proj2 (today_report_cases BinaryText.text text_laws
                    PlainConsole.console Examples.jan_15
                    [Examples.rice; Samples.tagged_entry] eq_refl)).
    vm_compute. reflexivity.
Defined.

(** X16: [today] reads only the timestamp of the entries of other days,
    and is not protected against a bad entry of the clock's date.  On a
    log whose lines all decode to dictionaries with a text timestamp, it
    shows the entries of the date with their sums when each of them can be
    shown, whatever the lines of other days hold besides the timestamp,
    and raises when one of them cannot; an entry of the date without a
    food, a serving or one of the four values is such an entry. *)
Theorem today_needs_values_of_the_day_only :
  forall (ft : FloatText) (cs : Console) (now : DateTime) (content : string)
         (js : list value),
    readAll (Some content) = Ok js ->
    (forallb displayable (filter (starts_with_date (date_isoformat now)) js)
       = true ->
     today now (Some content) =
     Ok match filter (starts_with_date (date_isoformat now)) js with
        | [] => NoFoodsLoggedToday
        | row :: rows => Table (row :: rows) (field_sums (row :: rows))
        end) /\
    (forallb displayable (filter (starts_with_date (date_isoformat now)) js)
       = false ->
     exists x, today now (Some content) = Raise x) /\
    (forall bad key,
        In bad (filter (starts_with_date (date_isoformat now)) js) ->
        In key (map PyStr.of_string
                  ["food"; "serving"; "calories"; "protein_g"; "carbs_g";
                   "fat_g"]) ->
        getitem bad key = Raise KeyError ->
        exists x, today now (Some content) = Raise x).
Proof.
  intros ft cs now content js H. split; [| split].
  - intros D. now apply today_of_rows.
  - intros D. now apply (today_raises now content js).
  - intros bad key Hin Hk Hbad. apply (today_raises now content js H).
    apply (forallb_In_false _ _ bad Hin).
    exact (missing_key_not_displayable bad key Hk Hbad).
Qed.

Lemma today_needs_values_of_the_day_only_witness :
  (exists x, today (ft := BinaryText.text) (cs := PlainConsole.console)
               Examples.jan_15 (Some Samples.bare_today_log) = Raise x) /\
  today (ft := BinaryText.text) (cs := PlainConsole.console) Examples.jan_15
    (Some Samples.bare_other_day_log) =
  Ok (Table [entry_dict Examples.oatmeal] (mkTotals 200 5 27 3)).
Proof.
  split.
  - assert (R : readAll (ft := BinaryText.text) (Some Samples.bare_today_log)
                = Ok [entry_dict Examples.oatmeal;
                      JObj [(PyStr.of_string "timestamp",
                             JStr (PyStr.of_string "2024-01-15T10:00:00"));
                            (PyStr.of_string "food",
                             JStr (PyStr.of_string "Tea"))]])
      by (vm_compute; reflexivity).
    destruct (today_needs_values_of_the_day_only BinaryText.text
                PlainConsole.console Examples.jan_15 Samples.bare_today_log
                _ R) as (_ & _ & H).
    apply (H (JObj [(PyStr.of_string "timestamp",
                     JStr (PyStr.of_string "2024-01-15T10:00:00"));
                    (PyStr.of_string "food", JStr (PyStr.of_string "Tea"))])
             (PyStr.of_string "calories")).
    + right. left. reflexivity.
    + right. right. left. reflexivity.
    + reflexivity.
  - assert (R : readAll (ft := BinaryText.text)
                  (Some Samples.bare_other_day_log)
                = Ok [entry_dict Examples.oatmeal;
                      JObj [(PyStr.of_string "timestamp",
                             JStr (PyStr.of_string "2024-01-16T10:00:00"));
                            (PyStr.of_string "food",
                             JStr (PyStr.of_string "Tea"))]])
      by (vm_compute; reflexivity).
    rewrite (proj1 (today_needs_values_of_the_day_only BinaryText.text
                      PlainConsole.console Examples.jan_15
                      Samples.bare_other_day_log _ R));
      vm_compute; reflexivity.
Defined.

(** ** The text of a log line *)

Section Printable.

Lemma escape_char_printable c :
  all_chars Shape.printable (escape_char c) = true.
Proof.
  apply escape_char_all. intros a Ha. unfold Shape.printable.
  apply andb_true_iff. split; apply N.leb_le; lia.
Qed.

Lemma escape_printable s : all_chars Shape.printable (escape s) = true.
Proof.
  induction s as [| c s IH]; [reflexivity |].
  cbn [escape]. now rewrite all_chars_app, escape_char_printable, IH.
Qed.

Lemma number_char_printable c :
  number_char c = true -> Shape.printable c = true.
Proof.
  intros H.
  destruct c as [[] [] [] [] [] [] [] []]; try reflexivity; discriminate H.
Qed.

Lemma encode_printable s :
  all_chars Shape.printable (encode_basestring_ascii s) = true.
Proof.
  unfold encode_basestring_ascii. cbn [all_chars].
  now rewrite all_chars_app, escape_printable.
Qed.

Context {ft : FloatText} (laws : FloatTextLaws ft).

Lemma floatstr_printable x : all_chars Shape.printable (floatstr x) = true.
Proof.
  unfold floatstr.
  destruct (PrimFloat.is_nan x) eqn:Hn; [reflexivity |].
  destruct (x =? infinity)%float eqn:Hp; [reflexivity |].
  destruct (x =? neg_infinity)%float eqn:Hm; [reflexivity |].
  pose proof (finite_cases x Hn Hp Hm) as Hx.
  destruct (float_repr_shape laws x Hx)
    as (i & f & e & c & t & _ & _ & _ & N & _).
  apply (all_chars_impl number_char); [apply number_char_printable | exact N].
Qed.

Lemma dumps_flat_printable v :
  flat v = true -> all_chars Shape.printable (dumps v) = true.
Proof.
  destruct v; try discriminate; intros _; cbn [dumps].
  - apply floatstr_printable.
  - apply encode_printable.
Qed.

Lemma members_text_printable pairs :
  forallb flat (map snd pairs) = true ->
  all_chars Shape.printable (members_text pairs) = true.
Proof.
  induction pairs as [| [k v] more IH]; [reflexivity |].
  cbn [map snd forallb]. intros H. apply andb_true_iff in H as [Hv Hmore].
  change (members_text ((k, v) :: more)) with
    (match more with
     | [] => encode_basestring_ascii k ++ ": " ++ dumps v
     | _ :: _ =>
         encode_basestring_ascii k ++ ": " ++ dumps v ++ ", "
         ++ members_text more
     end).
  destruct more as [| p more];
    rewrite !all_chars_app, encode_printable, (dumps_flat_printable v Hv);
    [reflexivity |].
  now rewrite (IH Hmore).
Qed.

Lemma dumps_object_printable pairs :
  forallb flat (map snd pairs) = true ->
  all_chars Shape.printable (dumps (JObj pairs)) = true.
Proof.
  intros H. rewrite dumps_object. cbn [append all_chars].
  now rewrite all_chars_app, (members_text_printable pairs H).
Qed.

End Printable.

(** X17: whatever characters the food name and the serving text hold,
    [log_food] adds to the file only printable ASCII characters followed by
    one line feed: the encoder escapes everything outside [' '..'~']. *)
Theorem log_food_writes_printable_ascii :
  forall (ft : FloatText) (laws : FloatTextLaws ft) (now : DateTime) (fs : file)
         (food_name : PyStr.str) (c p cb f : float)
         (serving_text : PyStr.str),
    exists body : string,
      log_food now fs food_name c p cb f serving_text =
        Some (file_text fs ++ body ++ String "010" "") /\
      all_chars Shape.printable body = true.
Proof.
  intros ft laws now fs food_name c p cb f serving_text.
  exists (dumps (entry_dict
                   (mkEntry (isoformat now) food_name serving_text c p cb f))).
  split; [reflexivity |]. now apply (dumps_object_printable laws).
Qed.

Lemma log_food_writes_printable_ascii_witness :
  exists body : string,
    log_food (ft := BinaryText.text) Examples.jan_15 None
      Samples.lays 205 4.25 45 0.5 "1.0 cup" =
      Some (file_text None ++ body ++ String "010" "") /\
    all_chars Shape.printable body = true.
Proof.
  exact (log_food_writes_printable_ascii BinaryText.text text_laws
           Examples.jan_15 None Samples.lays 205 4.25 45 0.5 "1.0 cup").
Defined.

(** ** From a command to the report *)

Lemma quick_file_after {ft : FloatText} {cs : Console}
  (get_food_details : Z -> option FoodDetail)
  (search_food : string -> Z -> option Commands.SearchResponse)
  query servings now fs hit others id food :
  search_food query 1%Z = Some (Commands.mkResponse (Some (hit :: others))) ->
  Commands.fdcId hit = Some id ->
  markup_ok (Commands.found_line hit) = true ->
  get_food_details id = Some food ->
  Commands.file_after
    (Commands.quick get_food_details search_food query servings now fs) fs =
  log_food now fs (get (description food) "Unknown food")
    (Usda.calories (quick_extract food) * servings)
    (protein (quick_extract food) * servings)
    (carbs (quick_extract food) * servings)
    (fat (quick_extract food) * servings)
    (PyStr.of_string
       (PyFloat.format_1f (get (servingSize food) 100%float * servings))
     ++ PyStr.of_string " " ++ get (servingUnit food) "g")%list.
Proof.
  intros Hs Hid Hm Hd.
  unfold Commands.quick. rewrite Hs. cbn [Commands.foods get].
  rewrite Hid, Hm, Hd. unfold Commands.quick_detail, quick_scale.
  destruct (markup_ok _ && markup_ok _); reflexivity.
Qed.

(** X18: when the first hit of [quick] has an id, the console renders the
    line that names the hit and the detail request succeeds, [quick]
    appends the entry of the food: the description (or "Unknown food"), the
    serving text and the four extracted values multiplied by [servings],
    whether or not the confirmation could be printed.  On a log written by
    appends, [today], run on the same date, then shows a table whose last
    row is that entry, after the earlier entries of the date, with the
    entry counted in the totals, provided each entry of the date can be
    shown. *)
Theorem quick_entry_shows_today :
  forall (ft : FloatText) (laws : FloatTextLaws ft) (cs : Console)
         (get_food_details : Z -> option FoodDetail)
         (search_food : string -> Z -> option Commands.SearchResponse)
         (query : string) (servings : float) (now : DateTime)
         (es : list LogEntry)
         (hit : Commands.SearchHit) (others : list Commands.SearchHit)
         (id : Z) (food : FoodDetail),
    search_food query 1%Z = Some (Commands.mkResponse (Some (hit :: others))) ->
    Commands.fdcId hit = Some id ->
    markup_ok (Commands.found_line hit) = true ->
    get_food_details id = Some food ->
    forallb encodable es = true ->
    PyStr.no_surrogate_pair (get (description food) "Unknown food") = true ->
    PyStr.no_surrogate_pair (get (servingUnit food) "g") = true ->
    exists (entry : LogEntry),
      Commands.file_after
        (Commands.quick get_food_details search_food query servings now
                        (log_of es))
        (log_of es) = append_entry (log_of es) (entry_dict entry) /\
      entry =
        mkEntry (isoformat now) (get (description food) "Unknown food")
          (PyStr.of_string
             (PyFloat.format_1f (get (servingSize food) 100%float * servings))
           ++ PyStr.of_string " " ++ get (servingUnit food) "g")%list
          (Usda.calories (quick_extract food) * servings)
          (protein (quick_extract food) * servings)
          (carbs (quick_extract food) * servings)
          (fat (quick_extract food) * servings) /\
      (forallb showable (filter (on_date now) es) = true ->
       showable entry = true ->
       today now
         (Commands.file_after
            (Commands.quick get_food_details search_food query servings now
                            (log_of es))
            (log_of es)) =
       Ok (Table
             (map entry_dict (filter (on_date now) es ++ [entry])%list)
             (sum_totals (filter (on_date now) es ++ [entry])%list))).
Proof.
  intros ft laws cs gfd sf query servings now es hit others id food
         Hs Hid Hm Hd He Hname Hunit.
  eexists. split; [| split; [reflexivity |]].
  - now rewrite (quick_file_after gfd sf query servings now (log_of es)
                   hit others id food Hs Hid Hm Hd).
  - intros Hshown Hnew.
    rewrite (quick_file_after gfd sf query servings now (log_of es)
               hit others id food Hs Hid Hm Hd).
    apply (today_after_log_food laws); trivial.
    now apply serving_text_no_pair.
Qed.

Lemma quick_entry_shows_today_witness :
  exists fs' : file,
    Commands.quick (ft := BinaryText.text) (cs := PlainConsole.console)
      Examples.details Examples.search
      "banana" 1.5 Examples.jan_15
      (log_of (ft := BinaryText.text) [Examples.oatmeal]) =
    Commands.Logged "Bananas, raw" "150.0 g"
      (mkNutrition 133.5 1.875 34.125 0.375) fs' /\
    today (ft := BinaryText.text) (cs := PlainConsole.console)
      Examples.jan_15 fs' =
    Ok (Table
          [entry_dict Examples.oatmeal;
           entry_dict (mkEntry "2024-01-15T21:30:00" "Bananas, raw" "150.0 g"
                               133.5 1.875 34.125 0.375)]
          (mkTotals 333.5 6.875 61.125 3.375)).
Proof.
  destruct (quick_entry_shows_today BinaryText.text text_laws
              PlainConsole.console Examples.details
              Examples.search "banana" 1.5 Examples.jan_15 [Examples.oatmeal]
              (Commands.mkHit (Some 173944%Z)
                              (Some (PyStr.of_string "Bananas, raw"))) []
              173944%Z Examples.banana_detail eq_refl eq_refl eq_refl eq_refl
              eq_refl eq_refl eq_refl)
    as (entry & Hf & -> & Ht).
  assert (Q : Commands.quick (ft := BinaryText.text)
                (cs := PlainConsole.console) Examples.details
                Examples.search "banana" 1.5 Examples.jan_15
                (log_of (ft := BinaryText.text) [Examples.oatmeal]) =
              Commands.Logged "Bananas, raw" "150.0 g"
                (mkNutrition 133.5 1.875 34.125 0.375)
                (log_food (ft := BinaryText.text) Examples.jan_15
                   (log_of (ft := BinaryText.text) [Examples.oatmeal])
                   "Bananas, raw" 133.5 1.875 34.125 0.375 "150.0 g"))
    by (vm_compute; reflexivity).
  eexists. split; [exact Q |].
  rewrite Q in Ht. cbn [Commands.file_after] in Ht.
  etransitivity; [| etransitivity; [apply Ht |]]; vm_compute; reflexivity.
Defined.

(** ** More on the nutrient loop *)

Section Overrides.

Lemma find_app_cases {A : Type} (p : A -> bool) (l1 l2 : list A) :
  find p (l1 ++ l2) =
  match find p l1 with
  | Some x => Some x
  | None => find p l2
  end.
Proof.
  induction l1 as [| a l1 IH]; [reflexivity |].
  cbn. now destruct (p a).
Qed.

Lemma existsb_find_rev {A : Type} (p : A -> bool) (l : list A) :
  existsb p l = match find p (rev l) with Some _ => true | None => false end.
Proof.
  induction l as [| a l IH]; [reflexivity |].
  cbn [existsb rev]. rewrite find_app_cases, IH. cbn [find].
  destruct (find p (rev l)); [apply orb_true_r |].
  destruct (p a); reflexivity.
Qed.

Lemma find_rev_filter {A : Type} (p : A -> bool) (l : list A) :
  find p (rev (filter p l)) = find p (rev l).
Proof.
  induction l as [| a l IH]; [reflexivity |].
  cbn [filter rev]. destruct (p a) eqn:Pa.
  - cbn [rev]. rewrite !find_app_cases, IH. cbn [find]. now rewrite Pa.
  - rewrite find_app_cases, IH. cbn [find]. rewrite Pa.
    now destruct (find p (rev l)).
Qed.

Lemma rules_exclusive (f g : Field) (n : FoodNutrient) :
  matches f n = true -> matches g n = true -> f = g.
Proof.
  unfold matches.
  generalize (reading_name n) (reading_unit n). intros nm u.
  destruct f, g; trivial;
    repeat match goal with
    | |- context [(nm =? ?s)%string] =>
        destruct (String.eqb_spec nm s) as [-> | ?]
    end; cbn; try discriminate; intros; discriminate.
Qed.

End Overrides.

(** X19: the readings of a food taken in two parts: each field holds what
    the second part alone gives it when the second part has a reading for
    that field, and what the first part alone gives it otherwise.  And a
    field depends only on the readings its own rule selects: dropping all
    other readings from the sequence does not change it. *)
Theorem extract_later_readings_override :
  forall (f : Field) (a b : list FoodNutrient),
    field_value f (log_extract_nutrients (a ++ b)) =
      (if existsb (matches f) b
       then field_value f (log_extract_nutrients b)
       else field_value f (log_extract_nutrients a)) /\
    field_value f (log_extract_nutrients a) =
      field_value f (log_extract_nutrients (filter (matches f) a)).
Proof.
  intros f a b. split.
  - rewrite !log_extract_last_match. unfold last_match.
    rewrite rev_app_distr, find_app_cases, existsb_find_rev.
    now destruct (find (matches f) (rev b)).
  - rewrite !log_extract_last_match. unfold last_match.
    now rewrite find_rev_filter.
Qed.

(** X20: the four rules of the loop exclude one another: no reading is
    selected by more than one of them, so the order of the [elif] branches
    does not matter, and one pass of the loop changes the field whose rule
    selects the reading and no other. *)
Theorem reading_feeds_one_field :
  forall (n : FoodNutrient),
    (List.length (filter (fun f => matches f n) [Calories; Protein; Carbs; Fat])
     <= 1)%nat /\
    forall (acc : Nutrition) (f : Field),
      field_value f (log_nutrient_step acc n) =
      if matches f n then reading_amount n else field_value f acc.
Proof.
  intros n. split; [| intros acc f; apply log_nutrient_step_field].
  cbn [filter].
  destruct (matches Calories n) eqn:A, (matches Protein n) eqn:B,
           (matches Carbs n) eqn:C, (matches Fat n) eqn:D;
    cbn [List.length]; try lia; exfalso;
    repeat match goal with
           | H1 : matches ?f n = true, H2 : matches ?g n = true |- _ =>
               pose proof (rules_exclusive f g n H1 H2) as E;
               try discriminate E; clear H2
           end.
Qed.
